(** * Protect: the strategy evaluation engine of [main.py]

    A shallow embedding of the container-abuse detector: the rule loader,
    the seven check evaluators, the strategy executor with its message
    templating, and the scan coordinator with its flagged-state store.

    Conventions of the embedding:
    - a Python value read from JSON is a [json]; a Python [dict] keeps its
      insertion order and is an association list;
    - a Python exception is the outcome [Raise] of the [result] monad; the
      source only ever discriminates [ValueError] (a failed [float()], an
      [option]) and [docker.errors.NotFound] (a [container_lookup]);
    - the file system, the container runtime and the management API are
      read through a [World]; what the sweep does to the outside is
      recorded as a list of [event]s;
    - [print] diagnostics are not modelled;
    - a [str] is a [string] whose characters are the code points below 256. *)

From Stdlib Require Import ZArith QArith String Ascii List Bool Lia DecimalString.
From stdpp Require Import base option list gmap strings.

Set Warnings "-register-all".
Local Close Scope Q_scope.
Local Open Scope string_scope.
Local Open Scope list_scope.
Local Open Scope Z_scope.

(** ** Exceptions *)

Inductive result (A : Type) : Type :=
| Ok (a : A)
| Raise.
Arguments Ok {A} a.
Arguments Raise {A}.

#[global] Instance result_ret : MRet result := λ A a, Ok a.
#[global] Instance result_bind : MBind result :=
  λ A B f r, match r with Ok a => f a | Raise => Raise end.

(** [try: body  except Exception: handler] *)
Definition try_except {A} (body : result A) (handler : A) : A :=
  match body with Ok a => a | Raise => handler end.

Definition is_ok {A} (r : result A) : bool :=
  match r with Ok _ => true | Raise => false end.

(** ** Python values *)

(** A [float]: the exact value of a finite binary64, or one of the specials
    ([json.load] accepts [NaN], [Infinity] and [-Infinity]). *)
Inductive pyfloat :=
| FNan
| FInf (negative : bool)
| FFin (q : Q).

Inductive json :=
| JNull
| JBool (b : bool)
| JInt (n : Z)
| JFloat (f : pyfloat)
| JStr (s : string)
| JArr (items : list json)
| JObj (fields : list (string * json)).

Abbreviation pydict := (list (string * json)).

Definition of_int (n : Z) : pyfloat := FFin (inject_Z n).

Definition float_is_zero (f : pyfloat) : bool :=
  match f with FFin q => Qeq_bool q (inject_Z 0) | _ => false end.

(** [bool(v)] *)
Definition truthy (v : json) : bool :=
  match v with
  | JNull => false
  | JBool b => b
  | JInt n => negb (n =? 0)
  | JFloat f => negb (float_is_zero f)
  | JStr s => negb (String.eqb s "")
  | JArr l => match l with [] => false | _ => true end
  | JObj d => match d with [] => false | _ => true end
  end.

Fixpoint dict_lookup (d : pydict) (k : string) : option json :=
  match d with
  | [] => None
  | (k', v) :: r => if String.eqb k' k then Some v else dict_lookup r k
  end.

(** [d.get(k, dflt)] and [d.get(k)] on a dict *)
Definition dict_get (d : pydict) (k : string) (dflt : json) : json :=
  default dflt (dict_lookup d k).
Definition dict_get_none (d : pydict) (k : string) : json := dict_get d k JNull.

(** [v.get(k, dflt)] on any value: only a dict has the method *)
Definition py_get (v : json) (k : string) (dflt : json) : result json :=
  match v with JObj d => Ok (dict_get d k dflt) | _ => Raise end.

(** [v[k]] with a [str] key: [KeyError] on a dict without it, [TypeError] on
    a list or a string, on anything else too *)
Definition py_getitem (v : json) (k : string) : result json :=
  match v with
  | JObj d => match dict_lookup d k with Some x => Ok x | None => Raise end
  | _ => Raise
  end.

Definition chars (s : string) : list json :=
  map (λ c, JStr (String c "")) (list_ascii_of_string s).

(** [for x in v]: a list yields its items, a string its characters, a dict
    its keys; nothing else is iterable *)
Definition py_iter (v : json) : result (list json) :=
  match v with
  | JArr l => Ok l
  | JStr s => Ok (chars s)
  | JObj d => Ok (map (λ kv, JStr kv.1) d)
  | _ => Raise
  end.

(** [v == s] for a [str] [s] *)
Definition py_eq_str (v : json) (s : string) : bool :=
  match v with JStr t => String.eqb t s | _ => false end.

(** The number a value stands for in a comparison: [bool] is an [int]. *)
Definition num_of_json (v : json) : option pyfloat :=
  match v with
  | JInt n => Some (of_int n)
  | JBool b => Some (of_int (if b then 1 else 0))
  | JFloat f => Some f
  | _ => None
  end.

Definition Qlt_bool (a b : Q) : bool := negb (Qle_bool b a).

(** [x > y] on numbers; Python compares an [int] with a [float] exactly *)
Definition float_gt (x y : pyfloat) : bool :=
  match x, y with
  | FNan, _ | _, FNan => false
  | FInf true, _ => false
  | FInf false, FInf false => false
  | FInf false, _ => true
  | FFin _, FInf neg => neg
  | FFin a, FFin b => Qlt_bool b a
  end.

(** [x > v] with [x] a number: [TypeError] unless [v] is one too *)
Definition py_gt (x : pyfloat) (v : json) : result bool :=
  match num_of_json v with
  | Some y => Ok (float_gt x y)
  | None => Raise
  end.

(** ** Strings *)

Definition code (c : ascii) : N := N_of_ascii c.

(** [c.isspace()] for a code point below 256 *)
Definition is_space (c : ascii) : bool :=
  let n := code c in
  ((9 <=? n) && (n <=? 13) || (28 <=? n) && (n <=? 32) || (n =? 133) || (n =? 160))%N.

Definition lower_char (c : ascii) : ascii :=
  let n := code c in
  if ((65 <=? n) && (n <=? 90) || (192 <=? n) && (n <=? 222) && negb (n =? 215))%N
  then ascii_of_N (n + 32) else c.

(** [s.lower()] *)
Fixpoint lower (s : string) : string :=
  match s with
  | EmptyString => EmptyString
  | String c r => String (lower_char c) (lower r)
  end.

Definition is_empty (s : string) : bool :=
  match s with EmptyString => true | _ => false end.

Fixpoint lstrip (s : string) : string :=
  match s with
  | EmptyString => EmptyString
  | String c r => if is_space c then lstrip r else s
  end.

Fixpoint rstrip (s : string) : string :=
  match s with
  | EmptyString => EmptyString
  | String c r =>
      let r' := rstrip r in
      if is_space c && is_empty r' then EmptyString else String c r'
  end.

(** [s.strip()] *)
Definition strip (s : string) : string := rstrip (lstrip s).

(** [s.split()]: the maximal runs of non-space characters; [cur] is the run
    being read *)
Fixpoint split_ws (cur s : string) : list string :=
  match s with
  | EmptyString => if is_empty cur then [] else [cur]
  | String c r =>
      if is_space c
      then (if is_empty cur then split_ws "" r else cur :: split_ws "" r)
      else split_ws (cur +:+ String c "") r
  end.
Definition split (s : string) : list string := split_ws "" s.

(** [s.split(sep)] for a one-character separator *)
Fixpoint split_on (sep : ascii) (s : string) : list string :=
  match s with
  | EmptyString => [""]
  | String c r =>
      if Ascii.eqb c sep then "" :: split_on sep r
      else match split_on sep r with
           | h :: t => String c h :: t
           | [] => [String c ""]
           end
  end.

(** [p in s] *)
Fixpoint contains (s p : string) : bool :=
  String.prefix p s ||
  match s with
  | EmptyString => false
  | String _ r => contains r p
  end.

(** [sep.join(l)] *)
Fixpoint join (sep : string) (l : list string) : string :=
  match l with
  | [] => ""
  | [x] => x
  | x :: r => x +:+ sep +:+ join sep r
  end.

Definition newline : ascii := ascii_of_N 10.
Definition slash : ascii := "/"%char.

Definition starts_with_slash (s : string) : bool :=
  match s with String c _ => Ascii.eqb c slash | EmptyString => false end.

Fixpoint ends_with_slash (s : string) : bool :=
  match s with
  | EmptyString => false
  | String c EmptyString => Ascii.eqb c slash
  | String _ r => ends_with_slash r
  end.

(** [os.path.join(a, b)] on POSIX, both strings *)
Definition path_join (a b : string) : string :=
  if starts_with_slash b then b
  else if is_empty a || ends_with_slash a then a +:+ b
  else a +:+ "/" +:+ b.

(** [os.path.join(a, v)]: [TypeError] unless [v] is a string *)
Definition py_path_join (a : string) (v : json) : result string :=
  match v with JStr b => Ok (path_join a b) | _ => Raise end.

(** [os.path.basename(p)]: what follows the last slash *)
Fixpoint basename (p : string) : string :=
  match p with
  | EmptyString => EmptyString
  | String c r =>
      if contains r "/" then basename r
      else if Ascii.eqb c slash then r else p
  end.

(** ** Megabytes with two decimals *)

(** The nearest integer with a 53-bit significand, ties to even: the
    [float] of a non-negative [int]. *)
Definition round53 (m : Z) : Z :=
  if m <? 2 ^ 53 then m
  else
    let e := Z.log2 m - 52 in
    let q := m / 2 ^ e in
    let r := m mod 2 ^ e in
    let half := 2 ^ (e - 1) in
    if (half <? r) || ((r =? half) && Z.odd q) then (q + 1) * 2 ^ e else q * 2 ^ e.

Definition digit (n : Z) : string :=
  String (ascii_of_N (48 + Z.to_N n)) "".

Definition decimal (n : Z) : string := NilZero.string_of_uint (N.to_uint (Z.to_N n)).

(** [f"{x:.2f}"] for [x = ±num / 2^20], [num >= 0]: the hundredths nearest
    to the exact value, ties to even; the sign of a negative [x] is kept
    when it rounds to zero. *)
Definition format_2f (negative : bool) (num : Z) : string :=
  let scaled := num * 100 in
  let q := scaled / 2 ^ 20 in
  let r := scaled mod 2 ^ 20 in
  let k := if (2 ^ 19 <? r) || ((r =? 2 ^ 19) && Z.odd q) then q + 1 else q in
  (if negative then "-" else "")
    +:+ decimal (k / 100) +:+ "." +:+ digit (k mod 100 / 10) +:+ digit (k mod 10).

(** [f"{n / 1024 / 1024:.2f}"] for an [int] [n]: the true division rounds
    [n] to a float ([OverflowError] from 2^1024 on) and the two divisions
    by a power of two are exact. *)
Definition usage_megabytes (n : Z) : result string :=
  let m := round53 (Z.abs n) in
  if 2 ^ 1034 <=? m then Raise else Ok (format_2f (n <? 0) m).

(** ** Evidence and message templates *)

(** What an evaluator returns on a match: a dict with some of these keys. *)
Record evidence := {
  ev_pattern : option string;
  ev_filename : option string;
  ev_dependency : option string;
  ev_usage : option Z;
  ev_processes : option (list string)
}.

Definition no_evidence : evidence :=
  {| ev_pattern := None; ev_filename := None; ev_dependency := None;
     ev_usage := None; ev_processes := None |}.

(** The keyword arguments of [template.format(...)], all strings. *)
Record format_args := {
  arg_pattern : string;
  arg_filename : string;
  arg_dependency : string;
  arg_usage : string;
  arg_processes : string
}.

Definition keyword (a : format_args) (name : string) : option string :=
  if String.eqb name "pattern" then Some (arg_pattern a)
  else if String.eqb name "filename" then Some (arg_filename a)
  else if String.eqb name "dependency" then Some (arg_dependency a)
  else if String.eqb name "usage" then Some (arg_usage a)
  else if String.eqb name "processes" then Some (arg_processes a)
  else None.

(** What the embedding takes from the interpreter as given:
    - [py_float s] is [float(s)] on a string, [None] for its [ValueError];
    - [format_ext name rest a] renders the remainder of a template from a
      replacement field of the keyword [name] that uses more than the plain
      name: [rest] starts at the first of [[ . ! :] met after the characters
      [name] of the field (indexing, attribute access, conversion, format
      specification). The keyword is looked up first: a field of a name
      that is no keyword raises whatever follows the name. *)
Class Python := {
  py_float : string → option pyfloat;
  format_ext : string → string → format_args → result string
}.

Definition emit (c : ascii) (r : result string) : result string :=
  s ← r; mret (String c s).

Definition emit_string (v : string) (r : result string) : result string :=
  s ← r; mret (v +:+ s).

(** Where the scan of a format string stands: in literal text, after a
    brace that may be the first of a doubled one, or inside a field. *)
Inductive scan :=
| Text
| Opened
| Closed
| Field (name : string).

Definition is_char (c : ascii) (s : string) : bool :=
  match s with String d EmptyString => Ascii.eqb c d | _ => false end.

(** ** The world outside the process *)

Inductive container_lookup :=
| Found (container : string)
| NotFound
| LookupError.

(** One entry of [stats['networks']]; a counter is an [int] when present. *)
Record interface := {
  rx_bytes : option Z;
  tx_bytes : option Z
}.

Record stats := {
  networks : option (list (string * interface))
}.

(** What one sweep observes. A call that can raise answers a [result].
    [strategy_files] lists the [*.protect] files in enumeration order, each
    with what [open] and [json.load] give; an error of the enumeration
    itself ends the loop of [load_strategies] with the files seen so far,
    which this list then is. [servers_page] is the decoded body of the
    management API's server listing. *)
Record World := {
  VOLUMES_DIR : string;
  listdir : string → result (list string);
  path_exists : string → bool;
  getsize : string → result Z;
  read_text : string → result string;
  load_json : string → result json;
  glob : string → result (list string);
  containers_get : string → container_lookup;
  container_logs : string → result string;
  container_exec_run : string → json → result string;
  container_stats : string → result stats;
  strategy_files : list (string * result json);
  servers_page : result json
}.

(** What the sweep does to the outside, per container identifier:
    [CheckVolume] is the call of [check_volume], inside which every check
    for the identifier is evaluated; the three calls of the management API
    and of the webhooks catch their own failures, and so always return;
    [WriteFlagged store] is the dump of the store to [flagged.json] right
    after the identifier is marked, and a failure of it is caught and
    changes nothing of what the sweep does next. *)
Inductive action :=
| CheckVolume
| ResolveServerId
| SuspendServer (server_id : json)
| PublicAlert (server_id : json)
| PrivateAlert (server_id : json) (flags : list string)
| WriteFlagged (store : gmap string json).

Definition event : Type := string * action.

(** [for x in l: ... return v ...]: the first iteration that returns or
    raises ends the loop. *)
Fixpoint for_return {A B} (body : A → result (option B)) (l : list A) : result (option B) :=
  match l with
  | [] => Ok None
  | x :: r =>
      o ← body x;
      match o with
      | Some b => Ok (Some b)
      | None => for_return body r
      end
  end.

(** [v.lower()]: only a string has the method *)
Definition py_lower (v : json) : result string :=
  match v with JStr s => Ok (lower s) | _ => Raise end.

Definition py_str (v : json) : result string :=
  match v with JStr s => Ok s | _ => Raise end.

(** [p in s] with [s] a string: [TypeError] unless [p] is one *)
Definition py_in (p : json) (s : string) : result bool :=
  match p with JStr t => Ok (contains s t) | _ => Raise end.

(** [sum(l)] *)
Definition py_sum (l : list Z) : Z := fold_left Z.add l 0.

Definition is_list (v : json) : bool :=
  match v with JArr _ => true | _ => false end.

(** *** The keys of a dict after [d.update(other)] *)

Definition hashable (v : json) : bool :=
  match v with JArr _ | JObj _ => false | _ => true end.

(** Equality of numbers as dict keys; the decoder has one [NaN] object. *)
Definition float_eq (x y : pyfloat) : bool :=
  match x, y with
  | FNan, FNan => true
  | FInf a, FInf b => Bool.eqb a b
  | FFin p, FFin q => Qeq_bool p q
  | _, _ => false
  end.

Definition key_eqb (a b : json) : bool :=
  match a, b with
  | JStr s, JStr t => String.eqb s t
  | JNull, JNull => true
  | _, _ =>
      match num_of_json a, num_of_json b with
      | Some x, Some y => float_eq x y
      | _, _ => false
      end
  end.

(** The key of one element of an iterable of pairs: the element is a
    sequence of length two whose first item is hashable. *)
Definition pair_key (item : json) : result json :=
  match item with
  | JArr [k; _] => if hashable k then Ok k else Raise
  | JStr (String a (String _ EmptyString)) => Ok (JStr (String a ""))
  | JObj [(k, _); _] => Ok (JStr k)
  | _ => Raise
  end.

Fixpoint pair_keys (items : list json) : result (list json) :=
  match items with
  | [] => Ok []
  | x :: r => k ← pair_key x; ks ← pair_keys r; Ok (k :: ks)
  end.

Definition add_key (keys : list json) (k : json) : list json :=
  if existsb (key_eqb k) keys then keys else keys ++ [k].

Definition dict_keys (d : pydict) : list json := map (λ kv, JStr kv.1) d.

(** [d.update(other); d.keys()]: a dict brings its keys, any other
    iterable its pairs; a key already there keeps its place. *)
Definition keys_after_update (d other : json) : result (list json) :=
  match d with
  | JObj fields =>
      new ← match other with
            | JObj fields' => Ok (dict_keys fields')
            | _ => items ← py_iter other; pair_keys items
            end;
      Ok (fold_left add_key new (dict_keys fields))
  | _ => Raise
  end.

Section Protect.
Context `{Python}.

(** [str.format] with keyword arguments only: a doubled brace is a literal
    brace, [{name}] is the keyword [name]; a single closing brace, an
    unfinished field and a brace inside a field name are [ValueError]s, an
    empty or numeric name an [IndexError] (no positional argument is
    passed), any other name a [KeyError]. *)
Fixpoint format_scan (a : format_args) (st : scan) (s : string) : result string :=
  match s with
  | EmptyString => match st with Text => Ok "" | _ => Raise end
  | String c r =>
      let in_field name :=
        if is_char c "}" then
          match keyword a name with
          | Some v => emit_string v (format_scan a Text r)
          | None => Raise
          end
        else if is_char c "{" then Raise
        else if is_char c "[" || is_char c "." || is_char c "!" || is_char c ":"
        then match keyword a name with
             | Some _ => format_ext name s a
             | None => Raise
             end
        else format_scan a (Field (name +:+ String c "")) r in
      match st with
      | Text =>
          if is_char c "{" then format_scan a Opened r
          else if is_char c "}" then format_scan a Closed r
          else emit c (format_scan a Text r)
      | Opened =>
          if is_char c "{" then emit c (format_scan a Text r) else in_field ""
      | Closed =>
          if is_char c "}" then emit c (format_scan a Text r) else Raise
      | Field name => in_field name
      end
  end.

Definition py_format (template : string) (a : format_args) : result string :=
  format_scan a Text template.

(** Lines 207-214. The arguments are evaluated before the call: the
    division of [usage] can overflow whatever the template mentions. *)
Definition replace_placeholders (template : json) (data : evidence) : result string :=
  match template with
  | JStr t =>
      usage ← usage_megabytes (default 0 (ev_usage data));
      py_format t
        {| arg_pattern := default "" (ev_pattern data);
           arg_filename := default "" (ev_filename data);
           arg_dependency := default "" (ev_dependency data);
           arg_usage := usage;
           arg_processes := join ", " (default [] (ev_processes data)) |}
  | _ => Raise
  end.


(** ** Evaluators *)

Definition filename_evidence (name : string) : evidence :=
  {| ev_pattern := None; ev_filename := Some name; ev_dependency := None;
     ev_usage := None; ev_processes := None |}.
Definition pattern_evidence (pattern : string) : evidence :=
  {| ev_pattern := Some pattern; ev_filename := None; ev_dependency := None;
     ev_usage := None; ev_processes := None |}.
Definition dependency_evidence (name : string) : evidence :=
  {| ev_pattern := None; ev_filename := None; ev_dependency := Some name;
     ev_usage := None; ev_processes := None |}.
Definition usage_evidence (total : Z) : evidence :=
  {| ev_pattern := None; ev_filename := None; ev_dependency := None;
     ev_usage := Some total; ev_processes := None |}.
Definition processes_evidence (lines : list string) : evidence :=
  {| ev_pattern := None; ev_filename := None; ev_dependency := None;
     ev_usage := None; ev_processes := Some lines |}.

Section OneWorld.
Variable w : World.

(** Lines 234-241. *)
Definition file_existence_check (target_path : string) (check_config : pydict)
  : result (option evidence) :=
  patterns ← py_iter (dict_get check_config "patterns" (JArr []));
  for_return (λ pattern,
    full_pattern ← py_path_join target_path pattern;
    matches ← glob w full_pattern;
    match matches with
    | first :: _ => Ok (Some (filename_evidence (basename first)))
    | [] => Ok None
    end) patterns.

(** Lines 244-252. *)
Definition file_content_check (target_path : string) (check_config : pydict)
  : result (option evidence) :=
  let patterns := dict_get check_config "patterns" (JArr []) in
  if path_exists w target_path then
    content ← read_text w target_path;
    patterns ← py_iter patterns;
    for_return (λ pattern,
      found ← py_in pattern content;
      if found : bool then p ← py_str pattern; Ok (Some (pattern_evidence p))
      else Ok None) patterns
  else Ok None.

(** Lines 255-261. *)
Definition file_size_check (target_path : string) (check_config : pydict)
  : result (option evidence) :=
  let max_size := dict_get check_config "max_size" (JInt 0) in
  if path_exists w target_path then
    size ← getsize w target_path;
    over ← py_gt (of_int size) max_size;
    if over : bool then Ok (Some (filename_evidence (basename target_path)))
    else Ok None
  else Ok None.

(** Lines 217-231. The diagnostic of line 219 reads [check_config['type']]:
    without a path and without a type it is a [KeyError]. *)
Definition file_check (volume_path : string) (check_config : pydict)
  : result (option evidence) :=
  if negb (truthy (dict_get_none check_config "path")) then
    _ ← py_getitem (JObj check_config) "type"; Ok None
  else
    path ← py_getitem (JObj check_config) "path";
    target_path ← py_path_join volume_path path;
    type ← py_getitem (JObj check_config) "type";
    if py_eq_str type "file_existence" then file_existence_check target_path check_config
    else if py_eq_str type "file_content" then file_content_check target_path check_config
    else if py_eq_str type "file_size" then file_size_check target_path check_config
    else Raise.

(** Lines 264-282. *)
Definition dependency_check (volume_path : string) (check_config : pydict)
  : result (option evidence) :=
  let file_name := dict_get check_config "file" (JStr "package.json") in
  let patterns := dict_get check_config "patterns" (JArr []) in
  package_file ← py_path_join volume_path file_name;
  if path_exists w package_file then
    Ok (try_except
          (package_data ← load_json w package_file;
           dependencies ← py_get package_data "dependencies" (JObj []);
           dev ← py_get package_data "devDependencies" (JObj []);
           keys ← keys_after_update dependencies dev;
           patterns ← py_iter patterns;
           for_return (λ pattern,
             for_return (λ dep_name,
               p ← py_lower pattern;
               d ← py_lower dep_name;
               if contains d p then name ← py_str dep_name; Ok (Some (dependency_evidence name))
               else Ok None) keys) patterns)
          None)
  else Ok None.

(** Lines 285-294. *)
Definition log_content_check (container : string) (check_config : pydict)
  : result (option evidence) :=
  let patterns := dict_get check_config "patterns" (JArr []) in
  Ok (try_except
        (logs ← container_logs w container;
         patterns ← py_iter patterns;
         for_return (λ pattern,
           p ← py_lower pattern;
           if contains (lower logs) p then s ← py_str pattern; Ok (Some (pattern_evidence s))
           else Ok None) patterns)
        None).

(** The loop of lines 304-312: [ValueError] of [float] skips the line, the
    [TypeError] of the comparison leaves the loop. *)
Fixpoint high_cpu (cpu_threshold : json) (lines : list string) (high_cpu_processes : list string)
  : result (list string) :=
  match lines with
  | [] => Ok high_cpu_processes
  | line :: rest =>
      let parts := split (strip line) in
      if (8 <? length parts)%nat then
        match py_float (default "" (parts !! 8%nat)) with
        | Some cpu_usage =>
            over ← py_gt cpu_usage cpu_threshold;
            high_cpu cpu_threshold rest
              (if over : bool then high_cpu_processes ++ [strip line] else high_cpu_processes)
        | None => high_cpu cpu_threshold rest high_cpu_processes
        end
      else high_cpu cpu_threshold rest high_cpu_processes
  end.

(** Lines 297-317. *)
Definition process_check (container : string) (check_config : pydict)
  : result (option evidence) :=
  let cmd := dict_get_none check_config "command" in
  let cpu_threshold := dict_get check_config "cpu_threshold" (JInt 0) in
  Ok (try_except
        (output ← container_exec_run w container cmd;
         high_cpu_processes ← high_cpu cpu_threshold (split_on newline (strip output)) [];
         match high_cpu_processes with
         | [] => Ok None
         | _ => Ok (Some (processes_evidence high_cpu_processes))
         end)
        None).

Definition interface_bytes (net : interface) : Z :=
  default 0 (rx_bytes net) + default 0 (tx_bytes net).

Definition total_usage (s : stats) : Z :=
  py_sum (map (λ entry, interface_bytes entry.2) (default [] (networks s))).

(** Lines 320-330. *)
Definition network_usage_check (container : string) (check_config : pydict)
  : result (option evidence) :=
  let threshold := dict_get check_config "threshold" (JInt 0) in
  Ok (try_except
        (stats ← container_stats w container;
         let total := total_usage stats in
         over ← py_gt (of_int total) threshold;
         if over : bool then Ok (Some (usage_evidence total)) else Ok None)
        None).

(** ** Strategy executor *)

Definition render (message_template : json) (flag_data : option evidence)
  : result (option string) :=
  match flag_data with
  | Some data => message ← replace_placeholders message_template data; Ok (Some message)
  | None => Ok None
  end.

(** The body of the [try] of lines 180-199 for one check configuration:
    the flag to append, if any. An unknown type leaves by [continue]. *)
Definition perform_check (volume_path container : string) (check_config : pydict)
  : result (option string) :=
  let message_template := dict_get check_config "message" (JStr "An undefined issue was detected") in
  type ← py_getitem (JObj check_config) "type";
  if py_eq_str type "file_existence" || py_eq_str type "file_content" || py_eq_str type "file_size"
  then flag_data ← file_check volume_path check_config; render message_template flag_data
  else if py_eq_str type "dependency"
  then flag_data ← dependency_check volume_path check_config; render message_template flag_data
  else if py_eq_str type "log_content"
  then flag_data ← log_content_check container check_config; render message_template flag_data
  else if py_eq_str type "process_check"
  then flag_data ← process_check container check_config; render message_template flag_data
  else if py_eq_str type "network_usage"
  then flag_data ← network_usage_check container check_config; render message_template flag_data
  else Ok None.

(** One iteration of the loop of lines 173-202: the flags after it. *)
Definition run_check (volume_path container : string) (flags : list string) (check_config : json)
  : list string :=
  match check_config with
  | JObj fields =>
      if negb (truthy check_config) || negb (truthy (dict_get_none fields "type")) then flags
      else
        try_except
          (flag ← perform_check volume_path container fields;
           Ok (match flag with Some message => flags ++ [message] | None => flags end))
          flags
  | _ => flags
  end.

(** Lines 166-204. *)
Definition execute_strategy (strategy : json) (volume_path container : string)
  : result (list string) :=
  _ ← py_getitem strategy "name";
  checks ← py_get strategy "checks" JNull;
  match checks with
  | JArr check_configs => Ok (fold_left (run_check volume_path container) check_configs [])
  | _ => Ok []
  end.

(** ** Scan coordinator *)

(** The loop of lines 349-351. *)
Fixpoint run_strategies (strategies : list json) (volume_path container : string)
    (flags : list string) : result (list string) :=
  match strategies with
  | [] => Ok flags
  | strategy :: rest =>
      strategy_flags ← execute_strategy strategy volume_path container;
      run_strategies rest volume_path container (flags ++ strategy_flags)
  end.

(** Lines 333-353. *)
Definition check_volume (uuid : string) (strategies : list json) : result (list string) :=
  let volume_path := path_join (VOLUMES_DIR w) uuid in
  if negb (path_exists w volume_path) then Ok []
  else
    match containers_get w uuid with
    | Found container => run_strategies strategies volume_path container []
    | NotFound => Ok []
    | LookupError => Ok []
    end.

(** Lines 44-60; [JNull] is [None]. *)
Definition get_server_id_from_uuid (uuid : string) : json :=
  try_except
    (data ← servers_page w;
     listed ← py_get data "data" (JArr []);
     servers ← py_iter listed;
     found ← for_return (λ server,
       attributes ← py_getitem server "attributes";
       server_uuid ← py_getitem attributes "uuid";
       if py_eq_str server_uuid uuid
       then id ← py_getitem attributes "id"; Ok (Some id)
       else Ok None) servers;
     Ok (default JNull found))
    JNull.

(** One iteration of the loop of lines 357-373 on the store
    [flagged_containers]: the store after it and what it did. *)
Definition scan_container (strategies : list json) (flagged_containers : gmap string json)
    (uuid : string) : gmap string json * list event :=
  if truthy (default JNull (flagged_containers !! uuid)) then (flagged_containers, [])
  else
    match check_volume uuid strategies with
    | Ok ((_ :: _) as flags) =>
        let server_id := get_server_id_from_uuid uuid in
        let marked := <[uuid := JBool true]> flagged_containers in
        (marked,
         [(uuid, CheckVolume); (uuid, ResolveServerId)]
           ++ (if truthy server_id then [(uuid, SuspendServer server_id)] else [])
           ++ [(uuid, PublicAlert server_id);
               (uuid, PrivateAlert server_id flags);
               (uuid, WriteFlagged marked)])
    | Ok [] => (flagged_containers, [(uuid, CheckVolume)])
    | Raise => (flagged_containers, [(uuid, CheckVolume)])
    end.

Fixpoint scan_loop (strategies : list json) (uuids : list string)
    (flagged_containers : gmap string json) : gmap string json * list event :=
  match uuids with
  | [] => (flagged_containers, [])
  | uuid :: rest =>
      let (flagged', done_here) := scan_container strategies flagged_containers uuid in
      let (flagged'', done_after) := scan_loop strategies rest flagged' in
      (flagged'', done_here ++ done_after)
  end.

(** Lines 356-373. *)
Definition scan_all_containers (strategies : list json) (flagged_containers : gmap string json)
  : result (gmap string json * list event) :=
  uuids ← listdir w (VOLUMES_DIR w);
  Ok (scan_loop strategies uuids flagged_containers).

(** ** Strategy loader *)

(** The test of line 148, negated. *)
Definition valid_structure (strategy : json) : result bool :=
  name ← py_get strategy "name" JNull;
  type ← py_get strategy "type" JNull;
  checks ← py_get strategy "checks" JNull;
  Ok (truthy name && truthy type && is_list checks).

(** One iteration of the loop of lines 144-154. *)
Definition load_file (strategies : list json) (file : string * result json) : list json :=
  try_except
    (strategy ← file.2;
     valid ← valid_structure strategy;
     Ok (if valid : bool then strategies ++ [strategy] else strategies))
    strategies.

(** Lines 141-163. *)
Definition load_strategies : list json :=
  fold_left load_file (strategy_files w) [].

End OneWorld.

(** ** Scheduler *)

(** The loop of lines 379-386 run on the worlds that its successive sweeps
    observe; a sweep that raises is logged and changes nothing. *)
Fixpoint sweeps (strategies : list json) (worlds : list World)
    (flagged_containers : gmap string json) : gmap string json * list event :=
  match worlds with
  | [] => (flagged_containers, [])
  | w :: later =>
      let (flagged', done_now) :=
        try_except (scan_all_containers w strategies flagged_containers) (flagged_containers, []) in
      let (flagged'', done_later) := sweeps strategies later flagged' in
      (flagged'', done_now ++ done_later)
  end.

(** Lines 376-386: the strategies are loaded once, at start. *)
Definition main (start : World) (worlds : list World) (flagged_containers : gmap string json)
  : gmap string json * list event :=
  sweeps (load_strategies start) worlds flagged_containers.

End Protect.

(** * Specification-side definitions *)

(** An event concerns the identifier it is tagged with. *)
Definition concerns (uuid : string) (e : event) : Prop := e.1 = uuid.

#[global] Instance concerns_dec uuid e : Decision (concerns uuid e) :=
  decide (e.1 = uuid).

(** The closed set of check kinds of the dispatcher. *)
Definition check_kinds : list string :=
  ["file_existence"; "file_content"; "file_size"; "dependency";
   "log_content"; "process_check"; "network_usage"].

(** A check configuration has a kind of the closed set: it is a dict whose
    [type] is one of the seven strings. *)
Definition recognized (check_config : json) : bool :=
  match check_config with
  | JObj fields =>
      match dict_lookup fields "type" with
      | Some (JStr kind) => bool_decide (kind ∈ check_kinds)
      | _ => false
      end
  | _ => false
  end.

(** *** Message templates, as the specification describes them *)

(** A template is literal text interleaved with named placeholders. *)
Inductive piece :=
| Literal (text : string)
| Placeholder (name : string).

Definition placeholders : list string :=
  ["pattern"; "filename"; "dependency"; "usage"; "processes"].

(** A template whose placeholders are among the five names. *)
Definition plain (p : piece) : Prop :=
  match p with
  | Literal _ => True
  | Placeholder name => name ∈ placeholders
  end.

(** The format string of a template: a brace of the text is doubled, a
    placeholder is its name in braces. *)
Fixpoint escape (text : string) : string :=
  match text with
  | EmptyString => EmptyString
  | String c r =>
      if is_char c "{" || is_char c "}" then String c (String c (escape r))
      else String c (escape r)
  end.

Definition write_piece (p : piece) : string :=
  match p with
  | Literal text => escape text
  | Placeholder name => "{" +:+ name +:+ "}"
  end.

Fixpoint write_template (template : list piece) : string :=
  match template with
  | [] => ""
  | p :: r => write_piece p +:+ write_template r
  end.

(** The bytes of [usage] as megabytes; zero when the evidence has none. *)
Definition megabytes (data : evidence) : string :=
  match ev_usage data with
  | Some n => try_except (usage_megabytes n) ""
  | None => "0.00"
  end.

(** What a placeholder stands for: the field of the evidence, the empty
    string when the evidence lacks it. *)
Definition placeholder_value (data : evidence) (name : string) : string :=
  if String.eqb name "pattern" then default "" (ev_pattern data)
  else if String.eqb name "filename" then default "" (ev_filename data)
  else if String.eqb name "dependency" then default "" (ev_dependency data)
  else if String.eqb name "usage" then megabytes data
  else if String.eqb name "processes" then join ", " (default [] (ev_processes data))
  else "".

Definition substitute (data : evidence) (p : piece) : string :=
  match p with
  | Literal text => text
  | Placeholder name => placeholder_value data name
  end.

Fixpoint rendering (data : evidence) (template : list piece) : string :=
  match template with
  | [] => ""
  | p :: r => substitute data p +:+ rendering data r
  end.

(** The least byte count, in absolute value, whose division into
    megabytes overflows. *)
Definition usage_limit : Z := 2 ^ 1034 - 2 ^ 980.

(** A character that a name between braces can have: no brace, and none
    of the characters that end the name of a replacement field. *)
Definition name_char (c : ascii) : bool :=
  negb (is_char c "{" || is_char c "}" || is_char c "[" || is_char c "."
        || is_char c "!" || is_char c ":").

Fixpoint simple (name : string) : bool :=
  match name with
  | EmptyString => true
  | String c r => name_char c && simple r
  end.

(** What ends the name of a replacement field. *)
Definition ends_name (c : ascii) : bool :=
  is_char c "}" || is_char c "[" || is_char c "." || is_char c "!" || is_char c ":".

Definition starts_with_closing (text : string) : bool :=
  match text with String c _ => is_char c "}" | EmptyString => false end.

(** A template that goes wrong after a well-written beginning: it names a
    placeholder that is none of the five, it has a closing brace that is
    not doubled, or it ends inside a placeholder. *)
Inductive malformed : string → Prop :=
| unknown_placeholder (template : list piece) (name : string) (c : ascii) (rest : string) :
    Forall plain template →
    simple name = true →
    name ∉ placeholders →
    ends_name c = true →
    malformed (write_template template +:+ "{" +:+ name +:+ String c rest)
| single_closing_brace (template : list piece) (rest : string) :
    Forall plain template →
    starts_with_closing rest = false →
    malformed (write_template template +:+ "}" +:+ rest)
| unfinished_placeholder (template : list piece) (name : string) :
    Forall plain template →
    simple name = true →
    malformed (write_template template +:+ "{" +:+ name).

(** *** Network counters *)


(** A number strictly exceeds a limit of the configuration: the comparison
    is defined and true. *)
Definition exceeds (x : pyfloat) (limit : json) : bool :=
  try_except (py_gt x limit) false.

(** *** Rule definitions *)

(** A rule definition has the required shape: it is an object whose [name]
    and [type] are present and not empty, and whose [checks] is a
    sequence. *)
Definition well_formed_rule (strategy : json) : bool :=
  match strategy with
  | JObj fields =>
      truthy (dict_get_none fields "name")
      && truthy (dict_get_none fields "type")
      && is_list (dict_get_none fields "checks")
  | _ => false
  end.

(** The rule a file contributes: its content when the file is read and
    parsed and the content is well formed. *)
Definition loadable (file : string * result json) : option json :=
  match file.2 with
  | Ok strategy => if well_formed_rule strategy then Some strategy else None
  | Raise => None
  end.

(** *** Process listings *)

Section Specification.
Context `{Python}.

(** The lines of a command's output, as the evaluator reads them. *)
Definition output_lines (output : string) : list string :=
  split_on newline (strip output).

(** The column of index 8 of a line split on whitespace. *)
Definition cpu_column (line : string) : option string :=
  split (strip line) !! 8%nat.

(** A line whose CPU column parses as a number that strictly exceeds the
    threshold. *)
Definition high (cpu_threshold : json) (line : string) : bool :=
  match cpu_column line with
  | Some field =>
      match py_float field with
      | Some cpu_usage => exceeds cpu_usage cpu_threshold
      | None => false
      end
  | None => false
  end.

(** *** Failures during one check *)

(** The numeric limit of each kind of check that has one. *)
Definition limits : list (string * string) :=
  [("file_size", "max_size"); ("process_check", "cpu_threshold");
   ("network_usage", "threshold")].

(** The evaluation of one check meets a failure: a path that is missing,
    an I/O call that fails (reading a file, measuring it, expanding a
    pattern, fetching logs, running the command, fetching statistics), a
    package file that cannot be opened or parsed, a numeric limit of the
    configuration that is no number, or any exception that reaches the
    executor. *)
Inductive failure (w : World) (volume_path container : string) (check_config : pydict)
  : Prop :=
| evaluation_raises :
    perform_check w volume_path container check_config = Raise →
    failure w volume_path container check_config
| file_missing (kind path : string) :
    kind ∈ ["file_content"; "file_size"] →
    dict_lookup check_config "type" = Some (JStr kind) →
    dict_lookup check_config "path" = Some (JStr path) →
    path_exists w (path_join volume_path path) = false →
    failure w volume_path container check_config
| file_unreadable (path : string) :
    dict_lookup check_config "type" = Some (JStr "file_content") →
    dict_lookup check_config "path" = Some (JStr path) →
    read_text w (path_join volume_path path) = Raise →
    failure w volume_path container check_config
| size_unknown (path : string) :
    dict_lookup check_config "type" = Some (JStr "file_size") →
    dict_lookup check_config "path" = Some (JStr path) →
    getsize w (path_join volume_path path) = Raise →
    failure w volume_path container check_config
| glob_fails (path : string) (before : list string) (pattern : string) (after : list string) :
    dict_lookup check_config "type" = Some (JStr "file_existence") →
    dict_lookup check_config "path" = Some (JStr path) →
    dict_get check_config "patterns" (JArr [])
      = JArr (map JStr (before ++ pattern :: after)) →
    Forall (λ q, glob w (path_join (path_join volume_path path) q) = Ok []) before →
    glob w (path_join (path_join volume_path path) pattern) = Raise →
    failure w volume_path container check_config
| package_missing (file : string) :
    dict_lookup check_config "type" = Some (JStr "dependency") →
    dict_get check_config "file" (JStr "package.json") = JStr file →
    path_exists w (path_join volume_path file) = false →
    failure w volume_path container check_config
| package_unparsed (file : string) :
    dict_lookup check_config "type" = Some (JStr "dependency") →
    dict_get check_config "file" (JStr "package.json") = JStr file →
    load_json w (path_join volume_path file) = Raise →
    failure w volume_path container check_config
| logs_fail :
    dict_lookup check_config "type" = Some (JStr "log_content") →
    container_logs w container = Raise →
    failure w volume_path container check_config
| exec_fails :
    dict_lookup check_config "type" = Some (JStr "process_check") →
    container_exec_run w container (dict_get_none check_config "command") = Raise →
    failure w volume_path container check_config
| stats_fail :
    dict_lookup check_config "type" = Some (JStr "network_usage") →
    container_stats w container = Raise →
    failure w volume_path container check_config
| limit_malformed (kind key : string) (limit : json) :
    (kind, key) ∈ limits →
    dict_lookup check_config "type" = Some (JStr kind) →
    dict_lookup check_config key = Some limit →
    num_of_json limit = None →
    failure w volume_path container check_config.

(** A line of a process listing whose CPU column is malformed: the line
    has the column and the column does not parse as a number. *)
Definition malformed_cpu (line : string) : Prop :=
  ∃ field, cpu_column line = Some field ∧ py_float field = None.

End Specification.

(** *** Package files *)









(** * Definitions for the further properties *)

(** The kind of an action, whatever it carries. *)
Inductive kind :=
| KCheckVolume
| KResolveServerId
| KSuspendServer
| KPublicAlert
| KPrivateAlert
| KWriteFlagged.

#[global] Instance kind_eq_dec : EqDecision kind.
Proof. solve_decision. Defined.

Definition kind_of (a : action) : kind :=
  match a with
  | CheckVolume => KCheckVolume
  | ResolveServerId => KResolveServerId
  | SuspendServer _ => KSuspendServer
  | PublicAlert _ => KPublicAlert
  | PrivateAlert _ _ => KPrivateAlert
  | WriteFlagged _ => KWriteFlagged
  end.

(** How many events of a kind a trace has for an identifier. *)
Definition occurrences (uuid : string) (k : kind) (trace : list event) : nat :=
  length (filter (λ e : event, e.1 = uuid ∧ kind_of e.2 = k) trace).

(** The stores that the sweeps tried to dump to [flagged.json], in order:
    one for each [WriteFlagged], which is the call of [open] and
    [json.dump] of lines 370-371, whether it succeeds or fails. *)
Definition dumped (trace : list event) : list (gmap string json) :=
  omap (λ e : event, match e.2 with WriteFlagged store => Some store | _ => None end) trace.

(** The store does not exclude the identifier: [flagged_containers.get(uuid)]
    is absent or false in the sense of Python. *)
Definition unflagged (flagged : gmap string json) (uuid : string) : bool :=
  negb (truthy (default JNull (flagged !! uuid))).

(** Events of the kind are done at most once for the identifier along the
    trace that leads from one store to another, and not at all once the
    store excludes the identifier, which it then keeps doing. *)
Definition at_most_once (uuid : string) (k : kind)
    (before after : gmap string json) (trace : list event) : Prop :=
  (occurrences uuid k trace ≤ 1)%nat
  ∧ (unflagged before uuid = false →
     occurrences uuid k trace = 0%nat ∧ unflagged after uuid = false)
  ∧ (occurrences uuid k trace = 1%nat → unflagged after uuid = false).

(** Every change of the store is followed by a dump of it: the last store
    that the trace tried to dump is the store reached, and without a dump
    the store is the one before. *)
Definition dumped_through (before after : gmap string json) (trace : list event) : Prop :=
  match last (dumped trace) with
  | Some store => store = after
  | None => after = before
  end.

(** An entry of the server listing that the resolution passes over: it has
    attributes with a uuid, and the uuid is not the one sought. *)
Definition passed_over (uuid : string) (server : json) : Prop :=
  ∃ attributes server_uuid,
    py_getitem server "attributes" = Ok attributes
    ∧ py_getitem attributes "uuid" = Ok server_uuid
    ∧ py_eq_str server_uuid uuid = false.

(** An entry for the uuid sought, with its server id. *)
Definition lists (uuid : string) (id : json) (server : json) : Prop :=
  ∃ attributes,
    py_getitem server "attributes" = Ok attributes
    ∧ py_getitem attributes "uuid" = Ok (JStr uuid)
    ∧ py_getitem attributes "id" = Ok id.

(** An entry that the resolution cannot read: no attributes, attributes
    without a uuid, or the uuid sought without an id. *)
Definition unreadable (uuid : string) (server : json) : Prop :=
  py_getitem server "attributes" = Raise
  ∨ ∃ attributes,
      py_getitem server "attributes" = Ok attributes
      ∧ (py_getitem attributes "uuid" = Raise
         ∨ (py_getitem attributes "uuid" = Ok (JStr uuid)
            ∧ py_getitem attributes "id" = Raise)).

(** The number of hundredths that [format_2f] prints for [num / 2^20]:
    the nearest one, the even one of two that are equally near. *)
Definition hundredths (num : Z) : Z :=
  let scaled := num * 100 in
  let q := scaled / 2 ^ 20 in
  let r := scaled mod 2 ^ 20 in
  if (2 ^ 19 <? r) || ((r =? 2 ^ 19) && Z.odd q) then q + 1 else q.

(** The digits that stand for a number of hundredths. *)
Definition two_decimals (k : Z) : string :=
  decimal (k / 100) +:+ "." +:+ digit (k mod 100 / 10) +:+ digit (k mod 10).

(** A text without a brace. *)
Fixpoint brace_free (text : string) : bool :=
  match text with
  | EmptyString => true
  | String c r => negb (is_char c "{" || is_char c "}") && brace_free r
  end.

(** A text without a whitespace character. *)
Fixpoint space_free (text : string) : bool :=
  match text with
  | EmptyString => true
  | String c r => negb (is_space c) && space_free r
  end.

Section Further.
Context `{Python}.

(** The scan of the identifier's volume returns at least one flag. *)
Definition detects (w : World) (strategies : list json) (uuid : string) : bool :=
  match check_volume w uuid strategies with
  | Ok (_ :: _) => true
  | _ => false
  end.

(** What the sweep does for an identifier that it marks. *)
Definition containment (w : World) (strategies : list json)
    (flagged : gmap string json) (uuid : string) : list event :=
  let server_id := get_server_id_from_uuid w uuid in
  [(uuid, CheckVolume); (uuid, ResolveServerId)]
    ++ (if truthy server_id then [(uuid, SuspendServer server_id)] else [])
    ++ [(uuid, PublicAlert server_id);
        (uuid, PrivateAlert server_id (try_except (check_volume w uuid strategies) []));
        (uuid, WriteFlagged (<[uuid := JBool true]> flagged))].

End Further.

(** * A sample deployment

    One host with two volumes, used to run the definitions on concrete
    inputs. *)

Module Sample.

(** [float(s)] on an unsigned decimal numeral with an optional fraction,
    for numerals whose value a binary64 holds exactly. *)
Fixpoint numeral (int_part : Z) (scale : option positive) (s : string) : option Q :=
  match s with
  | EmptyString =>
      match scale with
      | Some d => Some (Qmake int_part d)
      | None => Some (inject_Z int_part)
      end
  | String c r =>
      let n := code c in
      if ((48 <=? n) && (n <=? 57))%N then
        numeral (10 * int_part + Z.of_N (n - 48)) ((λ d, 10 * d)%positive <$> scale) r
      else if is_char c "." then
        match scale with
        | None => numeral int_part (Some 1%positive) r
        | Some _ => None
        end
      else None
  end.

Definition decimal_float (s : string) : option pyfloat :=
  if is_empty s || is_char "."%char s then None else FFin <$> numeral 0 None s.

(** The interpreter of the sample: templates with extended replacement
    fields are not used in it. *)
#[export] Instance python : Python :=
  {| py_float := decimal_float; format_ext := λ _ _ _, Raise |}.

Definition volumes : string := "/var/lib/pterodactyl/volumes".

Definition package_json : json :=
  JObj [("name", JStr "bot");
        ("dependencies", JObj [("express", JStr "^4.18.0");
                               ("malicious-lib-v2", JStr "1.0.0")]);
        ("devDependencies", JObj [("jest", JStr "^29.0.0")])].

(** What [top -b -n 1] prints: the columns are right-aligned. *)
Definition top_header : string :=
  "  PID USER      PR  NI    VIRT    RES    SHR S  %CPU  %MEM     TIME+ COMMAND".
Definition top_miner : string :=
  "    1 root      20   0  712345  51234   3120 S  95.5   1.2  10:01.22 xmrig".
Definition top_shell : string :=
  "    7 root      20   0    4321   1200    900 S   0.0   0.1   0:00.03 sh".
Definition top_cut : string := "    9 root      20".

Definition top_output : string :=
  top_header +:+ String newline top_miner +:+ String newline top_shell
    +:+ String newline top_cut +:+ String newline "".

Definition eth0 : interface := {| rx_bytes := Some 400000; tx_bytes := Some 500000 |}.
Definition eth1 : interface := {| rx_bytes := Some 200000; tx_bytes := None |}.

Definition existing : list string :=
  ["/var/lib/pterodactyl/volumes/c1"; "/var/lib/pterodactyl/volumes/c2";
   "/var/lib/pterodactyl/volumes/c1/package.json";
   "/var/lib/pterodactyl/volumes/c1/core.dump"].

Definition network_rule : json :=
  JObj [("name", JStr "Traffic"); ("type", JStr "network");
        ("checks", JArr [JObj [("type", JStr "network_usage");
                               ("threshold", JInt 1000000);
                               ("message", JStr "Used {usage} MB")]])].

Definition nameless_rule : json :=
  JObj [("name", JStr ""); ("type", JStr "files"); ("checks", JArr [])].

Definition checkless_rule : json :=
  JObj [("name", JStr "Miners"); ("type", JStr "files")].

Definition world : World :=
  {| VOLUMES_DIR := volumes;
     listdir := λ _, Ok ["c1"; "c2"];
     path_exists := λ p, existsb (String.eqb p) existing;
     getsize := λ p, if String.eqb p "/var/lib/pterodactyl/volumes/c1/core.dump"
                     then Ok 4096 else Raise;
     read_text := λ _, Raise;
     load_json := λ p, if String.eqb p "/var/lib/pterodactyl/volumes/c1/package.json"
                        then Ok package_json else Raise;
     glob := λ _, Ok [];
     containers_get := λ uuid, if String.eqb uuid "c1" then Found "c1" else NotFound;
     container_logs := λ _, Raise;
     container_exec_run := λ _ _, Ok top_output;
     container_stats := λ _,
       Ok {| networks := Some [("eth0", eth0); ("eth1", eth1)] |};
     strategy_files :=
       [("a.protect", Ok checkless_rule); ("b.protect", Raise);
        ("c.protect", Ok network_rule); ("d.protect", Ok nameless_rule)];
     servers_page := Raise |}.

(** A host on which no rule file is usable. *)
Definition bare_world : World :=
  {| VOLUMES_DIR := volumes;
     listdir := λ _, Ok ["c1"; "c2"];
     path_exists := λ p, existsb (String.eqb p) existing;
     getsize := λ _, Raise;
     read_text := λ _, Raise;
     load_json := λ _, Raise;
     glob := λ _, Ok [];
     containers_get := λ uuid, Found uuid;
     container_logs := λ _, Raise;
     container_exec_run := λ _ _, Raise;
     container_stats := λ _, Raise;
     strategy_files := [("d.protect", Ok nameless_rule)];
     servers_page := Raise |}.

Definition size_check : pydict :=
  [("type", JStr "file_size"); ("path", JStr "core.dump");
   ("max_size", JStr "1MB"); ("message", JStr "{filename} is too large")].

Definition network_check : pydict :=
  [("type", JStr "network_usage"); ("threshold", JInt 1000000);
   ("message", JStr "Used {usage} MB")].

Definition dependency_check_config : pydict :=
  [("type", JStr "dependency"); ("patterns", JArr [JStr "malicious-lib"]);
   ("message", JStr "Dependency {dependency}")].

Definition process_check_config : pydict :=
  [("type", JStr "process_check"); ("command", JStr "top -b -n 1");
   ("message", JStr "Busy: {processes}")].

Definition strategy_with (check_configs : list json) : pydict :=
  [("name", JStr "Mixed"); ("type", JStr "mixed"); ("checks", JArr check_configs)].

End Sample.

(** * A second deployment

    Three volumes on one host, with a server listing, scripts, logs and
    files outside the volumes. *)

Module Fleet.

Definition volumes : string := "/var/lib/pterodactyl/volumes".

Definition server_entry (uuid : string) (id : Z) : json :=
  JObj [("object", JStr "server");
        ("attributes", JObj [("id", JInt id); ("uuid", JStr uuid);
                             ("suspended", JBool false)])].

Definition broken_entry : json := JObj [("object", JStr "server")].

Definition listing : json :=
  JObj [("object", JStr "list");
        ("data", JArr [server_entry "c2" 12; server_entry "c1" 7;
                       broken_entry; server_entry "c3" 9])].

Definition start_script : string :=
  "#!/bin/sh" +:+ String newline "./xmrig --donate-level 1".

Definition logs : string :=
  "Starting XMRig miner" +:+ String newline "Connected to POOL".

(** [dependencies] names a pattern, [devDependencies] is null. *)
Definition package_json : json :=
  JObj [("name", JStr "bot");
        ("dependencies", JObj [("malicious-lib", JStr "1.0.0")]);
        ("devDependencies", JNull)].

(** No [dependencies]; [devDependencies] is a list of pairs. *)
Definition paired_package : json :=
  JObj [("name", JStr "bot");
        ("devDependencies", JArr [JArr [JStr "malicious-lib-v2"; JStr "2.0.0"]])].

Definition existing : list string :=
  ["/var/lib/pterodactyl/volumes/c1"; "/var/lib/pterodactyl/volumes/c2";
   "/var/lib/pterodactyl/volumes/c3";
   "/var/lib/pterodactyl/volumes/c1/package.json";
   "/var/lib/pterodactyl/volumes/c3/package.json";
   "/var/lib/pterodactyl/volumes/c1/crash/core.dump";
   "/var/lib/pterodactyl/volumes/c1/start.sh";
   "/var/lib/pterodactyl/volumes/c1/locked.txt";
   "/etc/hostname"].

Definition counters (rx tx : Z) : stats :=
  {| networks := Some [("eth0", {| rx_bytes := Some rx; tx_bytes := Some tx |})] |}.

Definition world : World :=
  {| VOLUMES_DIR := volumes;
     listdir := λ _, Ok ["c1"; "c2"; "c3"];
     path_exists := λ p, existsb (String.eqb p) existing;
     getsize := λ p,
       if String.eqb p "/var/lib/pterodactyl/volumes/c1/crash/core.dump" then Ok 4096
       else if String.eqb p "/etc/hostname" then Ok 12
       else Raise;
     read_text := λ p,
       if String.eqb p "/var/lib/pterodactyl/volumes/c1/start.sh" then Ok start_script
       else Raise;
     load_json := λ p,
       if String.eqb p "/var/lib/pterodactyl/volumes/c1/package.json"
       then Ok package_json
       else if String.eqb p "/var/lib/pterodactyl/volumes/c3/package.json"
       then Ok paired_package
       else Raise;
     glob := λ pattern,
       if String.eqb pattern "/var/lib/pterodactyl/volumes/c1/*.exe"
       then Ok ["/var/lib/pterodactyl/volumes/c1/miner.exe";
                "/var/lib/pterodactyl/volumes/c1/setup.exe"]
       else Ok [];
     containers_get := λ uuid, Found uuid;
     container_logs := λ _, Ok logs;
     container_exec_run := λ _ _, Raise;
     container_stats := λ uuid,
       if String.eqb uuid "c1" then Ok (counters 600000 500000)
       else if String.eqb uuid "c3" then Ok (counters 900000 900000)
       else Ok (counters 10 10);
     strategy_files := [];
     servers_page := Ok listing |}.

(** The same host later on, with the logs in capitals. *)
Definition shouting_world : World :=
  {| VOLUMES_DIR := volumes;
     listdir := λ _, Ok ["c3"; "c2"; "c1"];
     path_exists := λ p, existsb (String.eqb p) existing;
     getsize := λ _, Raise;
     read_text := λ _, Raise;
     load_json := λ _, Raise;
     glob := λ _, Ok [];
     containers_get := λ uuid, Found uuid;
     container_logs := λ _, Ok "STARTING XMRIG MINER
CONNECTED TO POOL";
     container_exec_run := λ _ _, Raise;
     container_stats := λ _, Ok (counters 900000 900000);
     strategy_files := [];
     servers_page := Raise |}.

Definition traffic_check : json :=
  JObj [("type", JStr "network_usage"); ("threshold", JInt 1000000);
        ("message", JStr "Used {usage} MB")].

Definition miner_check : json :=
  JObj [("type", JStr "log_content");
        ("patterns", JArr [JStr "stratum"; JStr "XMRig"]);
        ("message", JStr "Log mentions {pattern}")].

Definition traffic_fields : pydict :=
  [("name", JStr "Traffic"); ("type", JStr "network"); ("checks", JArr [traffic_check])].

Definition miner_fields : pydict :=
  [("name", JStr "Miners"); ("type", JStr "logs"); ("checks", JArr [miner_check])].

Definition combined_fields : pydict :=
  [("name", JStr "Traffic and miners"); ("type", JStr "mixed");
   ("checks", JArr [traffic_check; miner_check])].

Definition traffic_rule : json := JObj traffic_fields.
Definition miner_rule : json := JObj miner_fields.

Definition nameless_rule : json :=
  JObj [("type", JStr "files"); ("checks", JArr [])].

Definition exe_check : pydict :=
  [("type", JStr "file_existence");
   ("patterns", JArr [JStr "*.bat"; JStr "*.exe"; JStr "*.sh"])].

Definition script_check : pydict :=
  [("type", JStr "file_content"); ("path", JStr "start.sh");
   ("patterns", JArr [JStr "XMRIG"; JStr "xmrig"; JStr "donate"])].

Definition log_check : pydict :=
  [("type", JStr "log_content"); ("patterns", JArr [JStr "stratum"; JStr "XMRig"])].

Definition lowered_log_check : pydict :=
  [("type", JStr "log_content"); ("patterns", JArr [JStr "stratum"; JStr "xmrig"])].

Definition dump_check : pydict :=
  [("type", JStr "file_size"); ("path", JStr "crash/core.dump"); ("max_size", JInt 1024)].

Definition hostname_check : pydict :=
  [("type", JStr "file_size"); ("path", JStr "/etc/hostname")].

Definition stringly_check : pydict :=
  [("type", JStr "network_usage"); ("threshold", JStr "1000000");
   ("message", JStr "Used {usage} MB")].

Definition dependency_config : pydict :=
  [("type", JStr "dependency"); ("patterns", JArr [JStr "malicious-lib"])].

Definition uuids : list string := ["c1"; "c2"; "c3"].

(** The sweep of the host with the traffic rule, from an empty store. *)
Definition sweep : gmap string json * list event :=
  scan_loop (H := Sample.python) world [traffic_rule] uuids ∅.

End Fleet.

(** * Properties *)

Section Properties.
Context `{Python}.

(** ** The flagged-state store (sweeps) *)

Lemma scan_container_flagged w strategies (flagged : gmap string json) uuid :
  truthy (default JNull (flagged !! uuid)) = true →
  scan_container w strategies flagged uuid = (flagged, []).
Proof. intros Hf. unfold scan_container. by rewrite Hf. Qed.

(** An iteration touches the entry and emits the events of its own
    identifier only. *)
Lemma scan_container_other w strategies (flagged : gmap string json) uuid other :
  other ≠ uuid →
  (scan_container w strategies flagged other).1 !! uuid = flagged !! uuid
  ∧ Forall (λ e, ¬ concerns uuid e) (scan_container w strategies flagged other).2.
Proof.
  intros Hne. unfold scan_container.
  destruct (truthy (default JNull (flagged !! other))); [by split|].
  destruct (check_volume w other strategies) as [[|f fs]|]; simpl.
  - split; [done|]. repeat constructor. by unfold concerns.
  - split; [by rewrite lookup_insert_ne|].
    destruct (truthy (get_server_id_from_uuid w other)); simpl;
      repeat constructor; by unfold concerns.
  - split; [done|]. repeat constructor. by unfold concerns.
Qed.

Lemma scan_loop_app w strategies l1 l2 (flagged : gmap string json) :
  scan_loop w strategies (l1 ++ l2) flagged =
    let r1 := scan_loop w strategies l1 flagged in
    let r2 := scan_loop w strategies l2 r1.1 in
    (r2.1, r1.2 ++ r2.2).
Proof.
  revert flagged. induction l1 as [|u l1 IH]; intros flagged; simpl.
  - by destruct (scan_loop w strategies l2 flagged).
  - destruct (scan_container w strategies flagged u) as [f1 e1].
    rewrite IH. simpl.
    destruct (scan_loop w strategies l1 f1) as [f2 e2]. simpl.
    destruct (scan_loop w strategies l2 f2) as [f3 e3]. simpl.
    by rewrite app_assoc.
Qed.

Lemma scan_loop_others w strategies uuids (flagged : gmap string json) uuid :
  uuid ∉ uuids →
  (scan_loop w strategies uuids flagged).1 !! uuid = flagged !! uuid
  ∧ Forall (λ e, ¬ concerns uuid e) (scan_loop w strategies uuids flagged).2.
Proof.
  revert flagged. induction uuids as [|u uuids IH]; intros flagged Hnot; simpl.
  - by split.
  - apply not_elem_of_cons in Hnot as [Hne Hnot].
    destruct (scan_container_other w strategies flagged uuid u) as [Hl He]; [done|].
    destruct (scan_container w strategies flagged u) as [f1 e1]. simpl in *.
    destruct (IH f1 Hnot) as [Hl' He'].
    destruct (scan_loop w strategies uuids f1) as [f2 e2]. simpl in *.
    split; [congruence|]. by apply Forall_app.
Qed.

Lemma scan_loop_flagged w strategies uuids (flagged : gmap string json) uuid :
  flagged !! uuid = Some (JBool true) →
  (scan_loop w strategies uuids flagged).1 !! uuid = Some (JBool true)
  ∧ Forall (λ e, ¬ concerns uuid e) (scan_loop w strategies uuids flagged).2.
Proof.
  revert flagged. induction uuids as [|u uuids IH]; intros flagged Hf; simpl.
  - by split.
  - assert (Hstep : (scan_container w strategies flagged u).1 !! uuid = Some (JBool true)
                    ∧ Forall (λ e, ¬ concerns uuid e) (scan_container w strategies flagged u).2).
    { destruct (decide (u = uuid)) as [->|Hne].
      - rewrite scan_container_flagged; [by split|]. by rewrite Hf.
      - destruct (scan_container_other w strategies flagged uuid u Hne) as [Hl He].
        split; [congruence|done]. }
    destruct Hstep as [Hl He].
    destruct (scan_container w strategies flagged u) as [f1 e1]. simpl in *.
    destruct (IH f1 Hl) as [Hl' He'].
    destruct (scan_loop w strategies uuids f1) as [f2 e2]. simpl in *.
    split; [done|]. by apply Forall_app.
Qed.

Lemma sweep_flagged w strategies (flagged : gmap string json) uuid :
  flagged !! uuid = Some (JBool true) →
  let r := try_except (scan_all_containers w strategies flagged) (flagged, []) in
  r.1 !! uuid = Some (JBool true) ∧ Forall (λ e, ¬ concerns uuid e) r.2.
Proof.
  intros Hf. unfold scan_all_containers.
  destruct (listdir w (VOLUMES_DIR w)) as [uuids|]; simpl.
  - by apply scan_loop_flagged.
  - by split.
Qed.

(** C1. An identifier marked true in the store is skipped by every sweep:
    whatever the successive sweeps observe, and whatever the strategies,
    no event concerns it (no check of its volume, no resolution, no
    suspension, no notification, no write on its behalf) and its entry
    stays true; so for one sweep that returns, so for any sequence. *)
Theorem flagged_identifier_excluded (strategies : list json)
    (flagged : gmap string json) (uuid : string) :
  flagged !! uuid = Some (JBool true) →
  (∀ w flagged' trace,
      scan_all_containers w strategies flagged = Ok (flagged', trace) →
      flagged' !! uuid = Some (JBool true) ∧ Forall (λ e, ¬ concerns uuid e) trace)
  ∧ (∀ worlds,
      (sweeps strategies worlds flagged).1 !! uuid = Some (JBool true)
      ∧ Forall (λ e, ¬ concerns uuid e) (sweeps strategies worlds flagged).2).
Proof.
  intros Hf. split.
  - intros w flagged' trace Hrun.
    pose proof (sweep_flagged w strategies flagged uuid Hf) as Hs.
    by rewrite Hrun in Hs.
  - intros worlds. revert flagged Hf.
    induction worlds as [|w later IH]; intros flagged Hf; simpl; [by split|].
    pose proof (sweep_flagged w strategies flagged uuid Hf) as [Hl He].
    destruct (try_except (scan_all_containers w strategies flagged) (flagged, []))
      as [f1 e1]. simpl in *.
    destruct (IH f1 Hl) as [Hl' He'].
    destruct (sweeps strategies later f1) as [f2 e2]. simpl in *.
    split; [done|]. by apply Forall_app.
Qed.

Lemma filter_unconcerned uuid (trace : list event) :
  Forall (λ e, ¬ concerns uuid e) trace → filter (concerns uuid) trace = [].
Proof.
  induction 1 as [|e trace He _ IH]; [done|].
  by rewrite filter_cons_False.
Qed.

(** The iteration on an unflagged identifier whose scan gives flags and
    whose resolution gives [None]. *)
Lemma scan_container_unresolved w strategies (flagged : gmap string json) uuid flags :
  truthy (default JNull (flagged !! uuid)) = false →
  check_volume w uuid strategies = Ok flags →
  flags ≠ [] →
  get_server_id_from_uuid w uuid = JNull →
  scan_container w strategies flagged uuid =
    (<[uuid := JBool true]> flagged,
     [(uuid, CheckVolume); (uuid, ResolveServerId); (uuid, PublicAlert JNull);
      (uuid, PrivateAlert JNull flags);
      (uuid, WriteFlagged (<[uuid := JBool true]> flagged))]).
Proof.
  intros Hf Hc Hne Hr. unfold scan_container. rewrite Hf, Hc.
  destruct flags as [|f fs]; [done|]. by rewrite Hr.
Qed.

(** C2. In a sweep, an unflagged identifier whose scan yields a non-empty
    flag sequence and whose resolution to a server id gives none is still
    marked: what the sweep does for it is the scan, the resolution, the
    summary notification, the detailed notification with the flags, and the
    write of a store in which it is true, in this order, and no suspension;
    its entry is true in the store the sweep leaves. *)
Theorem marked_when_resolution_fails w (strategies : list json)
    (flagged : gmap string json) (uuids : list string) (uuid : string)
    (flags : list string) :
  listdir w (VOLUMES_DIR w) = Ok uuids →
  uuid ∈ uuids →
  truthy (default JNull (flagged !! uuid)) = false →
  check_volume w uuid strategies = Ok flags →
  flags ≠ [] →
  get_server_id_from_uuid w uuid = JNull →
  ∃ flagged' trace written,
    scan_all_containers w strategies flagged = Ok (flagged', trace)
    ∧ filter (concerns uuid) trace =
        [(uuid, CheckVolume); (uuid, ResolveServerId); (uuid, PublicAlert JNull);
         (uuid, PrivateAlert JNull flags); (uuid, WriteFlagged written)]
    ∧ written !! uuid = Some (JBool true)
    ∧ flagged' !! uuid = Some (JBool true)
    ∧ ∀ server_id, (uuid, SuspendServer server_id) ∉ trace.
Proof.
  intros Hdir Hin Hf Hc Hne Hr.
  destruct (list_elem_of_split_l uuids uuid Hin) as (before & after & -> & Hfirst).
  unfold scan_all_containers. rewrite Hdir. simpl.
  rewrite scan_loop_app. simpl.
  destruct (scan_loop_others w strategies before flagged uuid Hfirst) as [Hl He].
  destruct (scan_loop w strategies before flagged) as [f1 e1]. simpl in *.
  rewrite (scan_container_unresolved w strategies f1 uuid flags);
    [|by rewrite Hl|done..].
  destruct (scan_loop_flagged w strategies after (<[uuid:=JBool true]> f1) uuid)
    as [Hl' He']; [by rewrite lookup_insert_eq|].
  destruct (scan_loop w strategies after (<[uuid:=JBool true]> f1)) as [f2 e2].
  simpl in *.
  eexists _, _, (<[uuid:=JBool true]> f1). split; [done|].
  assert (Hfilter : filter (concerns uuid)
            (e1 ++ (uuid, CheckVolume) :: (uuid, ResolveServerId)
                :: (uuid, PublicAlert JNull) :: (uuid, PrivateAlert JNull flags)
                :: (uuid, WriteFlagged (<[uuid:=JBool true]> f1)) :: e2)
          = [(uuid, CheckVolume); (uuid, ResolveServerId); (uuid, PublicAlert JNull);
             (uuid, PrivateAlert JNull flags);
             (uuid, WriteFlagged (<[uuid:=JBool true]> f1))]).
  { rewrite filter_app, (filter_unconcerned uuid e1 He), app_nil_l.
    rewrite !filter_cons_True by done.
    by rewrite (filter_unconcerned uuid e2 He'). }
  split; [done|]. split; [by rewrite lookup_insert_eq|]. split; [done|].
  intros server_id Hs.
  assert (Hs' : (uuid, SuspendServer server_id) ∈ filter (concerns uuid)
            (e1 ++ (uuid, CheckVolume) :: (uuid, ResolveServerId)
                :: (uuid, PublicAlert JNull) :: (uuid, PrivateAlert JNull flags)
                :: (uuid, WriteFlagged (<[uuid:=JBool true]> f1)) :: e2)).
  { apply list_elem_of_filter. by split. }
  rewrite Hfilter in Hs'.
  repeat (apply elem_of_cons in Hs' as [Hs'|Hs']; [discriminate|]).
  by apply elem_of_nil in Hs'.
Qed.

(** ** The strategy executor *)

Lemma run_check_app w vp c flags check_config :
  run_check w vp c flags check_config = flags ++ run_check w vp c [] check_config.
Proof.
  unfold run_check. destruct check_config; try by rewrite app_nil_r.
  destruct (negb _ || negb _); [by rewrite app_nil_r|].
  destruct (perform_check w vp c fields) as [[m|]|]; simpl;
    by rewrite ?app_nil_r.
Qed.

Lemma run_checks_app w vp c check_configs flags :
  fold_left (run_check w vp c) check_configs flags =
    flags ++ fold_left (run_check w vp c) check_configs [].
Proof.
  revert flags. induction check_configs as [|x l IH]; intros flags; simpl.
  - by rewrite app_nil_r.
  - rewrite IH, (IH (run_check w vp c [] x)), (run_check_app w vp c flags x).
    by rewrite app_assoc.
Qed.

(** A check that appends nothing can be left out of the run. *)
Lemma run_checks_skip w vp c before x after :
  (∀ flags, run_check w vp c flags x = flags) →
  fold_left (run_check w vp c) (before ++ x :: after) [] =
    fold_left (run_check w vp c) (before ++ after) [].
Proof. intros Hx. rewrite !fold_left_app. simpl. by rewrite Hx. Qed.

Lemma run_check_raise w vp c flags fields :
  perform_check w vp c fields = Raise →
  run_check w vp c flags (JObj fields) = flags.
Proof.
  intros Hr. unfold run_check. rewrite Hr.
  by destruct (negb _ || negb _).
Qed.

Lemma execute_strategy_checks w vp c fields name check_configs :
  dict_lookup fields "name" = Some name →
  dict_lookup fields "checks" = Some (JArr check_configs) →
  execute_strategy w (JObj fields) vp c =
    Ok (fold_left (run_check w vp c) check_configs []).
Proof.
  intros Hn Hc. unfold execute_strategy, py_getitem, py_get, dict_get.
  by rewrite Hn, Hc.
Qed.

Lemma execute_strategy_total w vp c fields name :
  dict_lookup fields "name" = Some name →
  ∃ flags, execute_strategy w (JObj fields) vp c = Ok flags.
Proof.
  intros Hn. unfold execute_strategy, py_getitem, py_get. rewrite Hn. simpl.
  destruct (dict_get fields "checks" JNull); eauto.
Qed.

Lemma execute_strategy_skip w vp c fields fields' name name' before x after :
  dict_lookup fields "name" = Some name →
  dict_lookup fields "checks" = Some (JArr (before ++ x :: after)) →
  dict_lookup fields' "name" = Some name' →
  dict_lookup fields' "checks" = Some (JArr (before ++ after)) →
  (∀ flags, run_check w vp c flags x = flags) →
  ∃ flags,
    execute_strategy w (JObj fields) vp c = Ok flags
    ∧ execute_strategy w (JObj fields') vp c = Ok flags.
Proof.
  intros Hn Hc Hn' Hc' Hx.
  rewrite (execute_strategy_checks w vp c fields name _ Hn Hc).
  rewrite (execute_strategy_checks w vp c fields' name' _ Hn' Hc').
  rewrite (run_checks_skip w vp c before x after Hx). eauto.
Qed.

Lemma unrecognized_type fields t kind :
  recognized (JObj fields) = false →
  dict_lookup fields "type" = Some t →
  kind ∈ check_kinds →
  py_eq_str t kind = false.
Proof.
  unfold recognized. intros Hr Ht Hk. rewrite Ht in Hr.
  destruct t as [| | | |s| |]; try done. simpl.
  destruct (String.eqb_spec s kind) as [->|]; [|done].
  by apply bool_decide_eq_false in Hr.
Qed.

Lemma run_check_unrecognized w vp c flags check_config :
  recognized check_config = false →
  run_check w vp c flags check_config = flags.
Proof.
  intros Hr. unfold run_check.
  destruct check_config as [| | | | | |fields]; try done.
  destruct (negb (truthy (JObj fields)) || negb (truthy (dict_get_none fields "type")))
    eqn:Hskip; [done|].
  unfold perform_check, py_getitem.
  destruct (dict_lookup fields "type") as [t|] eqn:Ht.
  - simpl.
    rewrite !(unrecognized_type fields t _ Hr Ht) by (unfold check_kinds; set_solver).
    done.
  - done.
Qed.

(** C9. A check configuration without a kind of the closed set (not a
    dict, no [type], an empty [type], a [type] that is none of the seven
    strings) contributes no flag, and the run of the strategy is the run
    of its other checks: the checks after it are evaluated all the same. *)
Theorem unknown_kind_skipped w (volume_path container : string)
    (fields fields' : pydict) (name name' : json)
    (before after : list json) (check_config : json) :
  dict_lookup fields "name" = Some name →
  dict_lookup fields "checks" = Some (JArr (before ++ check_config :: after)) →
  dict_lookup fields' "name" = Some name' →
  dict_lookup fields' "checks" = Some (JArr (before ++ after)) →
  recognized check_config = false →
  (∀ flags, run_check w volume_path container flags check_config = flags)
  ∧ ∃ flags,
      execute_strategy w (JObj fields) volume_path container = Ok flags
      ∧ execute_strategy w (JObj fields') volume_path container = Ok flags.
Proof.
  intros Hn Hc Hn' Hc' Hr.
  assert (Hx : ∀ flags, run_check w volume_path container flags check_config = flags)
    by (intros flags; by apply run_check_unrecognized).
  split; [done|]. eapply execute_strategy_skip; eauto.
Qed.

(** ** Message templates *)

Lemma string_app_empty s : s +:+ "" = s.
Proof.
  induction s as [|c s IH]; [done|].
  change (String c (s +:+ "") = String c s). by rewrite IH.
Qed.

Lemma string_app_assoc (s1 s2 s3 : string) : (s1 +:+ s2) +:+ s3 = s1 +:+ (s2 +:+ s3).
Proof.
  induction s1 as [|c s1 IH]; [done|].
  change (String c ((s1 +:+ s2) +:+ s3) = String c (s1 +:+ (s2 +:+ s3))). by rewrite IH.
Qed.


Lemma emit_emit_string c text r :
  emit c (emit_string text r) = emit_string (String c text) r.
Proof. by destruct r. Qed.

Lemma emit_string_empty r : emit_string "" r = r.
Proof. by destruct r. Qed.

(** Escaped text is read back as the text. *)
Lemma format_scan_text a c r :
  format_scan a Text (String c r) =
    if is_char c "{" then format_scan a Opened r
    else if is_char c "}" then format_scan a Closed r
    else emit c (format_scan a Text r).
Proof. done. Qed.

Lemma format_scan_doubled a c r :
  is_char c "{" || is_char c "}" = true →
  format_scan a Text (String c (String c r)) = emit c (format_scan a Text r).
Proof.
  intros Hb. rewrite format_scan_text.
  destruct (is_char c "{") eqn:Ho.
  - cbn [format_scan]. by rewrite Ho.
  - cbn [orb] in Hb. rewrite Hb. cbn [format_scan]. by rewrite Hb.
Qed.

Lemma format_scan_escape a text rest :
  format_scan a Text (escape text +:+ rest) =
    emit_string text (format_scan a Text rest).
Proof.
  induction text as [|c text IH].
  - simpl. by rewrite emit_string_empty.
  - cbn [escape].
    destruct (is_char c "{" || is_char c "}") eqn:Hb.
    + change (String c (String c (escape text)) +:+ rest)
        with (String c (String c (escape text +:+ rest))).
      rewrite format_scan_doubled, IH by done. apply emit_emit_string.
    + change (String c (escape text) +:+ rest)
        with (String c (escape text +:+ rest)).
      rewrite format_scan_text.
      apply orb_false_iff in Hb as [-> ->].
      rewrite IH. apply emit_emit_string.
Qed.

(** A placeholder of the five is replaced by its keyword argument. *)
Lemma format_scan_placeholder a name rest :
  name ∈ placeholders →
  ∃ v, keyword a name = Some v
       ∧ format_scan a Text (("{" +:+ name +:+ "}") +:+ rest) =
           emit_string v (format_scan a Text rest).
Proof.
  unfold placeholders. intros Hin.
  repeat (apply elem_of_cons in Hin as [->|Hin]; [eexists; split; reflexivity|]).
  by apply elem_of_nil in Hin.
Qed.

Lemma round53_limit m : 0 ≤ m → (round53 m < 2 ^ 1034 ↔ m < usage_limit).
Proof.
  intros H0. unfold round53, usage_limit.
  assert (H53 : 2 ^ 53 < 2 ^ 1034 - 2 ^ 980) by (vm_compute; done).
  destruct (Z.ltb_spec m (2 ^ 53)) as [|Hbig]; [lia|].
  assert (Hpos : 0 < m) by lia.
  pose proof (Z.log2_spec m Hpos) as [Hlo Hhi].
  assert (HL : 53 ≤ Z.log2 m) by (apply Z.log2_le_pow2; lia).
  set (L := Z.log2 m) in *. set (e := L - 52).
  assert (He : 0 < 2 ^ e) by (apply Z.pow_pos_nonneg; lia).
  assert (HLe : 2 ^ L = 2 ^ 52 * 2 ^ e).
  { rewrite <- Z.pow_add_r by lia. f_equal. lia. }
  assert (HLe' : 2 ^ Z.succ L = 2 ^ 53 * 2 ^ e).
  { rewrite <- Z.pow_add_r by lia. f_equal. lia. }
  pose proof (Z.div_mod m (2 ^ e) ltac:(lia)) as Hdm.
  pose proof (Z.mod_pos_bound m (2 ^ e) He) as Hr.
  set (q := m / 2 ^ e) in *. set (r := m mod 2 ^ e) in *.
  assert (Hq : 2 ^ 52 ≤ q < 2 ^ 53) by nia.
  assert (Hhalf : 2 * 2 ^ (e - 1) = 2 ^ e).
  { rewrite <- (Z.pow_succ_r 2 (e - 1)) by lia. f_equal. lia. }
  destruct (Z.lt_trichotomy L 1033) as [Hlt|[Heq|Hgt]].
  - assert (Hpow : 2 ^ Z.succ L ≤ 2 ^ 1033) by (apply Z.pow_le_mono_r; lia).
    assert (H1033 : 2 ^ 1033 < 2 ^ 1034 - 2 ^ 980) by (vm_compute; done).
    assert (H1034 : 2 ^ 1033 < 2 ^ 1034) by (vm_compute; done).
    destruct (_ || _); split; intros _; nia.
  - assert (Hee : e = 981) by lia.
    rewrite Hee in *.
    assert (Hc : 2 ^ 1034 = 2 ^ 53 * 2 ^ 981) by (vm_compute; done).
    assert (Hc' : 2 ^ 981 = 2 * 2 ^ 980) by (vm_compute; done).
    change (981 - 1) with 980 in *.
    destruct (Z.ltb_spec (2 ^ 980) r) as [Hrh|Hrh]; cbn [orb].
    + split; intros; nia.
    + destruct (Z.eqb_spec r (2 ^ 980)) as [Hreq|Hrne]; cbn [andb].
      * destruct (Z.odd q) eqn:Hodd.
        -- split; intros; nia.
        -- assert (q ≠ 2 ^ 53 - 1).
           { intros Hqq. rewrite Hqq in Hodd. vm_compute in Hodd. discriminate Hodd. }
           split; intros; nia.
      * split; intros; nia.
  - assert (Hpow : 2 ^ 1034 ≤ 2 ^ L) by (apply Z.pow_le_mono_r; lia).
    assert (H1034 : 2 ^ 1034 - 2 ^ 980 < 2 ^ 1034) by (vm_compute; done).
    destruct (_ || _); split; intros; nia.
Qed.

Lemma usage_megabytes_raise n : usage_megabytes n = Raise ↔ usage_limit ≤ Z.abs n.
Proof.
  unfold usage_megabytes.
  pose proof (round53_limit (Z.abs n) (Z.abs_nonneg n)) as Hl.
  destruct (Z.leb_spec (2 ^ 1034) (round53 (Z.abs n))); split; intros; try done; lia.
Qed.

Lemma usage_megabytes_ok n :
  Z.abs n < usage_limit →
  usage_megabytes n = Ok (try_except (usage_megabytes n) "").
Proof.
  intros Hn. destruct (usage_megabytes n) eqn:Hu; [done|].
  apply usage_megabytes_raise in Hu. lia.
Qed.

Lemma keyword_placeholder_value data name v :
  keyword
    {| arg_pattern := default "" (ev_pattern data);
       arg_filename := default "" (ev_filename data);
       arg_dependency := default "" (ev_dependency data);
       arg_usage := megabytes data;
       arg_processes := join ", " (default [] (ev_processes data)) |} name = Some v →
  v = placeholder_value data name.
Proof.
  unfold keyword, placeholder_value.
  repeat (destruct (String.eqb name _); [by intros [= <-]|]). done.
Qed.

Lemma format_scan_piece a p rest :
  plain p →
  ∃ v, format_scan a Text (write_piece p +:+ rest) =
         emit_string v (format_scan a Text rest)
       ∧ match p with
         | Literal text => v = text
         | Placeholder name => keyword a name = Some v
         end.
Proof.
  intros Hp. destruct p as [text|name]; cbn [write_piece].
  - exists text. by rewrite format_scan_escape.
  - destruct (format_scan_placeholder a name rest Hp) as (v & Hv & Heq).
    by exists v.
Qed.

Lemma replace_placeholders_template data (template : list piece) :
  Forall plain template →
  (∀ n, ev_usage data = Some n → Z.abs n < usage_limit) →
  replace_placeholders (JStr (write_template template)) data =
    Ok (rendering data template).
Proof.
  intros Hplain Husage. unfold replace_placeholders.
  assert (Hu : usage_megabytes (default 0 (ev_usage data)) = Ok (megabytes data)).
  { unfold megabytes. destruct (ev_usage data) as [n|]; simpl; [|done].
    by apply usage_megabytes_ok, Husage. }
  rewrite Hu. cbn [mbind result_bind]. unfold py_format.
  induction Hplain as [|p template Hp _ IH]; [done|].
  cbn [write_template rendering].
  destruct (format_scan_piece
              {| arg_pattern := default "" (ev_pattern data);
                 arg_filename := default "" (ev_filename data);
                 arg_dependency := default "" (ev_dependency data);
                 arg_usage := megabytes data;
                 arg_processes := join ", " (default [] (ev_processes data)) |}
              p (write_template template) Hp) as (v & -> & Hv).
  rewrite IH. cbn. f_equal. f_equal.
  destruct p as [text|name]; cbn [substitute]; [done|].
  by apply keyword_placeholder_value.
Qed.

(** A well-written beginning is read through. *)
Lemma format_scan_template a (template : list piece) rest :
  Forall plain template →
  ∃ v, format_scan a Text (write_template template +:+ rest) =
         emit_string v (format_scan a Text rest).
Proof.
  induction 1 as [|p template Hp _ [v IH]].
  - exists "". by rewrite emit_string_empty.
  - cbn [write_template]. rewrite string_app_assoc.
    destruct (format_scan_piece a p (write_template template +:+ rest) Hp) as (u & -> & _).
    rewrite IH. exists (u +:+ v).
    destruct (format_scan a Text rest) as [s|]; [|done].
    cbn. by rewrite string_app_assoc.
Qed.

Lemma keyword_unknown a name : name ∉ placeholders → keyword a name = None.
Proof.
  unfold placeholders, keyword. intros Hn.
  repeat match goal with
         | |- context [String.eqb name ?k] =>
             destruct (String.eqb_spec name k) as [->|_]; [exfalso; apply Hn; set_solver|]
         end.
  done.
Qed.

Lemma ends_name_not_opening c : ends_name c = true → is_char c "{" = false.
Proof.
  intros Hc. destruct (is_char c "{") eqn:Ho; [|done].
  change (Ascii.eqb c "{" = true) in Ho. apply Ascii.eqb_eq in Ho. subst c.
  discriminate Hc.
Qed.

Lemma name_char_not_opening c : name_char c = true → is_char c "{" = false.
Proof.
  unfold name_char, is_char. by destruct (Ascii.eqb c "{").
Qed.

Lemma format_scan_opened a c r :
  is_char c "{" = false →
  format_scan a Opened (String c r) = format_scan a (Field "") (String c r).
Proof. intros Hc. cbn [format_scan]. by rewrite Hc. Qed.

Lemma format_scan_name a name pre s :
  simple name = true →
  format_scan a (Field pre) (name +:+ s) = format_scan a (Field (pre +:+ name)) s.
Proof.
  revert pre. induction name as [|c name IH]; intros pre Hs.
  - by rewrite string_app_empty.
  - cbn [simple] in Hs. apply andb_true_iff in Hs as [Hc Hs].
    change (String c name +:+ s) with (String c (name +:+ s)).
    cbn [format_scan].
    unfold name_char in Hc. apply negb_true_iff in Hc.
    repeat (apply orb_false_iff in Hc as [Hc ?]).
    replace (is_char c "}") with false by done.
    replace (is_char c "{") with false by done.
    replace (is_char c "[") with false by done.
    replace (is_char c ".") with false by done.
    replace (is_char c "!") with false by done.
    replace (is_char c ":") with false by done.
    cbn [orb]. rewrite IH by done. by rewrite string_app_assoc.
Qed.

Lemma format_scan_unknown a name c rest :
  keyword a name = None →
  ends_name c = true →
  format_scan a (Field name) (String c rest) = Raise.
Proof.
  intros Hk Hc. cbn [format_scan]. rewrite Hk.
  rewrite (ends_name_not_opening c Hc).
  destruct (is_char c "}") eqn:Hclose; [done|].
  unfold ends_name in Hc. rewrite Hclose in Hc. cbn [orb] in Hc. by rewrite Hc.
Qed.

Lemma format_scan_malformed a t : malformed t → format_scan a Text t = Raise.
Proof.
  intros [template name c rest Hp Hs Hn Hc|template rest Hp Hr|template name Hp Hs].
  - destruct (format_scan_template a template ("{" +:+ name +:+ String c rest) Hp)
      as [v ->].
    change ("{" +:+ name +:+ String c rest) with (String "{" (name +:+ String c rest)).
    rewrite format_scan_text.
    change (is_char "{" "{") with true. cbn match.
    assert (Hfield : format_scan a Opened (name +:+ String c rest)
                     = format_scan a (Field name) (String c rest)).
    { destruct name as [|d name].
      - change ("" +:+ String c rest) with (String c rest).
        by apply format_scan_opened, ends_name_not_opening.
      - change (String d name +:+ String c rest) with (String d (name +:+ String c rest)).
        rewrite format_scan_opened.
        + change (String d (name +:+ String c rest)) with (String d name +:+ String c rest).
          by rewrite format_scan_name.
        + cbn [simple] in Hs. apply andb_true_iff in Hs as [Hd _].
          by apply name_char_not_opening. }
    by rewrite Hfield, (format_scan_unknown a name c rest (keyword_unknown a name Hn) Hc).
  - destruct (format_scan_template a template ("}" +:+ rest) Hp) as [v ->].
    change ("}" +:+ rest) with (String "}" rest). rewrite format_scan_text.
    change (is_char "}" "{") with false. change (is_char "}" "}") with true. cbn match.
    destruct rest as [|c rest]; [done|]. cbn [starts_with_closing] in Hr.
    cbn [format_scan]. by rewrite Hr.
  - destruct (format_scan_template a template ("{" +:+ name) Hp) as [v ->].
    change ("{" +:+ name) with (String "{" name). rewrite format_scan_text.
    change (is_char "{" "{") with true. cbn match.
    destruct name as [|d name]; [done|].
    rewrite format_scan_opened.
    + rewrite <- (string_app_empty (String d name)), format_scan_name by done. done.
    + cbn [simple] in Hs. apply andb_true_iff in Hs as [Hd _].
      by apply name_char_not_opening.
Qed.

Lemma replace_placeholders_malformed t data :
  malformed t → replace_placeholders (JStr t) data = Raise.
Proof.
  intros Ht. unfold replace_placeholders.
  destruct (usage_megabytes _); [|done]. cbn [mbind result_bind].
  by apply format_scan_malformed.
Qed.

(** A check whose message cannot be rendered appends no flag. *)
Lemma run_check_unrenderable w vp c flags fields template :
  dict_lookup fields "message" = Some template →
  (∀ data, replace_placeholders template data = Raise) →
  run_check w vp c flags (JObj fields) = flags.
Proof.
  intros Hm Hr. unfold run_check. destruct (negb _ || negb _); [done|].
  assert (Hrender : ∀ e : result (option evidence),
             (flag_data ← e;
              render (dict_get fields "message" (JStr "An undefined issue was detected"))
                flag_data) = Raise
             ∨ (flag_data ← e;
                render (dict_get fields "message" (JStr "An undefined issue was detected"))
                  flag_data) = Ok None).
  { intros [[data|]|]; cbn [mbind result_bind render]; [|by right|by left].
    left. unfold dict_get. rewrite Hm. cbn [default from_option id]. by rewrite Hr. }
  assert (Hp : perform_check w vp c fields = Raise ∨ perform_check w vp c fields = Ok None).
  { unfold perform_check.
    destruct (py_getitem (JObj fields) "type") as [type|]; [|by left].
    cbn [mbind result_bind].
    repeat (match goal with |- context [if ?b then _ else _] => destruct b end;
            [apply Hrender|]).
    by right. }
  destruct Hp as [-> | ->]; done.
Qed.


(** C4, as amended. Rendering a template made of literal text and of the
    placeholders [pattern], [filename], [dependency], [usage] and
    [processes] never raises when the evidence's [usage] is below
    2^1034 - 2^980 in absolute value: the result is the text with each
    placeholder replaced by the field of the evidence, by the empty string
    when the evidence lacks [pattern], [filename], [dependency] or
    [processes], and by ["0.00"] when it lacks [usage]. Rendering raises,
    whatever the evidence, when after such a beginning the template names a
    placeholder that is none of the five, has a closing brace that is not
    doubled, or ends inside a placeholder; a check with such a message
    appends no flag, whatever its kind and whatever it finds. Rendering
    raises, whatever the template, exactly when the evidence has a [usage]
    of 2^1034 - 2^980 or more in absolute value. *)
Theorem template_rendering (template : list piece) (data : evidence) :
  Forall plain template →
  (∀ n, ev_usage data = Some n → Z.abs n < usage_limit) →
  replace_placeholders (JStr (write_template template)) data
    = Ok (rendering data template)
  ∧ (ev_pattern data = None → placeholder_value data "pattern" = "")
  ∧ (ev_filename data = None → placeholder_value data "filename" = "")
  ∧ (ev_dependency data = None → placeholder_value data "dependency" = "")
  ∧ (ev_processes data = None → placeholder_value data "processes" = "")
  ∧ (ev_usage data = None → placeholder_value data "usage" = "0.00")
  ∧ (∀ bad found, malformed bad → replace_placeholders (JStr bad) found = Raise)
  ∧ (∀ w volume_path container check_config bad flags,
      malformed bad →
      dict_lookup check_config "message" = Some (JStr bad) →
      run_check w volume_path container flags (JObj check_config) = flags)
  ∧ (∀ any found n,
      ev_usage found = Some n →
      usage_limit ≤ Z.abs n →
      replace_placeholders (JStr any) found = Raise)
  ∧ (∀ n, usage_megabytes n = Raise ↔ usage_limit ≤ Z.abs n).
Proof.
  intros Hplain Husage.
  split; [by apply replace_placeholders_template|].
  unfold placeholder_value, megabytes; simpl.
  repeat split; try by intros ->.
  - intros bad found Hbad. by apply replace_placeholders_malformed.
  - intros w vp c cfg bad flags Hbad Hm.
    apply (run_check_unrenderable w vp c flags cfg (JStr bad) Hm).
    intros found. by apply replace_placeholders_malformed.
  - intros any found n Hn Hbig. unfold replace_placeholders. rewrite Hn.
    cbn [default from_option id].
    by rewrite (proj2 (usage_megabytes_raise n) Hbig).
  - by apply usage_megabytes_raise.
  - by apply usage_megabytes_raise.
Qed.

(** ** Numbers *)

Lemma float_gt_int a b : float_gt (of_int a) (of_int b) = (b <? a).
Proof.
  unfold float_gt, of_int, Qlt_bool, Qle_bool. simpl.
  rewrite !Z.mul_1_r. destruct (Z.leb_spec a b), (Z.ltb_spec b a); (done || lia).
Qed.

Lemma py_gt_int a b : py_gt (of_int a) (JInt b) = Ok (b <? a).
Proof. unfold py_gt. cbn [num_of_json]. by rewrite float_gt_int. Qed.



(** ** The network evaluator *)



Lemma network_usage_check_eq w c cfg :
  network_usage_check w c cfg =
    Ok match container_stats w c with
       | Ok s =>
           if exceeds (of_int (total_usage s)) (dict_get cfg "threshold" (JInt 0))
           then Some (usage_evidence (total_usage s)) else None
       | Raise => None
       end.
Proof.
  unfold network_usage_check, exceeds.
  destruct (container_stats w c) as [s|]; simpl; [|done].
  by destruct (py_gt _ _) as [[]|].
Qed.


(** ** The strategy loader *)

Lemma load_file_loadable strategies file :
  load_file strategies file =
    strategies ++ match loadable file with Some s => [s] | None => [] end.
Proof.
  unfold load_file, loadable. destruct file as [name [strategy|]]; simpl.
  - destruct strategy; simpl; try by rewrite app_nil_r.
    destruct (_ && _ && _); simpl; by rewrite ?app_nil_r.
  - by rewrite app_nil_r.
Qed.

Lemma load_files_omap files strategies :
  fold_left load_file files strategies = strategies ++ omap loadable files.
Proof.
  revert strategies. induction files as [|file files IH]; intros strategies; simpl.
  - by rewrite app_nil_r.
  - rewrite IH, load_file_loadable.
    destruct (loadable file); simpl; by rewrite <- app_assoc.
Qed.

Lemma load_strategies_omap w : load_strategies w = omap loadable (strategy_files w).
Proof. unfold load_strategies. by rewrite load_files_omap. Qed.

Lemma check_volume_no_strategies w uuid : check_volume w uuid [] = Ok [].
Proof.
  unfold check_volume. destruct (negb _); [done|].
  by destruct (containers_get w uuid).
Qed.

Lemma scan_loop_no_strategies w uuids (flagged : gmap string json) :
  (scan_loop w [] uuids flagged).1 = flagged
  ∧ Forall (λ e : event, e.2 = CheckVolume) (scan_loop w [] uuids flagged).2.
Proof.
  induction uuids as [|u uuids [IH1 IH2]]; simpl; [by split|].
  unfold scan_container. rewrite check_volume_no_strategies.
  destruct (truthy (default JNull (flagged !! u)));
    destruct (scan_loop w [] uuids flagged) as [f evs]; simpl in *;
    split; try done; by constructor.
Qed.

Lemma sweeps_no_strategies worlds (flagged : gmap string json) :
  (sweeps [] worlds flagged).1 = flagged
  ∧ Forall (λ e : event, e.2 = CheckVolume) (sweeps [] worlds flagged).2.
Proof.
  induction worlds as [|w later [IH1 IH2]]; simpl; [by split|].
  assert (Hs : (try_except (scan_all_containers w [] flagged) (flagged, [])).1 = flagged
               ∧ Forall (λ e : event, e.2 = CheckVolume)
                   (try_except (scan_all_containers w [] flagged) (flagged, [])).2).
  { unfold scan_all_containers. destruct (listdir w (VOLUMES_DIR w)); simpl.
    - apply scan_loop_no_strategies.
    - by split. }
  destruct Hs as [Hs1 Hs2].
  destruct (try_except _ _) as [f1 e1]. simpl in *. subst f1.
  destruct (sweeps [] later flagged) as [f2 e2]. simpl in *.
  split; [done|]. by apply Forall_app.
Qed.

(** C6, as amended. The loader returns, in enumeration order and as they
    were parsed, exactly the rule definitions that are well formed: objects
    whose [name] and [type] are present and not empty and whose [checks]
    is a sequence. A file that cannot be read or parsed, and a rule without
    [checks], with [checks] that is no sequence, without [name] or without
    [type], is left out, and the files around it are loaded as if it were
    not there. When no rule is loaded the sweeps run on the empty
    sequence: volumes are checked, nothing else is done, and the store is
    left as it was. *)
Theorem load_strategies_spec w :
  load_strategies w = omap loadable (strategy_files w)
  ∧ (∀ strategy,
      strategy ∈ load_strategies w
      ↔ ∃ file, (file, Ok strategy) ∈ strategy_files w
                ∧ well_formed_rule strategy = true)
  ∧ (∀ fields,
      dict_lookup fields "checks" = None
      ∨ (∃ v, dict_lookup fields "checks" = Some v ∧ is_list v = false)
      ∨ dict_lookup fields "name" = None
      ∨ dict_lookup fields "type" = None →
      well_formed_rule (JObj fields) = false)
  ∧ (∀ before file after,
      strategy_files w = before ++ file :: after →
      loadable file = None →
      load_strategies w = omap loadable before ++ omap loadable after)
  ∧ (load_strategies w = [] →
     ∀ worlds flagged,
       (main w worlds flagged).1 = flagged
       ∧ Forall (λ e : event, e.2 = CheckVolume) (main w worlds flagged).2).
Proof.
  split; [apply load_strategies_omap|].
  split; [|split; [|split]].
  - intros strategy. rewrite load_strategies_omap, list_elem_of_omap. split.
    + intros ([name content] & Hin & Hl). unfold loadable in Hl. simpl in Hl.
      destruct content as [s|]; [|done].
      destruct (well_formed_rule s) eqn:Hw; [|done].
      injection Hl as ->. by exists name.
    + intros (name & Hin & Hw). exists (name, Ok strategy). split; [done|].
      unfold loadable. simpl. by rewrite Hw.
  - intros fields Hbad. unfold well_formed_rule, dict_get_none, dict_get.
    destruct Hbad as [Hc|[(v & Hc & Hv)|[Hc|Hc]]]; rewrite Hc; simpl.
    + by rewrite andb_false_r.
    + by rewrite Hv, andb_false_r.
    + done.
    + by rewrite andb_false_r.
  - intros before file after Hfiles Hnone.
    rewrite load_strategies_omap, Hfiles, omap_app. simpl. by rewrite Hnone.
  - intros Hempty worlds flagged. unfold main. rewrite Hempty.
    apply sweeps_no_strategies.
Qed.

(** ** The process evaluator *)

Lemma high_cpu_step thr line rest acc :
  high_cpu thr (line :: rest) acc =
    match cpu_column line with
    | Some field =>
        match py_float field with
        | Some cpu_usage =>
            over ← py_gt cpu_usage thr;
            high_cpu thr rest (if over : bool then acc ++ [strip line] else acc)
        | None => high_cpu thr rest acc
        end
    | None => high_cpu thr rest acc
    end.
Proof.
  unfold cpu_column. cbn [high_cpu].
  destruct (split (strip line) !! 8%nat) as [field|] eqn:Hcol.
  - apply lookup_lt_Some in Hcol.
    destruct (Nat.ltb_spec 8 (length (split (strip line)))); [done|lia].
  - apply lookup_ge_None in Hcol.
    destruct (Nat.ltb_spec 8 (length (split (strip line)))); [lia|done].
Qed.

Lemma high_cases thr line :
  high thr line =
    match cpu_column line with
    | Some field =>
        match py_float field with
        | Some cpu_usage =>
            match num_of_json thr with
            | Some y => float_gt cpu_usage y
            | None => false
            end
        | None => false
        end
    | None => false
    end.
Proof.
  unfold high, exceeds, py_gt.
  destruct (cpu_column line); [|done].
  destruct (py_float _); [|done].
  by destruct (num_of_json thr).
Qed.

(** With a numeric threshold the loop collects the high lines, in order. *)
Lemma high_cpu_numeric thr y lines acc :
  num_of_json thr = Some y →
  high_cpu thr lines acc = Ok (acc ++ map strip (List.filter (high thr) lines)).
Proof.
  intros Hy. revert acc.
  induction lines as [|line rest IH]; intros acc.
  - simpl. by rewrite app_nil_r.
  - rewrite high_cpu_step. cbn [List.filter]. rewrite (high_cases thr line).
    unfold py_gt. rewrite Hy.
    destruct (cpu_column line) as [field|]; [|apply IH].
    destruct (py_float field) as [cpu|]; [|apply IH].
    cbn [mbind result_bind].
    destruct (float_gt cpu y); rewrite IH; [|done].
    cbn [map]. by rewrite <- app_assoc.
Qed.

(** With a threshold that is no number no line is high, and the loop
    leaves at the first line whose column parses. *)
Lemma high_cpu_not_numeric thr lines acc :
  num_of_json thr = None →
  List.filter (high thr) lines = []
  ∧ (high_cpu thr lines acc = Raise ∨ high_cpu thr lines acc = Ok acc).
Proof.
  intros Hy.
  induction lines as [|line rest [IHf IHr]]; [by split; [|right]|].
  rewrite high_cpu_step. cbn [List.filter]. rewrite (high_cases thr line).
  unfold py_gt. rewrite Hy.
  destruct (cpu_column line) as [field|]; [|by split].
  destruct (py_float field) as [cpu|]; [|by split].
  split; [done|by left].
Qed.

Lemma process_check_eq w c cfg :
  process_check w c cfg =
    Ok match container_exec_run w c (dict_get_none cfg "command") with
       | Ok output =>
           match List.filter (high (dict_get cfg "cpu_threshold" (JInt 0)))
                   (output_lines output) with
           | [] => None
           | hot => Some (processes_evidence (map strip hot))
           end
       | Raise => None
       end.
Proof.
  unfold process_check, output_lines.
  destruct (container_exec_run w c (dict_get_none cfg "command")) as [output|];
    [|done].
  cbn [mbind result_bind].
  set (thr := dict_get cfg "cpu_threshold" (JInt 0)).
  set (lines := split_on newline (strip output)).
  destruct (num_of_json thr) as [y|] eqn:Hy.
  - rewrite (high_cpu_numeric thr y lines [] Hy). cbn [app mbind result_bind].
    by destruct (List.filter (high thr) lines).
  - destruct (high_cpu_not_numeric thr lines [] Hy) as [-> [->| ->]]; done.
Qed.


(** ** The dependency evaluator *)















(** A package file that is missing or cannot be parsed is never matched. *)
Lemma dependency_check_unparsed w vp fields file :
  dict_get fields "file" (JStr "package.json") = JStr file →
  path_exists w (path_join vp file) = false ∨ load_json w (path_join vp file) = Raise →
  dependency_check w vp fields = Ok None.
Proof.
  intros Hf Hbad. unfold dependency_check. rewrite Hf.
  cbn [py_path_join mbind result_bind].
  destruct (path_exists w (path_join vp file)); [|done].
  destruct Hbad as [|Hl]; [done|]. by rewrite Hl.
Qed.




(** ** Absent limits *)

(** C10. A numeric limit that the configuration lacks is zero: without
    [max_size] the size check matches an existing file exactly when its
    size is positive; without [cpu_threshold] the process check matches,
    and lists, any line of the output whose column of index 8 parses as a
    positive number; without [threshold] the network check matches exactly
    when the summed byte counters are positive. *)
Theorem absent_limit_is_zero w :
  (∀ target_path check_config size,
      dict_lookup check_config "max_size" = None →
      path_exists w target_path = true →
      getsize w target_path = Ok size →
      file_size_check w target_path check_config =
        Ok (if 0 <? size then Some (filename_evidence (basename target_path)) else None))
  ∧ (∀ container check_config output line field cpu_usage,
      dict_lookup check_config "cpu_threshold" = None →
      container_exec_run w container (dict_get_none check_config "command") = Ok output →
      line ∈ output_lines output →
      split (strip line) !! 8%nat = Some field →
      py_float field = Some cpu_usage →
      float_gt cpu_usage (of_int 0) = true →
      ∃ lines,
        process_check w container check_config = Ok (Some (processes_evidence lines))
        ∧ strip line ∈ lines)
  ∧ (∀ container check_config s,
      dict_lookup check_config "threshold" = None →
      container_stats w container = Ok s →
      network_usage_check w container check_config =
        Ok (if 0 <? total_usage s then Some (usage_evidence (total_usage s)) else None)).
Proof.
  split; [|split].
  - intros target cfg size Hnone Hex Hsize.
    unfold file_size_check, dict_get. rewrite Hnone, Hex, Hsize.
    cbn [default mbind result_bind]. rewrite py_gt_int.
    cbn [mbind result_bind]. by destruct (0 <? size).
  - intros c cfg output line field cpu Hnone Hrun Hin Hcol Hp Hgt.
    rewrite process_check_eq, Hrun. unfold dict_get. rewrite Hnone.
    cbn [default].
    assert (Hhigh : high (JInt 0) line = true).
    { rewrite high_cases. unfold cpu_column. rewrite Hcol, Hp. done. }
    assert (Hf : In line (List.filter (high (JInt 0)) (output_lines output))).
    { apply filter_In. split; [by apply list_elem_of_In|done]. }
    destruct (List.filter (high (JInt 0)) (output_lines output)) as [|l hot] eqn:Heq;
      [done|].
    eexists. split; [done|].
    apply list_elem_of_In, in_map, Hf.
  - intros c cfg s Hnone Hs.
    rewrite network_usage_check_eq, Hs. unfold dict_get, exceeds. rewrite Hnone.
    cbn [default]. by rewrite py_gt_int.
Qed.

(** * Further properties *)

(** ** The sweep, one identifier at a time *)

(** The three ways an iteration of the sweep can go. *)
Lemma scan_container_cases w strategies (flagged : gmap string json) uuid :
  (unflagged flagged uuid = false
   ∧ scan_container w strategies flagged uuid = (flagged, []))
  ∨ (unflagged flagged uuid = true ∧ detects w strategies uuid = false
     ∧ scan_container w strategies flagged uuid = (flagged, [(uuid, CheckVolume)]))
  ∨ (unflagged flagged uuid = true ∧ detects w strategies uuid = true
     ∧ scan_container w strategies flagged uuid =
         (<[uuid := JBool true]> flagged, containment w strategies flagged uuid)).
Proof.
  unfold scan_container, unflagged, detects, containment.
  destruct (truthy (default JNull (flagged !! uuid))); [by left|]. right.
  destruct (check_volume w uuid strategies) as [[|f fs]|]; simpl; auto.
Qed.

Lemma unflagged_insert_ne (flagged : gmap string json) uuid other v :
  other ≠ uuid → unflagged (<[other := v]> flagged) uuid = unflagged flagged uuid.
Proof. intros Hne. unfold unflagged. by rewrite lookup_insert_ne. Qed.

Lemma unflagged_insert_true (flagged : gmap string json) uuid :
  unflagged (<[uuid := JBool true]> flagged) uuid = false.
Proof. unfold unflagged. by rewrite lookup_insert_eq. Qed.

(** The store an iteration leaves. *)
Lemma scan_container_store w strategies (flagged : gmap string json) uuid :
  (scan_container w strategies flagged uuid).1 =
    if unflagged flagged uuid && detects w strategies uuid
    then <[uuid := JBool true]> flagged else flagged.
Proof.
  destruct (scan_container_cases w strategies flagged uuid)
    as [[Hu Hs]|[(Hu & Hd & Hs)|(Hu & Hd & Hs)]]; rewrite Hs, Hu, ?Hd; done.
Qed.

Lemma scan_loop_store w strategies uuids (flagged : gmap string json) uuid :
  (scan_loop w strategies uuids flagged).1 !! uuid =
    if bool_decide (uuid ∈ uuids) && unflagged flagged uuid && detects w strategies uuid
    then Some (JBool true) else flagged !! uuid.
Proof.
  revert flagged. induction uuids as [|u uuids IH]; intros flagged; [done|].
  cbn [scan_loop].
  pose proof (scan_container_store w strategies flagged u) as Hstore.
  destruct (scan_container w strategies flagged u) as [f1 e1]. simpl in Hstore.
  specialize (IH f1).
  destruct (scan_loop w strategies uuids f1) as [f2 e2]. simpl in *.
  rewrite IH. clear IH. subst f1.
  destruct (decide (uuid = u)) as [->|Hne].
  - rewrite (bool_decide_eq_true_2 (u ∈ u :: uuids)) by left. simpl.
    destruct (unflagged flagged u && detects w strategies u) eqn:Hd.
    + rewrite unflagged_insert_true, andb_false_r. simpl.
      by rewrite lookup_insert_eq.
    + apply andb_false_iff in Hd as [Hd|Hd]; rewrite Hd;
        by rewrite ?andb_false_r.
  - assert (Hin : bool_decide (uuid ∈ u :: uuids) = bool_decide (uuid ∈ uuids)).
    { apply bool_decide_ext. rewrite elem_of_cons. tauto. }
    rewrite Hin.
    destruct (unflagged flagged u && detects w strategies u).
    + by rewrite unflagged_insert_ne, lookup_insert_ne.
    + done.
Qed.

(** X1. A sweep marks exactly the listed identifiers that the store does not
    exclude and whose scan returns a flag, and changes no other entry; so
    the store it leaves does not depend on the order in which the volumes
    are listed. *)
Theorem sweep_marks_detections w (strategies : list json)
    (flagged : gmap string json) (uuids : list string) :
  listdir w (VOLUMES_DIR w) = Ok uuids →
  ∃ flagged' trace,
    scan_all_containers w strategies flagged = Ok (flagged', trace)
    ∧ (∀ uuid,
        flagged' !! uuid =
          if bool_decide (uuid ∈ uuids) && unflagged flagged uuid
             && detects w strategies uuid
          then Some (JBool true) else flagged !! uuid)
    ∧ (∀ uuids', uuids ≡ₚ uuids' →
                 (scan_loop w strategies uuids' flagged).1 = flagged').
Proof.
  intros Hdir. unfold scan_all_containers. rewrite Hdir. cbn.
  destruct (scan_loop w strategies uuids flagged) as [flagged' trace] eqn:Hloop.
  exists flagged', trace. split; [done|].
  assert (Hstore : ∀ uuid, flagged' !! uuid =
            if bool_decide (uuid ∈ uuids) && unflagged flagged uuid
               && detects w strategies uuid
            then Some (JBool true) else flagged !! uuid).
  { intros uuid. pose proof (scan_loop_store w strategies uuids flagged uuid) as Hs.
    by rewrite Hloop in Hs. }
  split; [done|].
  intros uuids' Hperm. apply map_eq. intros uuid.
  rewrite scan_loop_store, Hstore.
  assert (Hin : bool_decide (uuid ∈ uuids') = bool_decide (uuid ∈ uuids)).
  { apply bool_decide_ext. by rewrite Hperm. }
  by rewrite Hin.
Qed.

(** ** At most once *)

Lemma occurrences_app uuid k (t1 t2 : list event) :
  occurrences uuid k (t1 ++ t2) = (occurrences uuid k t1 + occurrences uuid k t2)%nat.
Proof. unfold occurrences. by rewrite filter_app, length_app. Qed.

Lemma occurrences_others uuid k (trace : list event) :
  Forall (λ e, ¬ concerns uuid e) trace → occurrences uuid k trace = 0%nat.
Proof.
  intros Hall. unfold occurrences.
  induction Hall as [|e trace He _ IH]; [done|].
  rewrite filter_cons_False; [done|]. intros [Hc _]. by apply He.
Qed.

Lemma at_most_once_nil uuid k (flagged : gmap string json) :
  at_most_once uuid k flagged flagged [].
Proof.
  unfold at_most_once, occurrences. rewrite filter_nil. cbn.
  repeat split; (done || lia).
Qed.

Lemma at_most_once_app uuid k (f0 f1 f2 : gmap string json) t1 t2 :
  at_most_once uuid k f0 f1 t1 →
  at_most_once uuid k f1 f2 t2 →
  at_most_once uuid k f0 f2 (t1 ++ t2).
Proof.
  intros (Hle1 & Hex1 & Hone1) (Hle2 & Hex2 & Hone2).
  unfold at_most_once. rewrite occurrences_app.
  assert (Hcase : occurrences uuid k t1 = 0%nat ∨ occurrences uuid k t1 = 1%nat) by lia.
  split; [|split].
  - destruct Hcase as [H0|H1]; [lia|].
    destruct (Hex2 (Hone1 H1)) as [Hz _]. lia.
  - intros Hf. destruct (Hex1 Hf) as [Hz Hf1]. destruct (Hex2 Hf1) as [Hz2 Hf2].
    split; [lia|done].
  - intros Hsum. destruct Hcase as [H0|H1].
    + apply Hone2. lia.
    + by destruct (Hex2 (Hone1 H1)) as [_ Hf2].
Qed.

Lemma occurrences_cons uuid k u a (trace : list event) :
  occurrences uuid k ((u, a) :: trace) =
    ((if bool_decide (u = uuid) && bool_decide (kind_of a = k) then 1 else 0)
     + occurrences uuid k trace)%nat.
Proof.
  unfold occurrences. rewrite filter_cons. cbn [fst snd].
  destruct (decide (u = uuid ∧ kind_of a = k)) as [[-> Hk]|Hno].
  - by rewrite !bool_decide_eq_true_2.
  - destruct (bool_decide (u = uuid)) eqn:Hu; [|done].
    destruct (bool_decide (kind_of a = k)) eqn:Hk; [|done].
    apply bool_decide_eq_true in Hu, Hk. tauto.
Qed.

Lemma containment_occurrences w strategies (flagged : gmap string json) uuid k :
  k ≠ KCheckVolume →
  (occurrences uuid k (containment w strategies flagged uuid) ≤ 1)%nat.
Proof.
  intros Hk. unfold containment.
  destruct (truthy (get_server_id_from_uuid w uuid)); cbn [app];
    rewrite !occurrences_cons, (bool_decide_eq_true_2 (uuid = uuid)) by done;
    unfold occurrences; rewrite filter_nil;
    destruct k; try done; repeat case_bool_decide; cbn in *; first [congruence | lia].
Qed.

Lemma scan_container_concerns w strategies (flagged : gmap string json) uuid :
  Forall (concerns uuid) (scan_container w strategies flagged uuid).2.
Proof.
  destruct (scan_container_cases w strategies flagged uuid)
    as [[Hu Hs]|[(Hu & Hd & Hs)|(Hu & Hd & Hs)]]; rewrite Hs; cbn.
  - constructor.
  - by repeat constructor.
  - unfold containment. destruct (truthy _); by repeat constructor.
Qed.

Lemma scan_container_once w strategies (flagged : gmap string json) u uuid k :
  k ≠ KCheckVolume →
  at_most_once uuid k flagged (scan_container w strategies flagged u).1
    (scan_container w strategies flagged u).2.
Proof.
  intros Hk.
  destruct (decide (u = uuid)) as [->|Hne].
  - destruct (scan_container_cases w strategies flagged uuid)
      as [[Hu Hs]|[(Hu & Hd & Hs)|(Hu & Hd & Hs)]]; rewrite Hs; cbn.
    + apply at_most_once_nil.
    + assert (Hz : occurrences uuid k [(uuid, CheckVolume)] = 0%nat).
      { unfold occurrences. rewrite filter_cons_False; [done|].
        intros [_ Hkind]. cbn in Hkind. congruence. }
      unfold at_most_once. rewrite Hz. repeat split; (done || lia).
    + pose proof (containment_occurrences w strategies flagged uuid k Hk).
      repeat split; try done.
      * congruence.
      * congruence.
      * intros _. apply unflagged_insert_true.
  - destruct (scan_container_other w strategies flagged uuid u Hne) as [Hl He].
    unfold at_most_once. rewrite (occurrences_others uuid k _ He).
    unfold unflagged. rewrite Hl. repeat split; (done || lia).
Qed.

Lemma scan_loop_once w strategies uuids (flagged : gmap string json) uuid k :
  k ≠ KCheckVolume →
  at_most_once uuid k flagged (scan_loop w strategies uuids flagged).1
    (scan_loop w strategies uuids flagged).2.
Proof.
  intros Hk. revert flagged.
  induction uuids as [|u uuids IH]; intros flagged; [apply at_most_once_nil|].
  cbn [scan_loop].
  pose proof (scan_container_once w strategies flagged u uuid k Hk) as Hstep.
  destruct (scan_container w strategies flagged u) as [f1 e1].
  specialize (IH f1).
  destruct (scan_loop w strategies uuids f1) as [f2 e2]. cbn in *.
  by apply (at_most_once_app uuid k flagged f1 f2).
Qed.

Lemma sweeps_once strategies worlds (flagged : gmap string json) uuid k :
  k ≠ KCheckVolume →
  at_most_once uuid k flagged (sweeps strategies worlds flagged).1
    (sweeps strategies worlds flagged).2.
Proof.
  intros Hk. revert flagged.
  induction worlds as [|w later IH]; intros flagged; [apply at_most_once_nil|].
  cbn [sweeps].
  assert (Hstep : at_most_once uuid k flagged
            (try_except (scan_all_containers w strategies flagged) (flagged, [])).1
            (try_except (scan_all_containers w strategies flagged) (flagged, [])).2).
  { unfold scan_all_containers. destruct (listdir w (VOLUMES_DIR w)); cbn.
    - by apply scan_loop_once.
    - apply at_most_once_nil. }
  destruct (try_except _ _) as [f1 e1].
  specialize (IH f1).
  destruct (sweeps strategies later f1) as [f2 e2]. cbn in *.
  by apply (at_most_once_app uuid k flagged f1 f2).
Qed.

(** X2. Whatever the store it starts from and whatever its sweeps observe,
    the scheduler resolves, suspends, notifies publicly, notifies privately
    and writes the store on behalf of an identifier at most once each; for
    an identifier the store excludes at the start, never. *)
Theorem containment_at_most_once (strategies : list json) (worlds : list World)
    (flagged : gmap string json) (uuid : string) (k : kind) :
  k ≠ KCheckVolume →
  (occurrences uuid k (sweeps strategies worlds flagged).2 ≤ 1)%nat
  ∧ (unflagged flagged uuid = false →
     occurrences uuid k (sweeps strategies worlds flagged).2 = 0%nat)
  ∧ (∀ start, (occurrences uuid k (main start worlds flagged).2 ≤ 1)%nat).
Proof.
  intros Hk.
  destruct (sweeps_once strategies worlds flagged uuid k Hk) as (Hle & Hex & _).
  split; [done|]. split; [by intros Hf; destruct (Hex Hf)|].
  intros start. unfold main.
  by destruct (sweeps_once (load_strategies start) worlds flagged uuid k Hk).
Qed.

(** ** What a sweep does, and for whom *)

Lemma scan_container_events w strategies (flagged : gmap string json) uuid e :
  e ∈ (scan_container w strategies flagged uuid).2 →
  e.1 = uuid ∧ unflagged flagged uuid = true.
Proof.
  intros Hin. split.
  - pose proof (scan_container_concerns w strategies flagged uuid) as Hall.
    rewrite Forall_forall in Hall. by apply Hall.
  - destruct (scan_container_cases w strategies flagged uuid)
      as [[Hu Hs]|[(Hu & Hd & Hs)|(Hu & Hd & Hs)]]; [|done..].
    rewrite Hs in Hin. by apply elem_of_nil in Hin.
Qed.

Lemma scan_container_unflagged_after w strategies (flagged : gmap string json) u uuid :
  unflagged (scan_container w strategies flagged u).1 uuid = true →
  unflagged flagged uuid = true.
Proof.
  rewrite scan_container_store.
  destruct (unflagged flagged u && detects w strategies u); [|done].
  destruct (decide (u = uuid)) as [->|Hne].
  - by rewrite unflagged_insert_true.
  - by rewrite unflagged_insert_ne.
Qed.

(** An event of a sweep is an event of the iteration on its identifier,
    which is listed and which the store did not exclude. *)
Lemma scan_loop_event_inv w strategies uuids (flagged : gmap string json) e :
  e ∈ (scan_loop w strategies uuids flagged).2 →
  e.1 ∈ uuids ∧ unflagged flagged e.1 = true
  ∧ ∃ current, unflagged current e.1 = true
               ∧ e ∈ (scan_container w strategies current e.1).2.
Proof.
  revert flagged. induction uuids as [|u uuids IH]; intros flagged.
  - cbn. intros Hin. by apply elem_of_nil in Hin.
  - cbn [scan_loop].
    pose proof (scan_container_events w strategies flagged u e) as Hhere.
    pose proof (scan_container_unflagged_after w strategies flagged u e.1) as Hback.
    destruct (scan_container w strategies flagged u) as [f1 e1] eqn:Hstep.
    specialize (IH f1).
    destruct (scan_loop w strategies uuids f1) as [f2 e2]. cbn in *.
    intros Hin. apply elem_of_app in Hin as [Hin|Hin].
    + destruct (Hhere Hin) as [He Hu]. subst u.
      split; [by left|]. split; [done|].
      exists flagged. split; [done|]. by rewrite Hstep.
    + destruct (IH Hin) as (Hmem & Hu & current & Hc & Hev).
      split; [by right|]. split; [by apply Hback|]. by exists current.
Qed.

(** An identifier that is listed and not excluded gets an iteration, all of
    whose events are in the trace of the sweep. *)
Lemma scan_loop_event_intro w strategies uuids (flagged : gmap string json) uuid :
  uuid ∈ uuids →
  unflagged flagged uuid = true →
  ∃ current, unflagged current uuid = true
             ∧ ∀ e, e ∈ (scan_container w strategies current uuid).2 →
                    e ∈ (scan_loop w strategies uuids flagged).2.
Proof.
  revert flagged. induction uuids as [|u uuids IH]; intros flagged Hin Hu.
  - by apply elem_of_nil in Hin.
  - cbn [scan_loop].
    destruct (decide (u = uuid)) as [->|Hne].
    + exists flagged. split; [done|]. intros e He.
      destruct (scan_container w strategies flagged uuid) as [f1 e1].
      destruct (scan_loop w strategies uuids f1) as [f2 e2]. cbn in *.
      apply elem_of_app. by left.
    + apply elem_of_cons in Hin as [->|Hin]; [done|].
      destruct (scan_container_other w strategies flagged uuid u Hne) as [Hl _].
      destruct (scan_container w strategies flagged u) as [f1 e1].
      assert (Hu1 : unflagged f1 uuid = true).
      { unfold unflagged in *. cbn in Hl. by rewrite Hl. }
      destruct (IH f1 Hin Hu1) as (current & Hc & Hev).
      exists current. split; [done|]. intros e He.
      specialize (Hev e He).
      destruct (scan_loop w strategies uuids f1) as [f2 e2]. cbn in *.
      apply elem_of_app. by right.
Qed.

Lemma detects_flags w strategies uuid :
  detects w strategies uuid = true
  ↔ ∃ flags, check_volume w uuid strategies = Ok flags ∧ flags ≠ [].
Proof.
  unfold detects. destruct (check_volume w uuid strategies) as [[|f fs]|]; split;
    try done.
  - by intros (flags & [= <-] & Hne).
  - intros _. by eexists.
  - by intros (flags & [=] & _).
Qed.

(** The events of the iteration on an identifier that the store does not
    exclude, but for the store dumped. *)
Lemma scan_container_event w strategies (flagged : gmap string json) uuid a :
  unflagged flagged uuid = true →
  (uuid, a) ∈ (scan_container w strategies flagged uuid).2 →
  a = CheckVolume
  ∨ (detects w strategies uuid = true
     ∧ (a = ResolveServerId
        ∨ (a = SuspendServer (get_server_id_from_uuid w uuid)
           ∧ truthy (get_server_id_from_uuid w uuid) = true)
        ∨ a = PublicAlert (get_server_id_from_uuid w uuid)
        ∨ a = PrivateAlert (get_server_id_from_uuid w uuid)
                (try_except (check_volume w uuid strategies) [])
        ∨ a = WriteFlagged (<[uuid := JBool true]> flagged))).
Proof.
  intros Hu Hin.
  destruct (scan_container_cases w strategies flagged uuid)
    as [[Hu' Hs]|[(_ & Hd & Hs)|(_ & Hd & Hs)]]; rewrite Hs in Hin; cbn in Hin.
  - congruence.
  - apply list_elem_of_singleton in Hin. left. congruence.
  - unfold containment in Hin.
    destruct (truthy (get_server_id_from_uuid w uuid)) eqn:Ht; cbn in Hin;
      repeat (apply elem_of_cons in Hin as [Hin|Hin];
              [injection Hin as ->; tauto|]);
      by apply elem_of_nil in Hin.
Qed.

Lemma containment_elem w strategies (flagged : gmap string json) uuid :
  (uuid, CheckVolume) ∈ containment w strategies flagged uuid
  ∧ (uuid, ResolveServerId) ∈ containment w strategies flagged uuid
  ∧ (truthy (get_server_id_from_uuid w uuid) = true →
     (uuid, SuspendServer (get_server_id_from_uuid w uuid))
       ∈ containment w strategies flagged uuid)
  ∧ (uuid, PublicAlert (get_server_id_from_uuid w uuid))
      ∈ containment w strategies flagged uuid
  ∧ (uuid, PrivateAlert (get_server_id_from_uuid w uuid)
             (try_except (check_volume w uuid strategies) []))
      ∈ containment w strategies flagged uuid.
Proof.
  unfold containment.
  destruct (truthy (get_server_id_from_uuid w uuid)); cbn;
    repeat split; try done; set_solver.
Qed.

(** X3. In a sweep that returns, an identifier is notified, publicly and
    privately, exactly when it is listed, the store did not exclude it and
    the scan of its volume returned a flag; the private notification
    carries all the flags of that scan, and both carry the server id that
    the resolution gave. *)
Theorem notified_iff_detected w (strategies : list json)
    (flagged flagged' : gmap string json) (uuids : list string) (trace : list event)
    (uuid : string) :
  listdir w (VOLUMES_DIR w) = Ok uuids →
  scan_all_containers w strategies flagged = Ok (flagged', trace) →
  (∀ server_id flags,
      (uuid, PrivateAlert server_id flags) ∈ trace
      ↔ uuid ∈ uuids ∧ unflagged flagged uuid = true
        ∧ check_volume w uuid strategies = Ok flags ∧ flags ≠ []
        ∧ server_id = get_server_id_from_uuid w uuid)
  ∧ (∀ server_id,
      (uuid, PublicAlert server_id) ∈ trace
      ↔ uuid ∈ uuids ∧ unflagged flagged uuid = true
        ∧ detects w strategies uuid = true
        ∧ server_id = get_server_id_from_uuid w uuid).
Proof.
  intros Hdir. unfold scan_all_containers. rewrite Hdir. cbn. intros [= Hloop].
  replace trace with (scan_loop w strategies uuids flagged).2 by (by rewrite Hloop).
  clear Hloop.
  split.
  - intros server_id flags. split.
    + intros Hin.
      destruct (scan_loop_event_inv w strategies uuids flagged _ Hin)
        as (Hmem & Hu & current & Hc & Hev). cbn in *.
      split; [done|]. split; [done|].
      destruct (scan_container_event w strategies current uuid _ Hc Hev)
        as [Ha|(Hd & [Ha|[[Ha _]|[Ha|[Ha|Ha]]]])]; try discriminate Ha.
      injection Ha as -> ->.
      apply detects_flags in Hd as (found & Hfound & Hne).
      rewrite Hfound. by cbn.
    + intros (Hmem & Hu & Hflags & Hne & ->).
      destruct (scan_loop_event_intro w strategies uuids flagged uuid Hmem Hu)
        as (current & Hc & Hev).
      apply Hev.
      destruct (scan_container_cases w strategies current uuid)
        as [[Hu' Hs]|[(_ & Hd & Hs)|(_ & Hd & Hs)]]; rewrite Hs.
      * congruence.
      * assert (detects w strategies uuid = true)
          by (apply detects_flags; by exists flags).
        congruence.
      * pose proof (containment_elem w strategies current uuid) as (_ & _ & _ & _ & Hp).
        by rewrite Hflags in Hp.
  - intros server_id. split.
    + intros Hin.
      destruct (scan_loop_event_inv w strategies uuids flagged _ Hin)
        as (Hmem & Hu & current & Hc & Hev). cbn in *.
      split; [done|]. split; [done|].
      destruct (scan_container_event w strategies current uuid _ Hc Hev)
        as [Ha|(Hd & [Ha|[[Ha _]|[Ha|[Ha|Ha]]]])]; try discriminate Ha.
      by injection Ha as ->.
    + intros (Hmem & Hu & Hd & ->).
      destruct (scan_loop_event_intro w strategies uuids flagged uuid Hmem Hu)
        as (current & Hc & Hev).
      apply Hev.
      destruct (scan_container_cases w strategies current uuid)
        as [[Hu' Hs]|[(_ & Hd' & Hs)|(_ & Hd' & Hs)]]; rewrite Hs; [congruence..|].
      by pose proof (containment_elem w strategies current uuid) as (_ & _ & _ & Hp & _).
Qed.

(** X4. In a sweep that returns, the management API is asked to resolve an
    identifier exactly when the identifier is listed, not excluded and
    detected, and asked to suspend exactly when, besides, the resolution
    gave a server id that is true in the sense of Python: not for [None],
    and not for an id such as [0] or the empty string either. The request
    names that id. *)
Theorem suspended_iff_resolved w (strategies : list json)
    (flagged flagged' : gmap string json) (uuids : list string) (trace : list event)
    (uuid : string) :
  listdir w (VOLUMES_DIR w) = Ok uuids →
  scan_all_containers w strategies flagged = Ok (flagged', trace) →
  ((uuid, ResolveServerId) ∈ trace
   ↔ uuid ∈ uuids ∧ unflagged flagged uuid = true ∧ detects w strategies uuid = true)
  ∧ (∀ server_id,
      (uuid, SuspendServer server_id) ∈ trace
      ↔ uuid ∈ uuids ∧ unflagged flagged uuid = true
        ∧ detects w strategies uuid = true
        ∧ server_id = get_server_id_from_uuid w uuid
        ∧ truthy server_id = true).
Proof.
  intros Hdir. unfold scan_all_containers. rewrite Hdir. cbn. intros [= Hloop].
  replace trace with (scan_loop w strategies uuids flagged).2 by (by rewrite Hloop).
  clear Hloop.
  split.
  - split.
    + intros Hin.
      destruct (scan_loop_event_inv w strategies uuids flagged _ Hin)
        as (Hmem & Hu & current & Hc & Hev). cbn in *.
      split; [done|]. split; [done|].
      by destruct (scan_container_event w strategies current uuid _ Hc Hev)
        as [Ha|(Hd & _)].
    + intros (Hmem & Hu & Hd).
      destruct (scan_loop_event_intro w strategies uuids flagged uuid Hmem Hu)
        as (current & Hc & Hev).
      apply Hev.
      destruct (scan_container_cases w strategies current uuid)
        as [[Hu' Hs]|[(_ & Hd' & Hs)|(_ & Hd' & Hs)]]; rewrite Hs; [congruence..|].
      by pose proof (containment_elem w strategies current uuid) as (_ & Hp & _).
  - intros server_id. split.
    + intros Hin.
      destruct (scan_loop_event_inv w strategies uuids flagged _ Hin)
        as (Hmem & Hu & current & Hc & Hev). cbn in *.
      split; [done|]. split; [done|].
      destruct (scan_container_event w strategies current uuid _ Hc Hev)
        as [Ha|(Hd & [Ha|[[Ha Ht]|[Ha|[Ha|Ha]]]])]; try discriminate Ha.
      by injection Ha as ->.
    + intros (Hmem & Hu & Hd & -> & Ht).
      destruct (scan_loop_event_intro w strategies uuids flagged uuid Hmem Hu)
        as (current & Hc & Hev).
      apply Hev.
      destruct (scan_container_cases w strategies current uuid)
        as [[Hu' Hs]|[(_ & Hd' & Hs)|(_ & Hd' & Hs)]]; rewrite Hs; [congruence..|].
      pose proof (containment_elem w strategies current uuid) as (_ & _ & Hp & _).
      by apply Hp.
Qed.

(** X5. In a sweep that returns, the volume of every listed identifier
    that the store does not exclude is checked, whatever happens to the
    other identifiers: a scan that raises, or that ends in a containment,
    does not keep the sweep from the identifiers after it. An identifier
    that is not listed or is excluded is not checked. *)
Theorem every_unflagged_volume_checked w (strategies : list json)
    (flagged flagged' : gmap string json) (uuids : list string) (trace : list event)
    (uuid : string) :
  listdir w (VOLUMES_DIR w) = Ok uuids →
  scan_all_containers w strategies flagged = Ok (flagged', trace) →
  (uuid, CheckVolume) ∈ trace ↔ uuid ∈ uuids ∧ unflagged flagged uuid = true.
Proof.
  intros Hdir. unfold scan_all_containers. rewrite Hdir. cbn. intros [= Hloop].
  replace trace with (scan_loop w strategies uuids flagged).2 by (by rewrite Hloop).
  clear Hloop.
  split.
  - intros Hin.
    by destruct (scan_loop_event_inv w strategies uuids flagged _ Hin)
      as (Hmem & Hu & _).
  - intros [Hmem Hu].
    destruct (scan_loop_event_intro w strategies uuids flagged uuid Hmem Hu)
      as (current & Hc & Hev).
    apply Hev.
    destruct (scan_container_cases w strategies current uuid)
      as [[Hu' Hs]|[(_ & Hd' & Hs)|(_ & Hd' & Hs)]]; rewrite Hs.
    + congruence.
    + by left.
    + by pose proof (containment_elem w strategies current uuid) as (Hp & _).
Qed.

(** ** The file follows the store *)

Lemma dumped_app (t1 t2 : list event) : dumped (t1 ++ t2) = dumped t1 ++ dumped t2.
Proof. apply omap_app. Qed.

Lemma dumped_through_nil (flagged : gmap string json) : dumped_through flagged flagged [].
Proof. done. Qed.

Lemma dumped_through_app (f0 f1 f2 : gmap string json) t1 t2 :
  dumped_through f0 f1 t1 → dumped_through f1 f2 t2 →
  dumped_through f0 f2 (t1 ++ t2).
Proof.
  unfold dumped_through. rewrite dumped_app, last_app. intros H1 H2.
  destruct (last (dumped t2)) as [store|]; [done|]. by subst f2.
Qed.

Lemma scan_container_dumped_through w strategies (flagged : gmap string json) uuid :
  dumped_through flagged (scan_container w strategies flagged uuid).1
    (scan_container w strategies flagged uuid).2.
Proof.
  destruct (scan_container_cases w strategies flagged uuid)
    as [[Hu Hs]|[(_ & Hd & Hs)|(_ & Hd & Hs)]]; rewrite Hs; cbn; try done.
  unfold containment. by destruct (truthy (get_server_id_from_uuid w uuid)).
Qed.

Lemma scan_loop_dumped_through w strategies uuids (flagged : gmap string json) :
  dumped_through flagged (scan_loop w strategies uuids flagged).1
    (scan_loop w strategies uuids flagged).2.
Proof.
  revert flagged. induction uuids as [|u uuids IH]; intros flagged; [done|].
  cbn [scan_loop].
  pose proof (scan_container_dumped_through w strategies flagged u) as Hstep.
  destruct (scan_container w strategies flagged u) as [f1 e1].
  specialize (IH f1).
  destruct (scan_loop w strategies uuids f1) as [f2 e2]. cbn in *.
  by apply (dumped_through_app flagged f1 f2).
Qed.

(** X6. The store is dumped on every change: at the end of any sequence
    of sweeps, the last store that the scheduler tried to dump to
    [flagged.json] is the store in memory, and if it tried no dump the
    store in memory is the one it started with; every store it tried to
    dump has the identifier it was dumped for marked true. Whether a dump
    succeeds is outside the model: a failing [open] or [json.dump] is
    caught at line 372 and leaves the store in memory marked. *)
Theorem store_dumped_on_every_change (strategies : list json) (worlds : list World)
    (flagged : gmap string json) :
  dumped_through flagged (sweeps strategies worlds flagged).1
    (sweeps strategies worlds flagged).2
  ∧ (∀ uuid store,
      (uuid, WriteFlagged store) ∈ (sweeps strategies worlds flagged).2 →
      store !! uuid = Some (JBool true)).
Proof.
  split.
  - revert flagged.
    induction worlds as [|w later IH]; intros flagged; [done|].
    cbn [sweeps].
    assert (Hstep : dumped_through flagged
              (try_except (scan_all_containers w strategies flagged) (flagged, [])).1
              (try_except (scan_all_containers w strategies flagged) (flagged, [])).2).
    { unfold scan_all_containers. destruct (listdir w (VOLUMES_DIR w)); cbn.
      - apply scan_loop_dumped_through.
      - done. }
    destruct (try_except _ _) as [f1 e1].
    specialize (IH f1).
    destruct (sweeps strategies later f1) as [f2 e2]. cbn in *.
    by apply (dumped_through_app flagged f1 f2).
  - revert flagged.
    induction worlds as [|w later IH]; intros flagged uuid store.
    + cbn. intros Hin. by apply elem_of_nil in Hin.
    + cbn [sweeps].
      assert (Hstep : (uuid, WriteFlagged store)
                ∈ (try_except (scan_all_containers w strategies flagged) (flagged, [])).2 →
              store !! uuid = Some (JBool true)).
      { unfold scan_all_containers. destruct (listdir w (VOLUMES_DIR w)); cbn.
        - intros Hin.
          destruct (scan_loop_event_inv w strategies _ flagged _ Hin)
            as (_ & _ & current & Hc & Hev). cbn in *.
          destruct (scan_container_event w strategies current uuid _ Hc Hev)
            as [Ha|(Hd & [Ha|[[Ha _]|[Ha|[Ha|Ha]]]])]; try discriminate Ha.
          injection Ha as ->. apply lookup_insert_eq.
        - intros Hin. by apply elem_of_nil in Hin. }
      destruct (try_except _ _) as [f1 e1].
      specialize (IH f1 uuid store).
      destruct (sweeps strategies later f1) as [f2 e2]. cbn in *.
      intros Hin. apply elem_of_app in Hin as [Hin|Hin]; auto.
Qed.

(** ** Resolution of a server id *)

Lemma for_return_pass {A B} (body : A → result (option B)) (l1 l2 : list A) :
  Forall (λ x, body x = Ok None) l1 →
  for_return body (l1 ++ l2) = for_return body l2.
Proof.
  induction 1 as [|x l1 Hx _ IH]; [done|]. cbn. by rewrite Hx.
Qed.

Lemma server_passed_over uuid server :
  passed_over uuid server →
  (attributes ← py_getitem server "attributes";
   server_uuid ← py_getitem attributes "uuid";
   if py_eq_str server_uuid uuid
   then id ← py_getitem attributes "id"; Ok (Some id)
   else Ok None) = Ok None.
Proof.
  intros (attributes & server_uuid & Ha & Hu & Hne).
  rewrite Ha. cbn [mbind result_bind]. rewrite Hu. cbn [mbind result_bind].
  by rewrite Hne.
Qed.

Lemma get_server_id_listing w uuid data before server after :
  servers_page w = Ok data →
  py_get data "data" (JArr []) = Ok (JArr (before ++ server :: after)) →
  Forall (passed_over uuid) before →
  get_server_id_from_uuid w uuid =
    try_except
      (found ← (attributes ← py_getitem server "attributes";
                server_uuid ← py_getitem attributes "uuid";
                if py_eq_str server_uuid uuid
                then id ← py_getitem attributes "id"; Ok (Some id)
                else Ok None);
       match found with
       | Some id => Ok id
       | None =>
           found ← for_return (λ server,
             attributes ← py_getitem server "attributes";
             server_uuid ← py_getitem attributes "uuid";
             if py_eq_str server_uuid uuid
             then id ← py_getitem attributes "id"; Ok (Some id)
             else Ok None) after;
           Ok (default JNull found)
       end)
      JNull.
Proof.
  intros Hpage Hdata Hbefore. unfold get_server_id_from_uuid.
  rewrite Hpage. cbn [mbind result_bind]. rewrite Hdata. cbn [mbind result_bind py_iter].
  rewrite for_return_pass.
  - cbn [for_return].
    destruct (py_getitem server "attributes") as [attributes|]; [|done].
    cbn [mbind result_bind].
    destruct (py_getitem attributes "uuid") as [server_uuid|]; [|done].
    cbn [mbind result_bind].
    destruct (py_eq_str server_uuid uuid).
    + by destruct (py_getitem attributes "id").
    + done.
  - eapply Forall_impl; [exact Hbefore|]. intros s Hs.
    by apply server_passed_over.
Qed.

(** X7. On a listing whose entries are read in order, the resolution
    returns the id of the first entry for the uuid, passing over the
    entries for other uuids before it; when every entry is for another
    uuid, and when the answer has no [data] at all, it returns [None]. *)
Theorem resolution_first_listed w (uuid : string) (data : json) :
  servers_page w = Ok data →
  (∀ before server after id,
      py_get data "data" (JArr []) = Ok (JArr (before ++ server :: after)) →
      Forall (passed_over uuid) before →
      lists uuid id server →
      get_server_id_from_uuid w uuid = id)
  ∧ (∀ servers,
      py_get data "data" (JArr []) = Ok (JArr servers) →
      Forall (passed_over uuid) servers →
      get_server_id_from_uuid w uuid = JNull)
  ∧ (∀ fields,
      data = JObj fields → dict_lookup fields "data" = None →
      get_server_id_from_uuid w uuid = JNull).
Proof.
  intros Hpage. split; [|split].
  - intros before server after id Hdata Hbefore (attributes & Ha & Hu & Hid).
    rewrite (get_server_id_listing w uuid data before server after Hpage Hdata Hbefore).
    rewrite Ha. cbn [mbind result_bind]. rewrite Hu. cbn [mbind result_bind py_eq_str].
    rewrite String.eqb_refl, Hid. done.
  - intros servers Hdata Hall. unfold get_server_id_from_uuid.
    rewrite Hpage. cbn [mbind result_bind]. rewrite Hdata.
    cbn [mbind result_bind py_iter].
    rewrite <- (app_nil_r servers), for_return_pass; [done|].
    eapply Forall_impl; [exact Hall|]. intros s Hs. by apply server_passed_over.
  - intros fields -> Hnone. unfold get_server_id_from_uuid.
    rewrite Hpage. cbn. unfold dict_get. by rewrite Hnone.
Qed.

(** X8. The resolution gives [None], never an exception, whenever the
    listing cannot be used: the request or its decoding raises, the answer
    is no object, its [data] cannot be iterated, or an entry that cannot be
    read comes before any entry for the uuid, even when an entry for the
    uuid comes after it. *)
Theorem resolution_fails_to_none w (uuid : string) :
  (servers_page w = Raise → get_server_id_from_uuid w uuid = JNull)
  ∧ (∀ data, servers_page w = Ok data →
             py_get data "data" (JArr []) = Raise →
             get_server_id_from_uuid w uuid = JNull)
  ∧ (∀ data listed,
      servers_page w = Ok data →
      py_get data "data" (JArr []) = Ok listed →
      py_iter listed = Raise →
      get_server_id_from_uuid w uuid = JNull)
  ∧ (∀ data before server after,
      servers_page w = Ok data →
      py_get data "data" (JArr []) = Ok (JArr (before ++ server :: after)) →
      Forall (passed_over uuid) before →
      unreadable uuid server →
      get_server_id_from_uuid w uuid = JNull).
Proof.
  split; [|split; [|split]].
  - intros Hpage. unfold get_server_id_from_uuid. by rewrite Hpage.
  - intros data Hpage Hdata. unfold get_server_id_from_uuid.
    rewrite Hpage. cbn [mbind result_bind]. by rewrite Hdata.
  - intros data listed Hpage Hdata Hiter. unfold get_server_id_from_uuid.
    rewrite Hpage. cbn [mbind result_bind]. rewrite Hdata. cbn [mbind result_bind].
    by rewrite Hiter.
  - intros data before server after Hpage Hdata Hbefore Hbad.
    rewrite (get_server_id_listing w uuid data before server after Hpage Hdata Hbefore).
    destruct Hbad as [Ha|(attributes & Ha & [Hu|[Hu Hid]])]; rewrite Ha; [done|..];
      cbn [mbind result_bind]; rewrite Hu; [done|].
    cbn [mbind result_bind py_eq_str]. by rewrite String.eqb_refl, Hid.
Qed.

(** ** The scan of one volume *)

Lemma run_strategies_acc w strategies vp c flags :
  run_strategies w strategies vp c flags =
    (found ← run_strategies w strategies vp c []; Ok (flags ++ found)).
Proof.
  revert flags. induction strategies as [|s strategies IH]; intros flags; cbn.
  - by rewrite app_nil_r.
  - destruct (execute_strategy w s vp c) as [fs|]; [|done]. cbn.
    rewrite IH, (IH fs).
    destruct (run_strategies w strategies vp c []) as [found|]; [|done]. cbn.
    by rewrite app_assoc.
Qed.

Lemma run_strategies_app w s1 s2 vp c :
  run_strategies w (s1 ++ s2) vp c [] =
    (f1 ← run_strategies w s1 vp c [];
     f2 ← run_strategies w s2 vp c [];
     Ok (f1 ++ f2)).
Proof.
  induction s1 as [|s s1 IH]; cbn.
  - by destruct (run_strategies w s2 vp c []).
  - destruct (execute_strategy w s vp c) as [fs|]; [|done]. cbn.
    rewrite run_strategies_acc, IH, (run_strategies_acc w s1 vp c fs).
    destruct (run_strategies w s1 vp c []) as [f1|]; [|done]. cbn.
    destruct (run_strategies w s2 vp c []) as [f2|]; [|done]. cbn.
    by rewrite app_assoc.
Qed.

(** X9. The flags of a volume are the flags of the strategies one after the
    other: scanning with two sequences of strategies put together gives the
    flags of the first followed by the flags of the second, and raises when
    either scan does. *)
Theorem check_volume_app w (uuid : string) (strategies1 strategies2 : list json) :
  check_volume w uuid (strategies1 ++ strategies2) =
    (flags1 ← check_volume w uuid strategies1;
     flags2 ← check_volume w uuid strategies2;
     Ok (flags1 ++ flags2)).
Proof.
  unfold check_volume.
  destruct (negb (path_exists w (path_join (VOLUMES_DIR w) uuid))); [done|].
  destruct (containers_get w uuid); [apply run_strategies_app|done..].
Qed.

Lemma execute_strategy_raises w strategy vp c :
  execute_strategy w strategy vp c = Raise ↔ py_getitem strategy "name" = Raise.
Proof.
  unfold execute_strategy.
  destruct (py_getitem strategy "name") as [name|] eqn:Hn; [|done]. cbn.
  destruct strategy as [| | | | | |fields]; try done. cbn.
  by destruct (dict_get fields "checks" JNull).
Qed.

Lemma run_strategies_raises w strategies vp c flags :
  run_strategies w strategies vp c flags = Raise
  ↔ ∃ strategy, strategy ∈ strategies ∧ py_getitem strategy "name" = Raise.
Proof.
  revert flags. induction strategies as [|s strategies IH]; intros flags; cbn.
  - split; [done|]. intros (s & Hin & _). by apply elem_of_nil in Hin.
  - destruct (execute_strategy w s vp c) as [fs|] eqn:Hs; cbn.
    + rewrite IH. split.
      * intros (s' & Hin & Hr). exists s'. split; [by right|done].
      * intros (s' & Hin & Hr). apply elem_of_cons in Hin as [->|Hin].
        -- apply (execute_strategy_raises w s vp c) in Hr. congruence.
        -- by exists s'.
    + split; [|done]. intros _. exists s. split; [by left|].
      by apply execute_strategy_raises in Hs.
Qed.

Lemma well_formed_rule_name strategy :
  well_formed_rule strategy = true → ∃ name, py_getitem strategy "name" = Ok name.
Proof.
  destruct strategy as [| | | | | |fields]; try done.
  unfold well_formed_rule, dict_get_none, dict_get. cbn.
  destruct (dict_lookup fields "name") as [name|]; [by eexists|done].
Qed.

(** X10. The scan of a volume raises exactly when the volume and the
    container exist and one of the strategies has no [name] to print; it
    never raises with the strategies that the loader returns, whatever the
    rule files and whatever the volume holds. *)
Theorem check_volume_raises_iff w (uuid : string) (strategies : list json) :
  (check_volume w uuid strategies = Raise
   ↔ path_exists w (path_join (VOLUMES_DIR w) uuid) = true
     ∧ (∃ container, containers_get w uuid = Found container)
     ∧ ∃ strategy, strategy ∈ strategies ∧ py_getitem strategy "name" = Raise)
  ∧ (∀ start, ∃ flags, check_volume w uuid (load_strategies start) = Ok flags).
Proof.
  assert (Hiff : check_volume w uuid strategies = Raise
   ↔ path_exists w (path_join (VOLUMES_DIR w) uuid) = true
     ∧ (∃ container, containers_get w uuid = Found container)
     ∧ ∃ strategy, strategy ∈ strategies ∧ py_getitem strategy "name" = Raise).
  { unfold check_volume.
    destruct (path_exists w (path_join (VOLUMES_DIR w) uuid)); cbn.
    - destruct (containers_get w uuid) as [container| |].
      + rewrite run_strategies_raises. split.
        * intros Hs. split; [done|]. split; [by eexists|done].
        * by intros (_ & _ & Hs).
      + split; [done|]. by intros (_ & [container [=]] & _).
      + split; [done|]. by intros (_ & [container [=]] & _).
    - split; [done|]. by intros ([=] & _). }
  split; [exact Hiff|].
  intros start.
  destruct (check_volume w uuid (load_strategies start)) as [flags|] eqn:Hc;
    [by eexists|].
  exfalso. clear Hiff. revert Hc. unfold check_volume.
  destruct (negb _); [done|]. destruct (containers_get w uuid); [|done..].
  rewrite run_strategies_raises. intros (s & Hin & Hr).
  rewrite load_strategies_omap, list_elem_of_omap in Hin.
  destruct Hin as ([file content] & _ & Hl). unfold loadable in Hl. cbn in Hl.
  destruct content as [s'|]; [|done].
  destruct (well_formed_rule s') eqn:Hw; [|done]. injection Hl as ->.
  destruct (well_formed_rule_name s Hw) as [name Hn]. congruence.
Qed.

(** ** One strategy *)

Lemma run_check_length w vp c flags check_config :
  (length (run_check w vp c flags check_config) ≤ S (length flags))%nat.
Proof.
  unfold run_check. destruct check_config; try lia.
  destruct (negb _ || negb _); [lia|].
  destruct (perform_check w vp c fields) as [[m|]|]; cbn; rewrite ?length_app; cbn; lia.
Qed.

Lemma run_checks_length w vp c check_configs flags :
  (length (fold_left (run_check w vp c) check_configs flags)
   ≤ length flags + length check_configs)%nat.
Proof.
  revert flags. induction check_configs as [|x l IH]; intros flags; cbn; [lia|].
  pose proof (IH (run_check w vp c flags x)).
  pose proof (run_check_length w vp c flags x). lia.
Qed.

(** X11. A strategy yields at most one flag per check, in the order of its
    checks: the run on two sequences of checks put together gives the flags
    of the first followed by the flags of the second. A strategy whose
    [checks] is absent or no sequence yields no flag, and no error. *)
Theorem execute_strategy_flags w (volume_path container : string)
    (fields : pydict) (name : json) :
  dict_lookup fields "name" = Some name →
  (∀ check_configs flags,
      dict_lookup fields "checks" = Some (JArr check_configs) →
      execute_strategy w (JObj fields) volume_path container = Ok flags →
      (length flags ≤ length check_configs)%nat)
  ∧ (∀ fields1 fields2 name1 name2 checks1 checks2 flags1 flags2,
      dict_lookup fields1 "name" = Some name1 →
      dict_lookup fields2 "name" = Some name2 →
      dict_lookup fields1 "checks" = Some (JArr checks1) →
      dict_lookup fields2 "checks" = Some (JArr checks2) →
      dict_lookup fields "checks" = Some (JArr (checks1 ++ checks2)) →
      execute_strategy w (JObj fields1) volume_path container = Ok flags1 →
      execute_strategy w (JObj fields2) volume_path container = Ok flags2 →
      execute_strategy w (JObj fields) volume_path container = Ok (flags1 ++ flags2))
  ∧ (is_list (dict_get_none fields "checks") = false →
     execute_strategy w (JObj fields) volume_path container = Ok []).
Proof.
  intros Hn. split; [|split].
  - intros l flags Hc.
    rewrite (execute_strategy_checks w volume_path container fields name l Hn Hc).
    intros [= <-]. apply (run_checks_length w volume_path container l []).
  - intros fields1 fields2 name1 name2 l1 l2 flags1 flags2 Hn1 Hn2 Hc1 Hc2 Hc.
    rewrite (execute_strategy_checks w volume_path container fields1 name1 l1 Hn1 Hc1).
    rewrite (execute_strategy_checks w volume_path container fields2 name2 l2 Hn2 Hc2).
    rewrite (execute_strategy_checks w volume_path container fields name _ Hn Hc).
    intros [= <-] [= <-]. by rewrite fold_left_app, run_checks_app.
  - intros Hl. unfold execute_strategy, py_getitem, py_get. rewrite Hn. cbn.
    unfold dict_get_none in Hl. by destruct (dict_get fields "checks" JNull).
Qed.

(** ** Limits that are no numbers *)

Lemma run_check_no_flag w vp c flags fields :
  perform_check w vp c fields = Raise ∨ perform_check w vp c fields = Ok None →
  run_check w vp c flags (JObj fields) = flags.
Proof.
  intros [Hr|Hr]; unfold run_check; rewrite Hr; by destruct (negb _ || negb _).
Qed.

Lemma perform_check_file_size w vp c fields :
  dict_lookup fields "type" = Some (JStr "file_size") →
  perform_check w vp c fields =
    (flag_data ← file_check w vp fields;
     render (dict_get fields "message" (JStr "An undefined issue was detected")) flag_data).
Proof. intros Ht. unfold perform_check, py_getitem. by rewrite Ht. Qed.

Lemma perform_check_process w vp c fields :
  dict_lookup fields "type" = Some (JStr "process_check") →
  perform_check w vp c fields =
    (flag_data ← process_check w c fields;
     render (dict_get fields "message" (JStr "An undefined issue was detected")) flag_data).
Proof. intros Ht. unfold perform_check, py_getitem. by rewrite Ht. Qed.

Lemma perform_check_network w vp c fields :
  dict_lookup fields "type" = Some (JStr "network_usage") →
  perform_check w vp c fields =
    (flag_data ← network_usage_check w c fields;
     render (dict_get fields "message" (JStr "An undefined issue was detected")) flag_data).
Proof. intros Ht. unfold perform_check, py_getitem. by rewrite Ht. Qed.

Lemma file_check_file_size w vp fields :
  dict_lookup fields "type" = Some (JStr "file_size") →
  file_check w vp fields =
    if negb (truthy (dict_get_none fields "path")) then Ok None
    else
      path ← py_getitem (JObj fields) "path";
      target_path ← py_path_join vp path;
      file_size_check w target_path fields.
Proof.
  intros Ht. unfold file_check. destruct (negb _).
  { unfold py_getitem. by rewrite Ht. }
  destruct (py_getitem (JObj fields) "path") as [path|]; [|done]. cbn [mbind result_bind].
  destruct (py_path_join vp path) as [target|]; [|done]. cbn [mbind result_bind].
  unfold py_getitem. by rewrite Ht.
Qed.

Lemma file_size_check_not_numeric w target fields v :
  dict_lookup fields "max_size" = Some v →
  num_of_json v = None →
  file_size_check w target fields = Raise ∨ file_size_check w target fields = Ok None.
Proof.
  intros Hv Hn. unfold file_size_check, dict_get. rewrite Hv. cbn [default from_option id].
  destruct (path_exists w target); [|by right].
  destruct (getsize w target) as [size|]; [|by left]. cbn [mbind result_bind].
  unfold py_gt. rewrite Hn. by left.
Qed.

(** X12. A limit that is present but is no number (the string ["50"], a
    list, null) silences its check: a [file_size] check with such a
    [max_size], a [process_check] with such a [cpu_threshold] and a
    [network_usage] check with such a [threshold] never add a flag,
    whatever the volume, the processes and the counters are. *)
Theorem non_numeric_limit_never_flags w (volume_path container : string)
    (check_config : pydict) (limit : json) (flags : list string) :
  num_of_json limit = None →
  (dict_lookup check_config "type" = Some (JStr "file_size")
   ∧ dict_lookup check_config "max_size" = Some limit)
  ∨ (dict_lookup check_config "type" = Some (JStr "process_check")
     ∧ dict_lookup check_config "cpu_threshold" = Some limit)
  ∨ (dict_lookup check_config "type" = Some (JStr "network_usage")
     ∧ dict_lookup check_config "threshold" = Some limit) →
  run_check w volume_path container flags (JObj check_config) = flags.
Proof.
  intros Hn Hcases. apply run_check_no_flag.
  destruct Hcases as [[Ht Hl]|[[Ht Hl]|[Ht Hl]]].
  - rewrite (perform_check_file_size w volume_path container check_config Ht).
    rewrite (file_check_file_size w volume_path check_config Ht).
    destruct (negb _); [by right|].
    destruct (py_getitem (JObj check_config) "path") as [path|]; [|by left].
    cbn [mbind result_bind].
    destruct (py_path_join volume_path path) as [target|]; [|by left].
    cbn [mbind result_bind].
    destruct (file_size_check_not_numeric w target check_config limit Hl Hn)
      as [-> | ->]; [by left|by right].
  - rewrite (perform_check_process w volume_path container check_config Ht).
    rewrite process_check_eq. unfold dict_get. rewrite Hl. cbn [default from_option id].
    destruct (container_exec_run w container _) as [output|]; [|by right].
    destruct (high_cpu_not_numeric limit (output_lines output) [] Hn) as [-> _].
    by right.
  - rewrite (perform_check_network w volume_path container check_config Ht).
    rewrite network_usage_check_eq. unfold dict_get, exceeds, py_gt.
    rewrite Hl. cbn [default from_option id]. rewrite Hn.
    destruct (container_stats w container); by right.
Qed.

(** ** The file and log evaluators *)

Lemma for_return_Some {A B} (body : A → result (option B)) (l : list A) b :
  for_return body l = Ok (Some b) → ∃ x, x ∈ l ∧ body x = Ok (Some b).
Proof.
  induction l as [|x l IH]; [done|]. cbn.
  destruct (body x) as [[b'|]|] eqn:Hx; cbn; [| |done].
  - intros [= <-]. exists x. split; [by left|done].
  - intros Hr. destruct (IH Hr) as (y & Hy & Hb). exists y. split; [by right|done].
Qed.

Lemma file_existence_check_patterns w target fields (patterns : list string) :
  dict_get fields "patterns" (JArr []) = JArr (map JStr patterns) →
  file_existence_check w target fields =
    for_return (λ pattern,
      matches ← glob w (path_join target pattern);
      match matches with
      | first :: _ => Ok (Some (filename_evidence (basename first)))
      | [] => Ok None
      end) patterns.
Proof.
  intros Hp. unfold file_existence_check. rewrite Hp. cbn [py_iter mbind result_bind].
  clear Hp. induction patterns as [|p patterns IH]; [done|].
  cbn [map for_return py_path_join mbind result_bind].
  destruct (glob w (path_join target p)) as [[|m ms]|]; cbn [mbind result_bind];
    [exact IH|done..].
Qed.

(** X13. With string patterns, the existence check answers with the base
    name of the first path that [glob] gives for the first pattern, in the
    order of the configuration, that has a match under the target path;
    it matches only so, answers no match when no pattern has one, and
    passes on the error of a [glob] that fails before a match is found. *)
Theorem file_existence_first_match w (target_path : string) (check_config : pydict)
    (patterns : list string) :
  dict_get check_config "patterns" (JArr []) = JArr (map JStr patterns) →
  (∀ before pattern after first others,
      patterns = before ++ pattern :: after →
      Forall (λ q, glob w (path_join target_path q) = Ok []) before →
      glob w (path_join target_path pattern) = Ok (first :: others) →
      file_existence_check w target_path check_config
        = Ok (Some (filename_evidence (basename first))))
  ∧ (∀ ev,
      file_existence_check w target_path check_config = Ok (Some ev) →
      ∃ pattern first others,
        pattern ∈ patterns
        ∧ glob w (path_join target_path pattern) = Ok (first :: others)
        ∧ ev = filename_evidence (basename first))
  ∧ (Forall (λ q, glob w (path_join target_path q) = Ok []) patterns →
     file_existence_check w target_path check_config = Ok None)
  ∧ (∀ before pattern after,
      patterns = before ++ pattern :: after →
      Forall (λ q, glob w (path_join target_path q) = Ok []) before →
      glob w (path_join target_path pattern) = Raise →
      file_existence_check w target_path check_config = Raise).
Proof.
  intros Hp. rewrite (file_existence_check_patterns w target_path check_config patterns Hp).
  assert (Hpass : ∀ l : list string,
    Forall (λ q, glob w (path_join target_path q) = Ok []) l →
    Forall (λ q, (matches ← glob w (path_join target_path q);
                  match matches with
                  | first :: _ => Ok (Some (filename_evidence (basename first)))
                  | [] => Ok None
                  end) = Ok None) l).
  { intros l Hl. eapply Forall_impl; [exact Hl|]. cbn. by intros q ->. }
  split; [|split; [|split]].
  - intros before pattern after first others -> Hbefore Hglob.
    rewrite for_return_pass by (by apply Hpass). cbn [for_return]. by rewrite Hglob.
  - intros ev Hev.
    destruct (for_return_Some _ _ _ Hev) as (pattern & Hin & Hbody).
    destruct (glob w (path_join target_path pattern)) as [[|m ms]|] eqn:Hg;
      cbn in Hbody; try done.
    injection Hbody as <-. by exists pattern, m, ms.
  - intros Hall. rewrite <- (app_nil_r patterns), for_return_pass; [done|].
    by apply Hpass.
  - intros before pattern after -> Hbefore Hglob.
    rewrite for_return_pass by (by apply Hpass). cbn [for_return]. by rewrite Hglob.
Qed.

Lemma contains_empty s : contains s "" = true.
Proof. by destruct s. Qed.

Lemma for_content_patterns content (patterns : list string) :
  for_return (λ pattern,
      found ← py_in pattern content;
      if found : bool then p ← py_str pattern; Ok (Some (pattern_evidence p))
      else Ok None) (map JStr patterns)
  = Ok (pattern_evidence <$> List.find (contains content) patterns).
Proof.
  induction patterns as [|p patterns IH]; [done|].
  cbn [map for_return List.find py_in py_str mbind result_bind].
  by destruct (contains content p).
Qed.

(** X14. With string patterns, the content check answers with the first
    pattern of the configuration that occurs in the text of the file, as it
    is spelt, letter case included; it answers no match when the file does
    not exist, whatever the patterns are, and passes on the error of a file
    that exists and cannot be read. An empty pattern occurs in every
    text. *)
Theorem file_content_first_pattern w (target_path : string) (check_config : pydict)
    (patterns : list string) :
  dict_get check_config "patterns" (JArr []) = JArr (map JStr patterns) →
  (∀ content,
      path_exists w target_path = true →
      read_text w target_path = Ok content →
      file_content_check w target_path check_config
        = Ok (pattern_evidence <$> List.find (contains content) patterns))
  ∧ (∀ content pattern,
      path_exists w target_path = true →
      read_text w target_path = Ok content →
      file_content_check w target_path check_config = Ok (Some (pattern_evidence pattern)) →
      pattern ∈ patterns ∧ contains content pattern = true)
  ∧ (∀ content rest,
      path_exists w target_path = true →
      read_text w target_path = Ok content →
      patterns = "" :: rest →
      file_content_check w target_path check_config = Ok (Some (pattern_evidence "")))
  ∧ (path_exists w target_path = true →
     read_text w target_path = Raise →
     file_content_check w target_path check_config = Raise)
  ∧ (∀ other_config,
      path_exists w target_path = false →
      file_content_check w target_path other_config = Ok None).
Proof.
  intros Hp.
  assert (Heq : ∀ content,
      path_exists w target_path = true →
      read_text w target_path = Ok content →
      file_content_check w target_path check_config
        = Ok (pattern_evidence <$> List.find (contains content) patterns)).
  { intros content Hex Hread. unfold file_content_check.
    rewrite Hp, Hex, Hread. cbn [mbind result_bind py_iter].
    apply for_content_patterns. }
  split; [exact Heq|]. split; [|split; [|split]].
  - intros content pattern Hex Hread. rewrite (Heq content Hex Hread).
    destruct (List.find (contains content) patterns) as [p|] eqn:Hf; [|done].
    intros [= ->]. apply find_some in Hf as [Hin Hc].
    split; [by apply list_elem_of_In|done].
  - intros content rest Hex Hread ->. rewrite (Heq content Hex Hread).
    cbn [List.find]. by rewrite contains_empty.
  - intros Hex Hread. unfold file_content_check. by rewrite Hex, Hread.
  - intros other Hex. unfold file_content_check. by rewrite Hex.
Qed.

Lemma lower_char_idem c : lower_char (lower_char c) = lower_char c.
Proof. destruct c as [[] [] [] [] [] [] [] []]; by vm_compute. Qed.

Lemma lower_idem s : lower (lower s) = lower s.
Proof. induction s as [|c s IH]; [done|]. cbn. by rewrite lower_char_idem, IH. Qed.

Lemma for_log_patterns logs (patterns : list string) :
  for_return (λ pattern,
      p ← py_lower pattern;
      if contains (lower logs) p then s ← py_str pattern; Ok (Some (pattern_evidence s))
      else Ok None) (map JStr patterns)
  = Ok (pattern_evidence <$> List.find (λ p, contains (lower logs) (lower p)) patterns).
Proof.
  induction patterns as [|p patterns IH]; [done|].
  cbn [map for_return List.find py_lower py_str mbind result_bind].
  by destruct (contains (lower logs) (lower p)).
Qed.

Lemma log_content_check_patterns w container fields (patterns : list string) :
  dict_get fields "patterns" (JArr []) = JArr (map JStr patterns) →
  log_content_check w container fields =
    Ok match container_logs w container with
       | Ok logs =>
           pattern_evidence
             <$> List.find (λ p, contains (lower logs) (lower p)) patterns
       | Raise => None
       end.
Proof.
  intros Hp. unfold log_content_check. rewrite Hp.
  destruct (container_logs w container) as [logs|]; [|done].
  cbn [mbind result_bind py_iter]. by rewrite for_log_patterns.
Qed.

Lemma find_is_Some {A} (f : A → bool) (l : list A) :
  is_Some (List.find f l) ↔ ∃ x, x ∈ l ∧ f x = true.
Proof.
  induction l as [|x l IH]; cbn.
  - split; [by intros [? [=]]|]. intros (x & Hin & _). by apply elem_of_nil in Hin.
  - destruct (f x) eqn:Hx.
    + split; [|by eexists]. intros _. exists x. split; [by left|done].
    + rewrite IH. split.
      * intros (y & Hy & Hf). exists y. split; [by right|done].
      * intros (y & Hy & Hf). apply elem_of_cons in Hy as [->|Hy]; [congruence|].
        by exists y.
Qed.

(** X15. With string patterns, the log check answers with the first
    pattern of the configuration whose lower-case form occurs in the
    lower-case form of the logs, and the evidence is the pattern as it is
    spelt in the configuration. Letter case does not matter on either
    side: logs with the same lower-case form give the same answer, and the
    check matches with the patterns exactly when it matches with their
    lower-case forms. *)
Theorem log_content_ignores_case w (container : string) (check_config : pydict)
    (patterns : list string) :
  dict_get check_config "patterns" (JArr []) = JArr (map JStr patterns) →
  (∀ logs,
      container_logs w container = Ok logs →
      log_content_check w container check_config
        = Ok (pattern_evidence
                <$> List.find (λ p, contains (lower logs) (lower p)) patterns))
  ∧ (∀ w' logs logs',
      container_logs w container = Ok logs →
      container_logs w' container = Ok logs' →
      lower logs = lower logs' →
      log_content_check w' container check_config
        = log_content_check w container check_config)
  ∧ (∀ lowered,
      dict_get lowered "patterns" (JArr []) = JArr (map JStr (map lower patterns)) →
      (∃ ev, log_content_check w container check_config = Ok (Some ev))
      ↔ (∃ ev, log_content_check w container lowered = Ok (Some ev))).
Proof.
  intros Hp.
  pose proof (log_content_check_patterns w container check_config patterns Hp) as Heq.
  split; [|split].
  - intros logs Hl. by rewrite Heq, Hl.
  - intros w' logs logs' Hl Hl' Hlow.
    rewrite (log_content_check_patterns w' container check_config patterns Hp).
    by rewrite Heq, Hl, Hl', Hlow.
  - intros lowered Hlp.
    rewrite (log_content_check_patterns w container lowered _ Hlp), Heq.
    destruct (container_logs w container) as [logs|];
      [|split; by intros [ev [=]]].
    assert (Hsome : ∀ (f : string → bool) (l : list string),
      (∃ ev, Ok (pattern_evidence <$> List.find f l) = Ok (Some ev))
      ↔ ∃ x, x ∈ l ∧ f x = true).
    { intros f l. rewrite <- find_is_Some.
      destruct (List.find f l) as [x|]; cbn.
      - split; [by eexists|]. intros _. by eexists.
      - split; [by intros [ev [=]]|]. by intros [x [=]]. }
    rewrite !Hsome. split.
    + intros (p & Hin & Hc). exists (lower p). split.
      * apply list_elem_of_In, in_map. by apply list_elem_of_In.
      * by rewrite lower_idem.
    + intros (q & Hin & Hc).
      apply list_elem_of_In, in_map_iff in Hin as (p & <- & Hin).
      exists p. split; [by apply list_elem_of_In|]. by rewrite lower_idem in Hc.
Qed.

(** ** Paths *)

Lemma contains_slash_cons c s :
  contains (String c s) "/" = Ascii.eqb c slash || contains s "/".
Proof.
  cbn [contains String.prefix]. unfold slash.
  destruct (ascii_dec "/" c) as [<-|Hne].
  - by destruct s.
  - assert (Ascii.eqb c "/" = false) as ->; [|done].
    apply Ascii.eqb_neq. congruence.
Qed.

Lemma contains_slash_app x y :
  contains (x +:+ y) "/" = contains x "/" || contains y "/".
Proof.
  induction x as [|c x IH].
  - by destruct y.
  - change (String c x +:+ y) with (String c (x +:+ y)).
    rewrite !contains_slash_cons, IH. by rewrite orb_assoc.
Qed.

Lemma basename_cons c s :
  basename (String c s) =
    if contains s "/" then basename s
    else if Ascii.eqb c slash then s else String c s.
Proof. done. Qed.

Lemma basename_no_slash s : contains s "/" = false → basename s = s.
Proof.
  destruct s as [|c s]; [done|]. rewrite contains_slash_cons, basename_cons.
  intros Hc. apply orb_false_iff in Hc as [-> ->]. done.
Qed.

Lemma basename_app x y :
  basename (x +:+ y) = if contains y "/" then basename y else basename x +:+ y.
Proof.
  induction x as [|c x IH].
  - cbn [String.app]. destruct (contains y "/") eqn:Hy; [done|].
    by rewrite basename_no_slash.
  - change (String c x +:+ y) with (String c (x +:+ y)).
    rewrite !basename_cons, contains_slash_app, IH.
    destruct (contains y "/"); [by rewrite orb_true_r|]. rewrite orb_false_r.
    destruct (contains x "/"); [done|]. by destruct (Ascii.eqb c slash).
Qed.

Lemma basename_after_slash y : basename ("/" +:+ y) = basename y.
Proof.
  change ("/" +:+ y) with (String "/" y). rewrite basename_cons.
  destruct (contains y "/") eqn:Hy; [done|]. cbn. by rewrite basename_no_slash.
Qed.

Lemma ends_with_slash_basename a : ends_with_slash a = true → basename a = "".
Proof.
  induction a as [|c a IH]; [done|].
  rewrite basename_cons. destruct a as [|d a].
  - cbn. by intros ->.
  - intros He. assert (He' : ends_with_slash (String d a) = true) by exact He.
    rewrite (IH He').
    assert (Hs : contains (String d a) "/" = true).
    { clear IH He. revert d He'. induction a as [|e a IHa]; intros d He'.
      - cbn in He'. rewrite contains_slash_cons, He'. done.
      - rewrite contains_slash_cons. rewrite (IHa e He'). by rewrite orb_true_r. }
    by rewrite Hs.
Qed.

Lemma basename_path_join a b : basename (path_join a b) = basename b.
Proof.
  unfold path_join. destruct (starts_with_slash b); [done|].
  destruct (is_empty a || ends_with_slash a) eqn:Ha.
  - rewrite basename_app.
    destruct (contains b "/") eqn:Hb; [done|].
    rewrite (basename_no_slash b Hb).
    apply orb_true_iff in Ha as [Ha|Ha].
    + by destruct a.
    + by rewrite (ends_with_slash_basename a Ha).
  - rewrite basename_app, contains_slash_app. cbn [contains String.prefix orb].
    by rewrite basename_after_slash.
Qed.

(** X16. The file name in the evidence of a size check is the base name of
    the configured [path], whatever the volume root is: the base name of a
    joined path is the base name of its second part. *)
Theorem file_size_names_configured_path w (volume_path : string)
    (check_config : pydict) (path : string) (ev : evidence) :
  dict_lookup check_config "type" = Some (JStr "file_size") →
  dict_lookup check_config "path" = Some (JStr path) →
  file_check w volume_path check_config = Ok (Some ev) →
  ev = filename_evidence (basename path)
  ∧ ∀ a b, basename (path_join a b) = basename b.
Proof.
  intros Ht Hp Hev. split; [|apply basename_path_join].
  rewrite (file_check_file_size w volume_path check_config Ht) in Hev.
  destruct (negb _); [done|].
  unfold py_getitem in Hev. rewrite Hp in Hev.
  cbn [mbind result_bind py_path_join] in Hev.
  unfold file_size_check in Hev.
  destruct (path_exists w (path_join volume_path path)); [|done].
  destruct (getsize w (path_join volume_path path)) as [size|]; [|done].
  cbn [mbind result_bind] in Hev.
  destruct (py_gt (of_int size) _) as [[]|]; cbn in Hev; try done.
  injection Hev as <-. by rewrite basename_path_join.
Qed.

(** X17. A configured path that starts with a slash is not taken under the
    volume root: a file check with such a [path], and a dependency check
    with such a [file], give the same answer for every volume root, the
    answer for the path itself. *)
Theorem absolute_path_ignores_volume w (check_config : pydict) (path : string) :
  starts_with_slash path = true →
  (dict_lookup check_config "path" = Some (JStr path) →
   ∀ volume_path volume_path',
     file_check w volume_path check_config = file_check w volume_path' check_config)
  ∧ (dict_lookup check_config "file" = Some (JStr path) →
     ∀ volume_path volume_path',
       dependency_check w volume_path check_config
       = dependency_check w volume_path' check_config)
  ∧ ∀ volume_path, path_join volume_path path = path.
Proof.
  intros Hs.
  assert (Hjoin : ∀ volume_path, path_join volume_path path = path)
    by (intros vp; unfold path_join; by rewrite Hs).
  split; [|split; [|exact Hjoin]].
  - intros Hp vp vp'. unfold file_check, py_getitem. rewrite Hp.
    cbn [mbind result_bind py_path_join]. by rewrite !Hjoin.
  - intros Hf vp vp'. unfold dependency_check, dict_get. rewrite Hf.
    cbn [default from_option id mbind result_bind py_path_join]. by rewrite !Hjoin.
Qed.

(** ** Megabytes *)

Lemma format_2f_hundredths negative num :
  format_2f negative num = (if negative then "-" else "") +:+ two_decimals (hundredths num).
Proof. done. Qed.

Lemma hundredths_near num :
  Z.abs (100 * num - hundredths num * 2 ^ 20) ≤ 2 ^ 19.
Proof.
  unfold hundredths.
  assert (Hp : 2 ^ 20 = 1048576) by done. assert (Hh : 2 ^ 19 = 524288) by done.
  rewrite Hp, Hh.
  pose proof (Z.div_mod (num * 100) 1048576 ltac:(lia)) as Hdm.
  pose proof (Z.mod_pos_bound (num * 100) 1048576 ltac:(lia)) as Hb.
  destruct (Z.ltb_spec 524288 ((num * 100) mod 1048576)); cbn [orb]; [lia|].
  destruct (Z.eqb_spec ((num * 100) mod 1048576) 524288); cbn [andb];
    [destruct (Z.odd _)|]; lia.
Qed.

Lemma hundredths_mono a b : a ≤ b → hundredths a ≤ hundredths b.
Proof.
  intros Hab. unfold hundredths.
  assert (Hp : 2 ^ 20 = 1048576) by done. assert (Hh : 2 ^ 19 = 524288) by done.
  rewrite Hp, Hh.
  pose proof (Z.div_mod (a * 100) 1048576 ltac:(lia)) as Ha.
  pose proof (Z.mod_pos_bound (a * 100) 1048576 ltac:(lia)) as Hab'.
  pose proof (Z.div_mod (b * 100) 1048576 ltac:(lia)) as Hb.
  pose proof (Z.mod_pos_bound (b * 100) 1048576 ltac:(lia)) as Hbb.
  set (qa := a * 100 / 1048576) in *. set (ra := (a * 100) mod 1048576) in *.
  set (qb := b * 100 / 1048576) in *. set (rb := (b * 100) mod 1048576) in *.
  assert (Hq : qa ≤ qb) by lia.
  destruct (Z.ltb_spec 524288 ra), (Z.ltb_spec 524288 rb),
    (Z.eqb_spec ra 524288), (Z.eqb_spec rb 524288),
    (Z.odd qa) eqn:Hoa, (Z.odd qb) eqn:Hob; cbn [orb andb]; try lia;
    (destruct (decide (qa = qb)) as [Heq|Hne]; [rewrite Heq in Hoa; congruence|lia]).
Qed.

(** X18. For a byte count below 2^53 the megabytes are printed
    to the nearest hundredth of the exact quotient by 2^20: the count is
    taken as it is, the hundredths printed differ from the exact value by at
    most half a hundredth, and a greater count never prints fewer
    hundredths. A negative count prints the same digits after a minus
    sign. *)
Theorem usage_megabytes_nearest (n : Z) :
  0 ≤ n < 2 ^ 53 →
  usage_megabytes n = Ok (two_decimals (hundredths n))
  ∧ Z.abs (100 * n - hundredths n * 2 ^ 20) ≤ 2 ^ 19
  ∧ (∀ m, n ≤ m → hundredths n ≤ hundredths m)
  ∧ (0 < n → usage_megabytes (- n) = Ok ("-" +:+ two_decimals (hundredths n))).
Proof.
  intros [H0 Hn].
  assert (Hr : round53 n = n).
  { unfold round53. destruct (Z.ltb_spec n (2 ^ 53)); [done|lia]. }
  assert (Hsmall : (2 ^ 1034 <=? n) = false).
  { apply Z.leb_gt. assert (2 ^ 53 < 2 ^ 1034) by (by vm_compute). lia. }
  split; [|split; [|split]].
  - unfold usage_megabytes. rewrite Z.abs_eq, Hr, Hsmall by done.
    rewrite format_2f_hundredths.
    destruct (Z.ltb_spec n 0); [lia|done].
  - apply hundredths_near.
  - intros m. apply hundredths_mono.
  - intros Hpos. unfold usage_megabytes.
    rewrite Z.abs_neq, Z.opp_involutive, Hr, Hsmall by lia.
    rewrite format_2f_hundredths.
    destruct (Z.ltb_spec (- n) 0); [done|lia].
Qed.

(** ** Templates without placeholders *)

Lemma escape_brace_free text : brace_free text = true → escape text = text.
Proof.
  induction text as [|c text IH]; [done|]. cbn [brace_free escape].
  intros Hb. apply andb_true_iff in Hb as [Hc Ht].
  apply negb_true_iff in Hc. rewrite Hc. by rewrite (IH Ht).
Qed.

(** X19. A template without a brace is the message, unchanged, whatever
    the evidence holds (its [usage] below 2^1024); so a check
    that matches and has no [message] of its own is flagged with the
    default message, word for word. *)
Theorem brace_free_template_verbatim (template : string) (data : evidence) :
  brace_free template = true →
  (∀ n, ev_usage data = Some n → Z.abs n < 2 ^ 1024) →
  replace_placeholders (JStr template) data = Ok template
  ∧ (∀ check_config,
      dict_lookup check_config "message" = None →
      render (dict_get check_config "message" (JStr "An undefined issue was detected"))
        (Some data)
      = Ok (Some "An undefined issue was detected")).
Proof.
  intros Hb Hu.
  assert (Hlimit : ∀ n, ev_usage data = Some n → Z.abs n < usage_limit).
  { intros n Hn. specialize (Hu n Hn).
    assert (2 ^ 1024 < usage_limit) by (vm_compute; done). lia. }
  assert (Hplain : ∀ t, brace_free t = true → replace_placeholders (JStr t) data = Ok t).
  { intros t Ht.
    pose proof (replace_placeholders_template data [Literal t]
                  ltac:(by repeat constructor) Hlimit) as Hr.
    cbn [write_template write_piece rendering substitute] in Hr.
    by rewrite (escape_brace_free t Ht), !string_app_empty in Hr. }
  split; [by apply Hplain|].
  intros cfg Hnone. unfold dict_get, render. rewrite Hnone.
  cbn [default from_option id]. by rewrite Hplain.
Qed.

(** ** Package files that are not as expected *)

(** X20. A package file that exists and parses but is no object, or whose
    [dependencies] is no object, or whose [devDependencies] cannot be
    iterated (it is null, a number or a boolean), is never matched and
    raises nothing, even when [dependencies] alone names a pattern. *)
Theorem dependency_check_unusable_package w (volume_path : string)
    (check_config : pydict) (file : string) (data : json) :
  dict_get check_config "file" (JStr "package.json") = JStr file →
  path_exists w (path_join volume_path file) = true →
  load_json w (path_join volume_path file) = Ok data →
  (∀ fields, data ≠ JObj fields)
  ∨ (∃ fields, data = JObj fields
       ∧ ((∀ d, dict_get fields "dependencies" (JObj []) ≠ JObj d)
          ∨ py_iter (dict_get fields "devDependencies" (JObj [])) = Raise)) →
  dependency_check w volume_path check_config = Ok None.
Proof.
  intros Hfile Hex Hload Hbad. unfold dependency_check.
  rewrite Hfile. cbn [py_path_join mbind result_bind]. rewrite Hex, Hload.
  cbn [mbind result_bind]. f_equal.
  destruct Hbad as [Hno|(fields & -> & [Hd|Hv])].
  - destruct data; try done. by destruct (Hno fields).
  - cbn [py_get mbind result_bind].
    destruct (dict_get fields "dependencies" (JObj [])); try done.
    by destruct (Hd fields0).
  - cbn [py_get mbind result_bind].
    destruct (dict_get fields "dependencies" (JObj [])); try done.
    unfold keys_after_update.
    destruct (dict_get fields "devDependencies" (JObj [])); try done.
    all: by rewrite Hv.
Qed.

(** ** Columns *)

Lemma split_ws_lstrip s : split_ws "" (lstrip s) = split_ws "" s.
Proof.
  induction s as [|c s IH]; [done|]. cbn [lstrip split_ws].
  destruct (is_space c) eqn:Hc; [exact IH|].
  cbn [split_ws]. by rewrite Hc.
Qed.

Lemma rstrip_empty_split s cur :
  is_empty (rstrip s) = true →
  split_ws cur s = if is_empty cur then [] else [cur].
Proof.
  revert cur. induction s as [|c s IH]; intros cur; [done|].
  cbn [rstrip split_ws].
  destruct (is_space c) eqn:Hc; cbn [andb].
  - destruct (is_empty (rstrip s)) eqn:He; [|done]. intros _.
    rewrite (IH "" eq_refl). by destruct (is_empty cur).
  - done.
Qed.

Lemma split_ws_rstrip s cur : split_ws cur (rstrip s) = split_ws cur s.
Proof.
  revert cur. induction s as [|c s IH]; intros cur; [done|].
  cbn [rstrip].
  destruct (is_space c && is_empty (rstrip s)) eqn:Hb.
  - apply andb_true_iff in Hb as [Hc He].
    cbn [split_ws]. rewrite Hc, (rstrip_empty_split s "" He).
    by destruct (is_empty cur).
  - cbn [split_ws]. by rewrite !IH.
Qed.

Lemma split_ws_tokens s cur token :
  space_free cur = true →
  token ∈ split_ws cur s →
  is_empty token = false ∧ space_free token = true.
Proof.
  revert cur. induction s as [|c s IH]; intros cur Hcur; cbn [split_ws].
  - destruct (is_empty cur) eqn:He.
    + intros Hin. by apply elem_of_nil in Hin.
    + intros Hin. apply list_elem_of_singleton in Hin as ->. done.
  - destruct (is_space c) eqn:Hc.
    + destruct (is_empty cur) eqn:He.
      * by apply IH.
      * intros Hin. apply elem_of_cons in Hin as [->|Hin]; [done|].
        by apply (IH "").
    + apply IH. clear IH.
      induction cur as [|d cur IHc].
      * change (negb (is_space c) && true = true). by rewrite Hc.
      * change (negb (is_space d) && space_free cur = true) in Hcur.
        apply andb_true_iff in Hcur as [Hd Hcur].
        change (negb (is_space d) && space_free (cur +:+ String c "") = true).
        by rewrite Hd, (IHc Hcur).
Qed.

(** X21. The columns of a line do not depend on the whitespace around it:
    splitting the stripped line gives the columns of the line itself, each
    of them a non-empty text without whitespace; so the CPU column of the
    process check is the ninth column of the line as printed, and the loop
    of the process check compares that column and keeps the line without
    the whitespace around it. *)
Theorem columns_of_stripped_line (line : string) :
  split (strip line) = split line
  ∧ (∀ column, column ∈ split line →
               is_empty column = false ∧ space_free column = true)
  ∧ cpu_column line = split line !! 8%nat
  ∧ (∀ cpu_threshold rest found,
      high_cpu cpu_threshold (line :: rest) found =
        match split line !! 8%nat with
        | Some field =>
            match py_float field with
            | Some cpu_usage =>
                over ← py_gt cpu_usage cpu_threshold;
                high_cpu cpu_threshold rest
                  (if over : bool then found ++ [strip line] else found)
            | None => high_cpu cpu_threshold rest found
            end
        | None => high_cpu cpu_threshold rest found
        end).
Proof.
  assert (Hs : split (strip line) = split line).
  { unfold split, strip. by rewrite split_ws_rstrip, split_ws_lstrip. }
  split; [exact Hs|]. split; [|split].
  - intros column. by apply split_ws_tokens.
  - unfold cpu_column. by rewrite Hs.
  - intros thr rest found. rewrite high_cpu_step. unfold cpu_column. by rewrite Hs.
Qed.

(** ** Failures during one check *)

Lemma bind_render_nothing (e : result (option evidence)) message :
  e = Raise ∨ e = Ok None →
  (flag_data ← e; render message flag_data) = Raise
  ∨ (flag_data ← e; render message flag_data) = Ok None.
Proof. intros [-> | ->]; [by left|by right]. Qed.

Lemma perform_check_file w vp c fields kind :
  kind ∈ ["file_existence"; "file_content"; "file_size"] →
  dict_lookup fields "type" = Some (JStr kind) →
  perform_check w vp c fields =
    (flag_data ← file_check w vp fields;
     render (dict_get fields "message" (JStr "An undefined issue was detected")) flag_data).
Proof.
  intros Hk Ht. unfold perform_check, py_getitem. rewrite Ht.
  repeat (apply elem_of_cons in Hk as [->|Hk]; [done|]).
  by apply elem_of_nil in Hk.
Qed.

Lemma perform_check_dependency w vp c fields :
  dict_lookup fields "type" = Some (JStr "dependency") →
  perform_check w vp c fields =
    (flag_data ← dependency_check w vp fields;
     render (dict_get fields "message" (JStr "An undefined issue was detected")) flag_data).
Proof. intros Ht. unfold perform_check, py_getitem. by rewrite Ht. Qed.

Lemma perform_check_log w vp c fields :
  dict_lookup fields "type" = Some (JStr "log_content") →
  perform_check w vp c fields =
    (flag_data ← log_content_check w c fields;
     render (dict_get fields "message" (JStr "An undefined issue was detected")) flag_data).
Proof. intros Ht. unfold perform_check, py_getitem. by rewrite Ht. Qed.

(** A file check with a path is the check of its kind on the joined path,
    or no match when the path is empty. *)
Lemma file_check_target w vp fields kind path :
  dict_lookup fields "type" = Some (JStr kind) →
  dict_lookup fields "path" = Some (JStr path) →
  file_check w vp fields = Ok None
  ∨ file_check w vp fields =
      (if String.eqb kind "file_existence"
       then file_existence_check w (path_join vp path) fields
       else if String.eqb kind "file_content"
       then file_content_check w (path_join vp path) fields
       else if String.eqb kind "file_size"
       then file_size_check w (path_join vp path) fields
       else Raise).
Proof.
  intros Ht Hp. unfold file_check, dict_get_none, dict_get, py_getitem.
  rewrite Ht, Hp. cbn [default from_option id mbind result_bind py_path_join py_eq_str].
  destruct (negb (truthy (JStr path))); [by left|by right].
Qed.

Lemma failure_no_flag w vp c fields :
  failure w vp c fields →
  perform_check w vp c fields = Raise ∨ perform_check w vp c fields = Ok None.
Proof.
  intros [Hr
         |kind path Hk Ht Hp Hex
         |path Ht Hp Hread
         |path Ht Hp Hsize
         |path before pattern after Ht Hp Hpat Hbefore Hglob
         |file Ht Hf Hex
         |file Ht Hf Hload
         |Ht Hlogs
         |Ht Hexec
         |Ht Hstats
         |kind key limit Hk Ht Hl Hn].
  - by left.
  - rewrite (perform_check_file w vp c fields kind (list_elem_of_further _ _ _ Hk) Ht).
    apply bind_render_nothing.
    destruct (file_check_target w vp fields kind path Ht Hp) as [->| ->]; [by right|].
    right.
    apply elem_of_cons in Hk as [->|Hk]; [|apply list_elem_of_singleton in Hk as ->].
    + cbn. unfold file_content_check. by rewrite Hex.
    + cbn. unfold file_size_check. by rewrite Hex.
  - rewrite (perform_check_file w vp c fields "file_content"
               ltac:(by right; left) Ht).
    apply bind_render_nothing.
    destruct (file_check_target w vp fields _ path Ht Hp) as [->| ->]; [by right|].
    cbn. unfold file_content_check. rewrite Hread.
    destruct (path_exists w (path_join vp path)); [by left|by right].
  - rewrite (perform_check_file w vp c fields "file_size"
               ltac:(by right; right; left) Ht).
    apply bind_render_nothing.
    destruct (file_check_target w vp fields _ path Ht Hp) as [->| ->]; [by right|].
    cbn. unfold file_size_check. rewrite Hsize.
    destruct (path_exists w (path_join vp path)); [by left|by right].
  - rewrite (perform_check_file w vp c fields "file_existence"
               ltac:(by left) Ht).
    apply bind_render_nothing.
    destruct (file_check_target w vp fields _ path Ht Hp) as [->| ->]; [by right|].
    left. cbn.
    rewrite (file_existence_check_patterns w _ fields _ Hpat).
    rewrite for_return_pass.
    + cbn [for_return]. by rewrite Hglob.
    + eapply Forall_impl; [exact Hbefore|]. cbn. by intros q ->.
  - rewrite (perform_check_dependency w vp c fields Ht).
    apply bind_render_nothing. right.
    apply (dependency_check_unparsed w vp fields file Hf). by left.
  - rewrite (perform_check_dependency w vp c fields Ht).
    apply bind_render_nothing. right.
    apply (dependency_check_unparsed w vp fields file Hf). by right.
  - rewrite (perform_check_log w vp c fields Ht).
    apply bind_render_nothing. right. unfold log_content_check. by rewrite Hlogs.
  - rewrite (perform_check_process w vp c fields Ht).
    apply bind_render_nothing. right. unfold process_check. by rewrite Hexec.
  - rewrite (perform_check_network w vp c fields Ht).
    apply bind_render_nothing. right. unfold network_usage_check. by rewrite Hstats.
  - unfold limits in Hk.
    apply elem_of_cons in Hk as [[= -> ->]|Hk];
      [|apply elem_of_cons in Hk as [[= -> ->]|Hk];
        [|apply list_elem_of_singleton in Hk as [= -> ->]]].
    + rewrite (perform_check_file_size w vp c fields Ht).
      apply bind_render_nothing.
      rewrite (file_check_file_size w vp fields Ht).
      destruct (negb _); [by right|].
      destruct (py_getitem (JObj fields) "path") as [path|]; [|by left].
      cbn [mbind result_bind].
      destruct (py_path_join vp path) as [target|]; [|by left].
      cbn [mbind result_bind].
      apply (file_size_check_not_numeric w target fields limit Hl Hn).
    + rewrite (perform_check_process w vp c fields Ht).
      apply bind_render_nothing. right.
      unfold process_check, dict_get. rewrite Hl. cbn [default from_option id].
      destruct (container_exec_run w c _) as [output|]; [|done].
      cbn [mbind result_bind].
      destruct (high_cpu_not_numeric limit (split_on newline (strip output)) [] Hn)
        as [_ [-> | ->]]; done.
    + rewrite (perform_check_network w vp c fields Ht).
      apply bind_render_nothing. right.
      unfold network_usage_check, dict_get. rewrite Hl. cbn [default from_option id].
      destruct (container_stats w c) as [stats|]; [|done].
      cbn [mbind result_bind]. unfold py_gt. by rewrite Hn.
Qed.

(** C3, as amended. A strategy run never raises on account of a check,
    and the checks after a check are evaluated whatever became of it: the
    run of a named strategy returns, for any check configurations
    whatsoever, the flags of the checks before, then what the check
    appends, at most one flag, then the flags of the checks after. A check
    that meets a failure (a missing path, an I/O call that fails, a package
    file that cannot be opened or parsed, a command that cannot be run, a
    numeric limit that is no number, or any exception that reaches the
    executor) appends no flag, and the run is the run of the same checks
    without it. The evaluators that guard their own calls (package file,
    logs, command, statistics) answer no match when the call fails. A
    malformed CPU column in a line of the process listing is no such
    failure: the line alone is passed over and the lines after it are
    compared as if it were not there. *)
Theorem check_failure_contained w (volume_path container : string) :
  (∀ fields name,
      dict_lookup fields "name" = Some name →
      ∃ flags, execute_strategy w (JObj fields) volume_path container = Ok flags)
  ∧ (∀ fields name before check_config after,
      dict_lookup fields "name" = Some name →
      dict_lookup fields "checks" = Some (JArr (before ++ check_config :: after)) →
      execute_strategy w (JObj fields) volume_path container
        = Ok (fold_left (run_check w volume_path container) before []
                ++ run_check w volume_path container [] check_config
                ++ fold_left (run_check w volume_path container) after [])
      ∧ (length (run_check w volume_path container [] check_config) ≤ 1)%nat)
  ∧ (∀ check_config flags,
      failure w volume_path container check_config →
      run_check w volume_path container flags (JObj check_config) = flags)
  ∧ (∀ fields fields' name name' before check_config after,
      dict_lookup fields "name" = Some name →
      dict_lookup fields "checks" = Some (JArr (before ++ JObj check_config :: after)) →
      dict_lookup fields' "name" = Some name' →
      dict_lookup fields' "checks" = Some (JArr (before ++ after)) →
      failure w volume_path container check_config →
      ∃ flags,
        execute_strategy w (JObj fields) volume_path container = Ok flags
        ∧ execute_strategy w (JObj fields') volume_path container = Ok flags)
  ∧ (∀ check_config file,
      dict_get check_config "file" (JStr "package.json") = JStr file →
      path_exists w (path_join volume_path file) = false
      ∨ load_json w (path_join volume_path file) = Raise →
      dependency_check w volume_path check_config = Ok None)
  ∧ (∀ check_config,
      container_logs w container = Raise →
      log_content_check w container check_config = Ok None)
  ∧ (∀ check_config,
      container_exec_run w container (dict_get_none check_config "command") = Raise →
      process_check w container check_config = Ok None)
  ∧ (∀ check_config,
      container_stats w container = Raise →
      network_usage_check w container check_config = Ok None)
  ∧ (∀ strategy,
      well_formed_rule strategy = true →
      ∃ flags, execute_strategy w strategy volume_path container = Ok flags)
  ∧ (∀ cpu_threshold line rest found,
      malformed_cpu line →
      high_cpu cpu_threshold (line :: rest) found = high_cpu cpu_threshold rest found).
Proof.
  assert (Hnothing : ∀ check_config flags,
             failure w volume_path container check_config →
             run_check w volume_path container flags (JObj check_config) = flags).
  { intros cfg flags Hf. by apply run_check_no_flag, failure_no_flag. }
  split; [apply execute_strategy_total|].
  split.
  { intros fields name before cfg after Hn Hc.
    rewrite (execute_strategy_checks w volume_path container fields name _ Hn Hc).
    split.
    - f_equal. rewrite fold_left_app. cbn [fold_left].
      rewrite run_checks_app, (run_check_app _ _ _ (fold_left _ before [])).
      by rewrite <- app_assoc.
    - apply (run_check_length w volume_path container [] cfg). }
  split; [exact Hnothing|].
  split.
  { intros fields fields' name name' before cfg after Hn Hc Hn' Hc' Hf.
    eapply execute_strategy_skip; eauto. }
  split; [intros cfg file; apply dependency_check_unparsed|].
  split; [|split; [|split; [|split]]].
  - intros cfg Hl. unfold log_content_check. by rewrite Hl.
  - intros cfg Hl. unfold process_check. by rewrite Hl.
  - intros cfg Hl. unfold network_usage_check. by rewrite Hl.
  - intros [| | | | | |fields] Hw; try done.
    unfold well_formed_rule, dict_get_none, dict_get in Hw.
    destruct (dict_lookup fields "name") as [name|] eqn:Hn; [|done].
    by apply (execute_strategy_total w volume_path container fields name).
  - intros thr line rest found (field & Hcol & Hfloat).
    by rewrite high_cpu_step, Hcol, Hfloat.
Qed.

End Properties.

(** * The properties on the sample deployment *)

Section OnSample.
Import Sample.

(** ** The embedding at work *)

Example usage_megabytes_values :
  usage_megabytes 1100000 = Ok "1.05"
  ∧ usage_megabytes 0 = Ok "0.00"
  ∧ usage_megabytes 131072 = Ok "0.12"
  ∧ usage_megabytes 393216 = Ok "0.38"
  ∧ usage_megabytes (-1) = Ok "-0.00"
  ∧ usage_megabytes (2 ^ 53 + 1) = Ok "8589934592.00"
  ∧ usage_megabytes (2 ^ 1034 - 2 ^ 981) <> Raise
  ∧ usage_megabytes (2 ^ 1034 - 2 ^ 980) = Raise.
Proof. repeat split; (vm_compute; congruence). Qed.

Example py_format_values :
  let a := {| arg_pattern := "P"; arg_filename := "F"; arg_dependency := "D";
              arg_usage := "U"; arg_processes := "X" |} in
  py_format "{{{pattern}}} and {filename}" a = Ok "{P} and F"
  ∧ py_format "{" a = Raise
  ∧ py_format "a}" a = Raise
  ∧ py_format "{}" a = Raise
  ∧ py_format "{0}" a = Raise
  ∧ py_format "{pattern" a = Raise
  ∧ py_format "{pat{tern}" a = Raise
  ∧ py_format "{ pattern}" a = Raise
  ∧ py_format "}{" a = Raise.
Proof. repeat split; reflexivity. Qed.

Example string_values :
  split ("  a " +:+ String newline " b") = ["a"; "b"]
  ∧ split_on newline ("a" +:+ String newline (String newline "b")) = ["a"; ""; "b"]
  ∧ split_on newline "" = [""]
  ∧ strip "  x y  " = "x y"
  ∧ lower "Malicious-LIB" = "malicious-lib"
  ∧ contains "malicious-lib-v2" "malicious-lib" = true
  ∧ contains "abc" "" = true
  ∧ join ", " ["a"; "b"; "c"] = "a, b, c".
Proof. repeat split; reflexivity. Qed.

Example path_values :
  path_join "/v" "x" = "/v/x"
  ∧ path_join "/v/" "x" = "/v/x"
  ∧ path_join "/v" "/x" = "/x"
  ∧ path_join "" "x" = "x"
  ∧ basename "/a/b/c.txt" = "c.txt"
  ∧ basename "/a/b/" = ""
  ∧ basename "abc" = "abc".
Proof. repeat split; reflexivity. Qed.

Example keys_after_update_values :
  keys_after_update (JObj [("a", JInt 1); ("b", JInt 2)])
                    (JObj [("b", JInt 3); ("c", JInt 4)])
    = Ok [JStr "a"; JStr "b"; JStr "c"]
  ∧ keys_after_update (JObj [("a", JInt 1)])
                      (JArr [JArr [JStr "b"; JInt 2]; JStr "cd"; JArr [JInt 1; JInt 2];
                             JArr [JBool true; JInt 9]])
    = Ok [JStr "a"; JStr "b"; JStr "c"; JInt 1]
  ∧ keys_after_update (JObj [("a", JInt 1)]) JNull = Raise
  ∧ keys_after_update (JObj [("a", JInt 1)]) (JArr [JStr "abc"]) = Raise
  ∧ keys_after_update (JArr []) (JObj []) = Raise.
Proof. repeat split; reflexivity. Qed.

Example sample_rules : load_strategies world = [network_rule].
Proof. reflexivity. Qed.

Example sample_strategy_run :
  execute_strategy world
    (JObj (strategy_with
             [JObj size_check; JObj network_check; JObj dependency_check_config;
              JObj process_check_config; JStr "x"; JObj [("type", JStr "cpu")]]))
    "/var/lib/pterodactyl/volumes/c1" "c1"
  = Ok ["Used 1.05 MB"; "Dependency malicious-lib-v2";
        "Busy: 1 root      20   0  712345  51234   3120 S  95.5   1.2  10:01.22 xmrig"].
Proof. vm_compute. reflexivity. Qed.

Example sample_sweep :
  scan_all_containers world [network_rule] ∅
  = Ok ({["c1" := JBool true]},
        [("c1", CheckVolume); ("c1", ResolveServerId); ("c1", PublicAlert JNull);
         ("c1", PrivateAlert JNull ["Used 1.05 MB"]);
         ("c1", WriteFlagged {["c1" := JBool true]});
         ("c2", CheckVolume)]).
Proof. vm_compute. reflexivity. Qed.

(** ** The properties, applied *)

Lemma flagged_identifier_excluded_witness :
  ({["c1" := JBool true]} : gmap string json) !! "c1" = Some (JBool true)
  ∧ (sweeps [network_rule] [world; bare_world; world] {["c1" := JBool true]}).1 !! "c1"
      = Some (JBool true)
  ∧ Forall (λ e, ¬ concerns "c1" e)
      (sweeps [network_rule] [world; bare_world; world] {["c1" := JBool true]}).2.
Proof.
  assert (Hf : ({["c1" := JBool true]} : gmap string json) !! "c1" = Some (JBool true))
    by apply lookup_singleton_eq.
  split; [exact Hf|].
  exact (proj2 (flagged_identifier_excluded [network_rule] {["c1" := JBool true]} "c1" Hf)
           [world; bare_world; world]).
Defined.

Lemma marked_when_resolution_fails_witness :
  ∃ flagged' trace written,
    scan_all_containers world [network_rule] ∅ = Ok (flagged', trace)
    ∧ filter (concerns "c1") trace =
        [("c1", CheckVolume); ("c1", ResolveServerId); ("c1", PublicAlert JNull);
         ("c1", PrivateAlert JNull ["Used 1.05 MB"]); ("c1", WriteFlagged written)]
    ∧ written !! "c1" = Some (JBool true)
    ∧ flagged' !! "c1" = Some (JBool true)
    ∧ ∀ server_id, ("c1", SuspendServer server_id) ∉ trace.
Proof.
  apply (marked_when_resolution_fails world [network_rule] ∅ ["c1"; "c2"] "c1"
           ["Used 1.05 MB"]).
  - reflexivity.
  - by left.
  - reflexivity.
  - vm_compute. reflexivity.
  - discriminate.
  - reflexivity.
Defined.

Lemma check_failure_contained_witness :
  failure world "/var/lib/pterodactyl/volumes/c1" "c1" size_check
  ∧ failure world "/var/lib/pterodactyl/volumes/c2" "c2" dependency_check_config
  ∧ run_check world "/var/lib/pterodactyl/volumes/c2" "c2" ["earlier"]
      (JObj dependency_check_config) = ["earlier"]
  ∧ ∃ flags,
      execute_strategy world (JObj (strategy_with [JObj size_check; JObj network_check]))
        "/var/lib/pterodactyl/volumes/c1" "c1" = Ok flags
      ∧ execute_strategy world (JObj (strategy_with [JObj network_check]))
          "/var/lib/pterodactyl/volumes/c1" "c1" = Ok flags.
Proof.
  assert (Hsize : failure world "/var/lib/pterodactyl/volumes/c1" "c1" size_check).
  { apply (limit_malformed _ _ _ _ "file_size" "max_size" (JStr "1MB"));
      [by left|reflexivity..]. }
  assert (Hpackage : failure world "/var/lib/pterodactyl/volumes/c2" "c2"
                       dependency_check_config).
  { apply (package_unparsed _ _ _ _ "package.json"); reflexivity. }
  split; [exact Hsize|]. split; [exact Hpackage|]. split.
  - exact (proj1 (proj2 (proj2 (check_failure_contained world
                                  "/var/lib/pterodactyl/volumes/c2" "c2")))
             dependency_check_config ["earlier"] Hpackage).
  - exact (proj1 (proj2 (proj2 (proj2 (check_failure_contained world
                                         "/var/lib/pterodactyl/volumes/c1" "c1"))))
             (strategy_with [JObj size_check; JObj network_check])
             (strategy_with [JObj network_check])
             (JStr "Mixed") (JStr "Mixed") [] size_check [JObj network_check]
             eq_refl eq_refl eq_refl eq_refl Hsize).
Defined.

(** C3 does not hold as stated: the header of the process listing has a
    CPU column that is no number, a malformed numeric field met during the
    check, and the check still appends a flag, for the line of the miner. *)
Lemma check_failure_contained_counterexample :
  container_exec_run world "c1" (JStr "top -b -n 1") = Ok top_output
  ∧ strip top_header ∈ output_lines top_output
  ∧ cpu_column (strip top_header) = Some "%CPU"
  ∧ py_float "%CPU" = None
  ∧ run_check world "/var/lib/pterodactyl/volumes/c1" "c1" [] (JObj process_check_config)
    = ["Busy: 1 root      20   0  712345  51234   3120 S  95.5   1.2  10:01.22 xmrig"]
  ∧ ¬ (∀ w volume_path container check_config output line flags,
         container_exec_run w container (dict_get_none check_config "command")
           = Ok output →
         line ∈ output_lines output →
         malformed_cpu line →
         run_check w volume_path container flags (JObj check_config) = flags).
Proof.
  assert (Hline : strip top_header ∈ output_lines top_output)
    by (vm_compute; by left).
  split; [reflexivity|]. split; [exact Hline|].
  split; [reflexivity|]. split; [reflexivity|]. split; [vm_compute; reflexivity|].
  intros Hall.
  specialize (Hall world "/var/lib/pterodactyl/volumes/c1" "c1" process_check_config
                top_output (strip top_header) [] eq_refl Hline).
  assert (Hbad : malformed_cpu (strip top_header))
    by (exists "%CPU"; split; reflexivity).
  specialize (Hall Hbad). vm_compute in Hall. discriminate Hall.
Qed.

Lemma template_rendering_witness :
  replace_placeholders
    (JStr (write_template
             [Literal "{"; Placeholder "pattern"; Literal "} in ";
              Placeholder "filename"; Literal ", "; Placeholder "usage";
              Literal " MB"]))
    (pattern_evidence "eval(")
  = Ok "{eval(} in , 0.00 MB"
  ∧ malformed "Traffic: {bytes} bytes"
  ∧ run_check world "/var/lib/pterodactyl/volumes/c1" "c1" ["earlier"]
      (JObj [("type", JStr "network_usage"); ("message", JStr "Traffic: {bytes} bytes")])
    = ["earlier"]
  ∧ run_check world "/var/lib/pterodactyl/volumes/c1" "c1" ["earlier"]
      (JObj [("type", JStr "network_usage"); ("message", JStr "Traffic: {usage} MB")])
    = ["earlier"; "Traffic: 1.05 MB"].
Proof.
  assert (Hplain : Forall plain
            [Literal "{"; Placeholder "pattern"; Literal "} in ";
             Placeholder "filename"; Literal ", "; Placeholder "usage";
             Literal " MB"]).
  { repeat constructor; unfold plain, placeholders;
      first [by left | by right; left | by right; right; right; left]. }
  assert (Husage : ∀ n, ev_usage (pattern_evidence "eval(") = Some n
                        → Z.abs n < usage_limit).
  { intros n Hn. discriminate Hn. }
  assert (Hbad : malformed "Traffic: {bytes} bytes").
  { apply (unknown_placeholder [Literal "Traffic: "] "bytes" "}" " bytes").
    - by repeat constructor.
    - reflexivity.
    - unfold placeholders. intros Hin.
      repeat (apply elem_of_cons in Hin as [Hin|Hin]; [discriminate Hin|]).
      by apply elem_of_nil in Hin.
    - reflexivity. }
  destruct (template_rendering _ (pattern_evidence "eval(") Hplain Husage)
    as (Hrender & _ & _ & _ & _ & _ & _ & Hflag & _).
  split; [exact Hrender|]. split; [exact Hbad|]. split; [|vm_compute; reflexivity].
  exact (Hflag world "/var/lib/pterodactyl/volumes/c1" "c1"
           [("type", JStr "network_usage"); ("message", JStr "Traffic: {bytes} bytes")]
           "Traffic: {bytes} bytes" ["earlier"] Hbad eq_refl).
Defined.

(** C4 does not hold as stated: a template that names a placeholder other
    than the five (here [file] for [filename]), or that has a single brace,
    raises; the evidence has the file name. So does any template, even one
    without a placeholder, when the evidence has a [usage] whose division
    into megabytes overflows; one byte less and it renders. *)
Lemma template_rendering_counterexample :
  replace_placeholders (JStr "Suspicious file {file}") (filename_evidence "miner.exe")
    = Raise
  ∧ replace_placeholders (JStr "Found {") (filename_evidence "miner.exe") = Raise
  ∧ replace_placeholders (JStr "Traffic is high") (usage_evidence usage_limit) = Raise
  ∧ replace_placeholders (JStr "Traffic is high") (usage_evidence (usage_limit - 1))
    = Ok "Traffic is high"
  ∧ ¬ (∀ (P : Python) (template : string) (data : evidence),
         ∃ message, @replace_placeholders P (JStr template) data = Ok message)
  ∧ ¬ (∀ (P : Python) (template : list piece) (data : evidence),
         Forall plain template →
         ∃ message,
           @replace_placeholders P (JStr (write_template template)) data = Ok message).
Proof.
  split; [reflexivity|]. split; [reflexivity|].
  split; [vm_compute; reflexivity|]. split; [vm_compute; reflexivity|].
  split.
  - intros Hall.
    destruct (Hall python "Suspicious file {file}" (filename_evidence "miner.exe"))
      as [message Hm].
    discriminate Hm.
  - intros Hall.
    destruct (Hall python [Literal "Traffic is high"] (usage_evidence usage_limit))
      as [message Hm]; [by repeat constructor|].
    vm_compute in Hm. discriminate Hm.
Qed.


Lemma load_strategies_spec_witness :
  load_strategies world = [network_rule]
  ∧ load_strategies bare_world = []
  ∧ (main bare_world [world; world] ∅).1 = ∅
  ∧ Forall (λ e : event, e.2 = CheckVolume) (main bare_world [world; world] ∅).2.
Proof.
  split; [exact (proj1 (load_strategies_spec world))|].
  split; [reflexivity|].
  exact (proj2 (proj2 (proj2 (proj2 (load_strategies_spec bare_world)))) eq_refl
           [world; world] ∅).
Defined.

(** C6 does not hold as stated: the rule of [d.protect] has a [name] (the
    empty string), a [type] and a sequence of [checks], and is not loaded. *)
Lemma load_strategies_counterexample :
  (("d.protect", Ok nameless_rule) ∈ strategy_files world
   ∧ dict_lookup [("name", JStr ""); ("type", JStr "files"); ("checks", JArr [])] "name"
       = Some (JStr "")
   ∧ nameless_rule ∉ load_strategies world)
  ∧ ¬ (∀ w file fields name type check_configs,
         (file, Ok (JObj fields)) ∈ strategy_files w →
         dict_lookup fields "name" = Some name →
         dict_lookup fields "type" = Some type →
         dict_lookup fields "checks" = Some (JArr check_configs) →
         JObj fields ∈ load_strategies w).
Proof.
  assert (Hnot : nameless_rule ∉ load_strategies world).
  { change (load_strategies world) with [network_rule].
    intros Hin. apply list_elem_of_singleton in Hin. discriminate Hin. }
  assert (Hfile : ("d.protect", Ok nameless_rule) ∈ strategy_files world).
  { simpl. do 3 right. left. }
  split; [by repeat split|].
  intros Hall. apply Hnot.
  exact (Hall world "d.protect" _ (JStr "") (JStr "files") [] Hfile
           eq_refl eq_refl eq_refl).
Qed.





Lemma unknown_kind_skipped_witness :
  recognized (JObj [("type", JStr "cpu_usage"); ("message", JStr "Busy")]) = false
  ∧ ∃ flags,
      execute_strategy world
        (JObj (strategy_with
                 [JObj network_check;
                  JObj [("type", JStr "cpu_usage"); ("message", JStr "Busy")];
                  JObj dependency_check_config]))
        "/var/lib/pterodactyl/volumes/c1" "c1" = Ok flags
      ∧ execute_strategy world
          (JObj (strategy_with [JObj network_check; JObj dependency_check_config]))
          "/var/lib/pterodactyl/volumes/c1" "c1" = Ok flags.
Proof.
  split; [reflexivity|].
  exact (proj2 (unknown_kind_skipped world "/var/lib/pterodactyl/volumes/c1" "c1"
                  (strategy_with
                     [JObj network_check;
                      JObj [("type", JStr "cpu_usage"); ("message", JStr "Busy")];
                      JObj dependency_check_config])
                  (strategy_with [JObj network_check; JObj dependency_check_config])
                  (JStr "Mixed") (JStr "Mixed")
                  [JObj network_check] [JObj dependency_check_config]
                  (JObj [("type", JStr "cpu_usage"); ("message", JStr "Busy")])
                  eq_refl eq_refl eq_refl eq_refl eq_refl)).
Defined.

Lemma absent_limit_is_zero_witness :
  file_size_check world "/var/lib/pterodactyl/volumes/c1/core.dump"
      [("type", JStr "file_size"); ("path", JStr "core.dump")]
    = Ok (Some (filename_evidence "core.dump"))
  ∧ (∃ lines,
      process_check world "c1" process_check_config = Ok (Some (processes_evidence lines))
      ∧ strip top_miner ∈ lines)
  ∧ network_usage_check world "c1" [("type", JStr "network_usage")]
    = Ok (Some (usage_evidence 1100000)).
Proof.
  split; [|split].
  - exact (proj1 (absent_limit_is_zero world)
             "/var/lib/pterodactyl/volumes/c1/core.dump"
             [("type", JStr "file_size"); ("path", JStr "core.dump")] 4096
             eq_refl eq_refl eq_refl).
  - refine (proj1 (proj2 (absent_limit_is_zero world)) "c1" process_check_config
              top_output top_miner
              "95.5" (FFin (Qmake 955 10)) eq_refl eq_refl _ eq_refl eq_refl eq_refl).
    vm_compute. set_solver.
  - exact (proj2 (proj2 (absent_limit_is_zero world)) "c1"
             [("type", JStr "network_usage")]
             {| networks := Some [("eth0", eth0); ("eth1", eth1)] |}
             eq_refl eq_refl).
Defined.

End OnSample.

(** * The further properties on the second deployment *)

Section OnFleet.
Import Sample.

Lemma sweep_marks_detections_witness :
  ∃ flagged' trace,
    scan_all_containers Fleet.world [Fleet.traffic_rule] ∅ = Ok (flagged', trace)
    ∧ (∀ uuid,
        flagged' !! uuid =
          if bool_decide (uuid ∈ Fleet.uuids) && unflagged ∅ uuid
             && detects Fleet.world [Fleet.traffic_rule] uuid
          then Some (JBool true) else (∅ : gmap string json) !! uuid)
    ∧ (∀ uuids', Fleet.uuids ≡ₚ uuids' →
                 (scan_loop Fleet.world [Fleet.traffic_rule] uuids' ∅).1 = flagged').
Proof.
  exact (sweep_marks_detections Fleet.world [Fleet.traffic_rule] ∅ Fleet.uuids eq_refl).
Defined.

Lemma containment_at_most_once_witness :
  KSuspendServer ≠ KCheckVolume
  ∧ (occurrences "c1" KSuspendServer
       (sweeps [Fleet.traffic_rule] [Fleet.world; Fleet.shouting_world; Fleet.world] ∅).2 ≤ 1)%nat
  ∧ (∀ start,
       (occurrences "c1" KSuspendServer
          (main start [Fleet.world; Fleet.shouting_world; Fleet.world] ∅).2 ≤ 1)%nat).
Proof.
  assert (Hk : KSuspendServer ≠ KCheckVolume) by discriminate.
  split; [exact Hk|].
  destruct (containment_at_most_once [Fleet.traffic_rule]
              [Fleet.world; Fleet.shouting_world; Fleet.world] ∅ "c1" KSuspendServer Hk)
    as (Hone & _ & Hmain).
  split; [exact Hone | exact Hmain].
Defined.

Lemma notified_iff_detected_witness :
  listdir Fleet.world (VOLUMES_DIR Fleet.world) = Ok Fleet.uuids
  ∧ scan_all_containers Fleet.world [Fleet.traffic_rule] ∅ = Ok (Fleet.sweep.1, Fleet.sweep.2)
  ∧ ("c1", PrivateAlert (JInt 7) ["Used 1.05 MB"]) ∈ Fleet.sweep.2
  ∧ ("c3", PublicAlert JNull) ∈ Fleet.sweep.2
  ∧ ¬ (∃ server_id, ("c2", PublicAlert server_id) ∈ Fleet.sweep.2).
Proof.
  assert (Hlist : listdir Fleet.world (VOLUMES_DIR Fleet.world) = Ok Fleet.uuids)
    by reflexivity.
  assert (Hsweep : scan_all_containers Fleet.world [Fleet.traffic_rule] ∅
                   = Ok (Fleet.sweep.1, Fleet.sweep.2))
    by (vm_compute; reflexivity).
  split; [exact Hlist|]. split; [exact Hsweep|].
  split; [|split].
  - apply (proj1 (notified_iff_detected Fleet.world [Fleet.traffic_rule] ∅
                    Fleet.sweep.1 Fleet.uuids Fleet.sweep.2 "c1" Hlist Hsweep)).
    split; [by left|]. repeat split; try (vm_compute; reflexivity). discriminate.
  - apply (proj2 (notified_iff_detected Fleet.world [Fleet.traffic_rule] ∅
                    Fleet.sweep.1 Fleet.uuids Fleet.sweep.2 "c3" Hlist Hsweep)).
    split; [by right; right; left|]. repeat split; vm_compute; reflexivity.
  - intros [server_id Hin].
    apply (proj2 (notified_iff_detected Fleet.world [Fleet.traffic_rule] ∅
                    Fleet.sweep.1 Fleet.uuids Fleet.sweep.2 "c2" Hlist Hsweep)) in Hin.
    destruct Hin as (_ & _ & Hdetects & _). vm_compute in Hdetects. discriminate Hdetects.
Defined.

Lemma suspended_iff_resolved_witness :
  listdir Fleet.world (VOLUMES_DIR Fleet.world) = Ok Fleet.uuids
  ∧ scan_all_containers Fleet.world [Fleet.traffic_rule] ∅ = Ok (Fleet.sweep.1, Fleet.sweep.2)
  ∧ ("c1", SuspendServer (JInt 7)) ∈ Fleet.sweep.2
  ∧ ("c3", ResolveServerId) ∈ Fleet.sweep.2
  ∧ ¬ (∃ server_id, ("c3", SuspendServer server_id) ∈ Fleet.sweep.2).
Proof.
  assert (Hlist : listdir Fleet.world (VOLUMES_DIR Fleet.world) = Ok Fleet.uuids)
    by reflexivity.
  assert (Hsweep : scan_all_containers Fleet.world [Fleet.traffic_rule] ∅
                   = Ok (Fleet.sweep.1, Fleet.sweep.2))
    by (vm_compute; reflexivity).
  split; [exact Hlist|]. split; [exact Hsweep|].
  split; [|split].
  - apply (proj2 (suspended_iff_resolved Fleet.world [Fleet.traffic_rule] ∅
                    Fleet.sweep.1 Fleet.uuids Fleet.sweep.2 "c1" Hlist Hsweep)).
    split; [by left|]. repeat split; vm_compute; reflexivity.
  - apply (proj1 (suspended_iff_resolved Fleet.world [Fleet.traffic_rule] ∅
                    Fleet.sweep.1 Fleet.uuids Fleet.sweep.2 "c3" Hlist Hsweep)).
    split; [by right; right; left|]. split; vm_compute; reflexivity.
  - intros [server_id Hin].
    apply (proj2 (suspended_iff_resolved Fleet.world [Fleet.traffic_rule] ∅
                    Fleet.sweep.1 Fleet.uuids Fleet.sweep.2 "c3" Hlist Hsweep)) in Hin.
    destruct Hin as (_ & _ & _ & -> & Htrue). vm_compute in Htrue. discriminate Htrue.
Defined.

Lemma every_unflagged_volume_checked_witness :
  listdir Fleet.world (VOLUMES_DIR Fleet.world) = Ok Fleet.uuids
  ∧ scan_all_containers Fleet.world [Fleet.traffic_rule] ∅ = Ok (Fleet.sweep.1, Fleet.sweep.2)
  ∧ ("c2", CheckVolume) ∈ Fleet.sweep.2
  ∧ ("c3", CheckVolume) ∈ Fleet.sweep.2.
Proof.
  assert (Hlist : listdir Fleet.world (VOLUMES_DIR Fleet.world) = Ok Fleet.uuids)
    by reflexivity.
  assert (Hsweep : scan_all_containers Fleet.world [Fleet.traffic_rule] ∅
                   = Ok (Fleet.sweep.1, Fleet.sweep.2))
    by (vm_compute; reflexivity).
  split; [exact Hlist|]. split; [exact Hsweep|]. split.
  - apply (every_unflagged_volume_checked Fleet.world [Fleet.traffic_rule] ∅
             Fleet.sweep.1 Fleet.uuids Fleet.sweep.2 "c2" Hlist Hsweep).
    split; [by right; left | reflexivity].
  - apply (every_unflagged_volume_checked Fleet.world [Fleet.traffic_rule] ∅
             Fleet.sweep.1 Fleet.uuids Fleet.sweep.2 "c3" Hlist Hsweep).
    split; [by right; right; left | reflexivity].
Defined.

Lemma resolution_first_listed_witness :
  servers_page Fleet.world = Ok Fleet.listing
  ∧ get_server_id_from_uuid Fleet.world "c1" = JInt 7.
Proof.
  split; [reflexivity|].
  refine (proj1 (resolution_first_listed Fleet.world "c1" Fleet.listing eq_refl)
            [Fleet.server_entry "c2" 12] (Fleet.server_entry "c1" 7)
            [Fleet.broken_entry; Fleet.server_entry "c3" 9] (JInt 7) eq_refl _ _).
  - constructor; [|constructor].
    exists (JObj [("id", JInt 12); ("uuid", JStr "c2"); ("suspended", JBool false)]),
           (JStr "c2").
    repeat split; reflexivity.
  - exists (JObj [("id", JInt 7); ("uuid", JStr "c1"); ("suspended", JBool false)]).
    repeat split; reflexivity.
Defined.

Lemma resolution_fails_to_none_witness :
  servers_page Fleet.world = Ok Fleet.listing
  ∧ get_server_id_from_uuid Fleet.world "c3" = JNull
  ∧ get_server_id_from_uuid Fleet.shouting_world "c3" = JNull.
Proof.
  split; [reflexivity|]. split.
  - refine (proj2 (proj2 (proj2 (resolution_fails_to_none Fleet.world "c3")))
              Fleet.listing [Fleet.server_entry "c2" 12; Fleet.server_entry "c1" 7]
              Fleet.broken_entry [Fleet.server_entry "c3" 9] eq_refl eq_refl _ _).
    + constructor; [|constructor; [|constructor]].
      * exists (JObj [("id", JInt 12); ("uuid", JStr "c2"); ("suspended", JBool false)]),
               (JStr "c2").
        repeat split; reflexivity.
      * exists (JObj [("id", JInt 7); ("uuid", JStr "c1"); ("suspended", JBool false)]),
               (JStr "c1").
        repeat split; reflexivity.
    + left. reflexivity.
  - exact (proj1 (resolution_fails_to_none Fleet.shouting_world "c3") eq_refl).
Defined.

Lemma check_volume_raises_iff_witness :
  check_volume Fleet.world "c1" [Fleet.traffic_rule; Fleet.nameless_rule] = Raise
  ∧ check_volume Fleet.world "c1" [Fleet.traffic_rule] ≠ Raise.
Proof.
  split.
  - apply (proj2 (proj1 (check_volume_raises_iff Fleet.world "c1"
                           [Fleet.traffic_rule; Fleet.nameless_rule]))).
    split; [reflexivity|]. split; [by exists "c1"|].
    exists Fleet.nameless_rule. split; [by right; left | reflexivity].
  - intros Hraise.
    apply (proj1 (proj1 (check_volume_raises_iff Fleet.world "c1" [Fleet.traffic_rule])))
      in Hraise.
    destruct Hraise as (_ & _ & strategy & Hin & Hname).
    apply list_elem_of_singleton in Hin. subst strategy. discriminate Hname.
Defined.

Lemma execute_strategy_flags_witness :
  dict_lookup Fleet.combined_fields "name" = Some (JStr "Traffic and miners")
  ∧ execute_strategy Fleet.world (JObj Fleet.traffic_fields)
      "/var/lib/pterodactyl/volumes/c1" "c1" = Ok ["Used 1.05 MB"]
  ∧ execute_strategy Fleet.world (JObj Fleet.miner_fields)
      "/var/lib/pterodactyl/volumes/c1" "c1" = Ok ["Log mentions XMRig"]
  ∧ execute_strategy Fleet.world (JObj Fleet.combined_fields)
      "/var/lib/pterodactyl/volumes/c1" "c1" = Ok ["Used 1.05 MB"; "Log mentions XMRig"].
Proof.
  assert (Htraffic : execute_strategy Fleet.world (JObj Fleet.traffic_fields)
                       "/var/lib/pterodactyl/volumes/c1" "c1" = Ok ["Used 1.05 MB"])
    by (vm_compute; reflexivity).
  assert (Hminer : execute_strategy Fleet.world (JObj Fleet.miner_fields)
                     "/var/lib/pterodactyl/volumes/c1" "c1" = Ok ["Log mentions XMRig"])
    by (vm_compute; reflexivity).
  split; [reflexivity|]. split; [exact Htraffic|]. split; [exact Hminer|].
  exact (proj1 (proj2 (execute_strategy_flags Fleet.world
                         "/var/lib/pterodactyl/volumes/c1" "c1" Fleet.combined_fields
                         (JStr "Traffic and miners") eq_refl))
           Fleet.traffic_fields Fleet.miner_fields (JStr "Traffic") (JStr "Miners")
           [Fleet.traffic_check] [Fleet.miner_check] ["Used 1.05 MB"] ["Log mentions XMRig"]
           eq_refl eq_refl eq_refl eq_refl eq_refl Htraffic Hminer).
Defined.

Lemma non_numeric_limit_never_flags_witness :
  num_of_json (JStr "1000000") = None
  ∧ run_check Fleet.world "/var/lib/pterodactyl/volumes/c3" "c3" ["earlier"]
      (JObj Fleet.stringly_check) = ["earlier"]
  ∧ run_check Fleet.world "/var/lib/pterodactyl/volumes/c3" "c3" ["earlier"]
      Fleet.traffic_check = ["earlier"; "Used 1.72 MB"].
Proof.
  split; [reflexivity|]. split; [|vm_compute; reflexivity].
  apply (non_numeric_limit_never_flags Fleet.world "/var/lib/pterodactyl/volumes/c3" "c3"
           Fleet.stringly_check (JStr "1000000") ["earlier"] eq_refl).
  right. right. split; reflexivity.
Defined.

Lemma file_existence_first_match_witness :
  dict_get Fleet.exe_check "patterns" (JArr []) = JArr (map JStr ["*.bat"; "*.exe"; "*.sh"])
  ∧ file_existence_check Fleet.world "/var/lib/pterodactyl/volumes/c1" Fleet.exe_check
    = Ok (Some (filename_evidence "miner.exe")).
Proof.
  split; [reflexivity|].
  refine (proj1 (file_existence_first_match Fleet.world "/var/lib/pterodactyl/volumes/c1"
                   Fleet.exe_check ["*.bat"; "*.exe"; "*.sh"] eq_refl)
            ["*.bat"] "*.exe" ["*.sh"] "/var/lib/pterodactyl/volumes/c1/miner.exe"
            ["/var/lib/pterodactyl/volumes/c1/setup.exe"] eq_refl _ eq_refl).
  constructor; [reflexivity | constructor].
Defined.

Lemma file_content_first_pattern_witness :
  dict_get Fleet.script_check "patterns" (JArr [])
    = JArr (map JStr ["XMRIG"; "xmrig"; "donate"])
  ∧ file_content_check Fleet.world "/var/lib/pterodactyl/volumes/c1/start.sh"
      Fleet.script_check = Ok (Some (pattern_evidence "xmrig"))
  ∧ file_content_check Fleet.world "/var/lib/pterodactyl/volumes/c1/locked.txt"
      Fleet.script_check = Raise
  ∧ file_content_check Fleet.world "/var/lib/pterodactyl/volumes/c2/start.sh"
      Fleet.script_check = Ok None.
Proof.
  split; [reflexivity|]. split; [|split].
  - exact (proj1 (file_content_first_pattern Fleet.world
                    "/var/lib/pterodactyl/volumes/c1/start.sh" Fleet.script_check
                    ["XMRIG"; "xmrig"; "donate"] eq_refl)
             Fleet.start_script eq_refl eq_refl).
  - exact (proj1 (proj2 (proj2 (proj2 (file_content_first_pattern Fleet.world
                    "/var/lib/pterodactyl/volumes/c1/locked.txt" Fleet.script_check
                    ["XMRIG"; "xmrig"; "donate"] eq_refl))))
             eq_refl eq_refl).
  - exact (proj2 (proj2 (proj2 (proj2 (file_content_first_pattern Fleet.world
                    "/var/lib/pterodactyl/volumes/c2/start.sh" Fleet.script_check
                    ["XMRIG"; "xmrig"; "donate"] eq_refl))))
             Fleet.script_check eq_refl).
Defined.

Lemma log_content_ignores_case_witness :
  dict_get Fleet.log_check "patterns" (JArr []) = JArr (map JStr ["stratum"; "XMRig"])
  ∧ log_content_check Fleet.world "c1" Fleet.log_check = Ok (Some (pattern_evidence "XMRig"))
  ∧ log_content_check Fleet.shouting_world "c1" Fleet.log_check
    = log_content_check Fleet.world "c1" Fleet.log_check
  ∧ ∃ ev, log_content_check Fleet.world "c1" Fleet.lowered_log_check = Ok (Some ev).
Proof.
  split; [reflexivity|].
  destruct (log_content_ignores_case Fleet.world "c1" Fleet.log_check
              ["stratum"; "XMRig"] eq_refl) as (Hfirst & Hsame & Hlowered).
  split; [exact (Hfirst Fleet.logs eq_refl)|]. split.
  - refine (Hsame Fleet.shouting_world Fleet.logs _ eq_refl eq_refl _).
    vm_compute; reflexivity.
  - apply (Hlowered Fleet.lowered_log_check eq_refl).
    exists (pattern_evidence "XMRig"). exact (Hfirst Fleet.logs eq_refl).
Defined.

Lemma file_size_names_configured_path_witness :
  dict_lookup Fleet.dump_check "type" = Some (JStr "file_size")
  ∧ dict_lookup Fleet.dump_check "path" = Some (JStr "crash/core.dump")
  ∧ file_check Fleet.world "/var/lib/pterodactyl/volumes/c1" Fleet.dump_check
    = Ok (Some (filename_evidence "core.dump"))
  ∧ filename_evidence "core.dump" = filename_evidence (basename "crash/core.dump").
Proof.
  assert (Hcheck : file_check Fleet.world "/var/lib/pterodactyl/volumes/c1" Fleet.dump_check
                   = Ok (Some (filename_evidence "core.dump")))
    by (vm_compute; reflexivity).
  split; [reflexivity|]. split; [reflexivity|]. split; [exact Hcheck|].
  exact (proj1 (file_size_names_configured_path Fleet.world
                  "/var/lib/pterodactyl/volumes/c1" Fleet.dump_check "crash/core.dump"
                  (filename_evidence "core.dump") eq_refl eq_refl Hcheck)).
Defined.

Lemma absolute_path_ignores_volume_witness :
  starts_with_slash "/etc/hostname" = true
  ∧ file_check Fleet.world "/var/lib/pterodactyl/volumes/c1" Fleet.hostname_check
    = file_check Fleet.world "/var/lib/pterodactyl/volumes/c2" Fleet.hostname_check
  ∧ file_check Fleet.world "/var/lib/pterodactyl/volumes/c2" Fleet.hostname_check
    = Ok (Some (filename_evidence "hostname"))
  ∧ path_join "/var/lib/pterodactyl/volumes/c2" "/etc/hostname" = "/etc/hostname".
Proof.
  split; [reflexivity|].
  destruct (absolute_path_ignores_volume Fleet.world Fleet.hostname_check "/etc/hostname"
              eq_refl) as (Hfile & _ & Hjoin).
  split; [exact (Hfile eq_refl _ _)|]. split; [vm_compute; reflexivity|].
  exact (Hjoin _).
Defined.

Lemma usage_megabytes_nearest_witness :
  0 ≤ 1100000 < 2 ^ 53
  ∧ usage_megabytes 1100000 = Ok "1.05"
  ∧ Z.abs (100 * 1100000 - 105 * 2 ^ 20) ≤ 2 ^ 19
  ∧ usage_megabytes (- 1100000) = Ok "-1.05".
Proof.
  assert (Hrange : 0 ≤ 1100000 < 2 ^ 53) by (split; [discriminate | reflexivity]).
  split; [exact Hrange|].
  destruct (usage_megabytes_nearest 1100000 Hrange) as (Hprint & Hnear & _ & Hminus).
  split; [exact Hprint|]. split; [exact Hnear|]. exact (Hminus eq_refl).
Defined.

Lemma brace_free_template_verbatim_witness :
  brace_free "Traffic above the limit" = true
  ∧ replace_placeholders (JStr "Traffic above the limit") (usage_evidence 1100000)
    = Ok "Traffic above the limit"
  ∧ render (dict_get Fleet.hostname_check "message" (JStr "An undefined issue was detected"))
      (Some (usage_evidence 1100000))
    = Ok (Some "An undefined issue was detected").
Proof.
  split; [reflexivity|].
  assert (Husage : ∀ n, ev_usage (usage_evidence 1100000) = Some n → Z.abs n < 2 ^ 1024).
  { intros n Hn. injection Hn as <-. reflexivity. }
  destruct (brace_free_template_verbatim "Traffic above the limit" (usage_evidence 1100000)
              eq_refl Husage) as (Hverbatim & Hdefault).
  split; [exact Hverbatim | exact (Hdefault Fleet.hostname_check eq_refl)].
Defined.

Lemma dependency_check_unusable_package_witness :
  dict_get Fleet.dependency_config "file" (JStr "package.json") = JStr "package.json"
  ∧ load_json Fleet.world "/var/lib/pterodactyl/volumes/c1/package.json"
    = Ok Fleet.package_json
  ∧ dict_get_none [("dependencies", JObj [("malicious-lib", JStr "1.0.0")])] "dependencies"
    = JObj [("malicious-lib", JStr "1.0.0")]
  ∧ dependency_check Fleet.world "/var/lib/pterodactyl/volumes/c1" Fleet.dependency_config
    = Ok None.
Proof.
  split; [reflexivity|]. split; [reflexivity|]. split; [reflexivity|].
  apply (dependency_check_unusable_package Fleet.world "/var/lib/pterodactyl/volumes/c1"
           Fleet.dependency_config "package.json" Fleet.package_json eq_refl eq_refl eq_refl).
  right.
  exists [("name", JStr "bot");
          ("dependencies", JObj [("malicious-lib", JStr "1.0.0")]);
          ("devDependencies", JNull)].
  split; [reflexivity | right; reflexivity].
Defined.

End OnFleet.
